(** * MTM Event Monitor: a shallow embedding of the matching and
      deduplication engine

    The development follows the two scripts of the extension:

    - [injected-script.js] (page context): interception of [_mtm.push],
      the initial scan of the backlog, the trigger matcher with its
      variable resolver and condition evaluator, and the dispatch gate
      with the global duplicate cache;
    - the content script (consumer): the presentation cache
      ([isExactDuplicate]) and the bounded event log.

    JavaScript data is modelled by the type [value] below.  Numbers are
    IEEE binary64 floats ([PrimFloat]), strings are [string], objects are
    association lists in insertion order.  What the language itself
    provides and the scripts only call (number/string conversion, the
    regular expression engine) is collected in the class [Host]. *)

From Stdlib Require Import ZArith QArith Qcanon String Ascii List PrimFloat Uint63 Lia Bool.
From Stdlib Require FloatOps SpecFloat.
From Stdlib Require Floats Sorted.
From stdpp Require Import base option gmap strings list.

Open Scope string_scope.
Set Warnings "-register-all".

(** ** JavaScript values *)

(** Entries pushed to [_mtm] are data: primitives, arrays and plain
    objects.  Arrays are objects too, so they carry extra named
    properties ([__mtm_processed] is set on them by the monitor).  An
    object on which [Object.freeze] was called is marked [frozen]: in
    strict mode (the whole injected script runs under ['use strict'])
    an assignment to one of its properties raises a [TypeError].
    Prototype-inherited properties, accessors and functions are outside
    this model. *)
Inductive value : Type :=
| VUndefined
| VNull
| VBool (b : bool)
| VNum (n : float)
| VStr (s : string)
| VArr (frozen : bool) (elems : list value) (props : list (string * value))
| VObj (frozen : bool) (props : list (string * value)).

Abbreviation object := (list (string * value)).

Inductive jstype := TUndefined | TObject | TBoolean | TNumber | TString.

Definition typeof (v : value) : jstype :=
  match v with
  | VUndefined => TUndefined
  | VNull => TObject
  | VBool _ => TBoolean
  | VNum _ => TNumber
  | VStr _ => TString
  | VArr _ _ _ | VObj _ _ => TObject
  end.

Definition jstype_eqb (a b : jstype) : bool :=
  match a, b with
  | TUndefined, TUndefined | TObject, TObject | TBoolean, TBoolean
  | TNumber, TNumber | TString, TString => true
  | _, _ => false
  end.

Definition isArray (v : value) : bool :=
  match v with VArr _ _ _ => true | _ => false end.

(** ToBoolean: what [if (v)], [!v], [a || b] and [a && b] test. *)
Definition truthy (v : value) : bool :=
  match v with
  | VUndefined | VNull => false
  | VBool b => b
  | VNum n => negb (PrimFloat.eqb n PrimFloat.zero || PrimFloat.is_nan n)
  | VStr s => negb (String.eqb s "")
  | VArr _ _ _ | VObj _ _ => true
  end.

(** [a || b] *)
Definition js_or (a b : value) : value := if truthy a then a else b.

Definition num_of_nat (n : nat) : float :=
  PrimFloat.of_uint63 (Uint63.of_Z (Z.of_nat n)).

(** *** Own properties *)

Fixpoint lookup_prop (k : string) (ps : object) : option value :=
  match ps with
  | [] => None
  | (k', v) :: ps' => if String.eqb k k' then Some v else lookup_prop k ps'
  end.

(** [delete o.k] *)
Fixpoint delete_prop (k : string) (ps : object) : object :=
  match ps with
  | [] => []
  | (k', v) :: ps' =>
      if String.eqb k k' then delete_prop k ps' else (k', v) :: delete_prop k ps'
  end.

(** [o.k = v] on an extensible object: an existing key keeps its place,
    a new key goes last. *)
Fixpoint set_prop (k : string) (v : value) (ps : object) : object :=
  match ps with
  | [] => [(k, v)]
  | (k', v') :: ps' =>
      if String.eqb k k' then (k, v) :: ps' else (k', v') :: set_prop k v ps'
  end.

(** [Object.assign(target, source)] and the spread [{...target, ...source}]. *)
Definition assign (target source : object) : object :=
  fold_left (fun acc kv => set_prop (fst kv) (snd kv) acc) source target.

Definition digit_of (c : ascii) : option nat :=
  let n := nat_of_ascii c in
  if (48 <=? n)%nat && (n <=? 57)%nat then Some (n - 48)%nat else None.

Fixpoint parse_digits (s : string) (acc : nat) : option nat :=
  match s with
  | EmptyString => Some acc
  | String c s' =>
      match digit_of c with
      | Some d => parse_digits s' (10 * acc + d)%nat
      | None => None
      end
  end.

(** A property key that is an array index: a decimal numeral without
    leading zero. *)
Definition parse_index (k : string) : option nat :=
  match k with
  | EmptyString => None
  | String "0"%char EmptyString => Some 0%nat
  | String "0"%char _ => None
  | _ => parse_digits k 0
  end.

(** [v[k]] for a string key [k]. *)
Definition get (v : value) (k : string) : value :=
  match v with
  | VObj _ ps => default VUndefined (lookup_prop k ps)
  | VArr _ es ps =>
      match parse_index k with
      | Some i => nth i es VUndefined
      | None =>
          if String.eqb k "length" then VNum (num_of_nat (List.length es))
          else default VUndefined (lookup_prop k ps)
      end
  | VStr s =>
      match parse_index k with
      | Some i =>
          match String.get i s with
          | Some c => VStr (String c EmptyString)
          | None => VUndefined
          end
      | None =>
          if String.eqb k "length" then VNum (num_of_nat (String.length s))
          else VUndefined
      end
  | _ => VUndefined
  end.

(** [v.hasOwnProperty(k)] for a truthy [v]. *)
Definition hasOwnProperty (v : value) (k : string) : bool :=
  match v with
  | VObj _ ps => bool_decide (is_Some (lookup_prop k ps))
  | VArr _ es ps =>
      match parse_index k with
      | Some i => (i <? List.length es)%nat
      | None => String.eqb k "length" || bool_decide (is_Some (lookup_prop k ps))
      end
  | VStr s =>
      match parse_index k with
      | Some i => (i <? String.length s)%nat
      | None => String.eqb k "length"
      end
  | _ => false
  end.

(** [Object.keys(v)] for an object or an array. *)
Definition keys (v : value) : list string :=
  match v with
  | VObj _ ps => map fst ps
  | VArr _ es ps =>
      (map (fun i => pretty.pretty (N.of_nat i)) (seq 0 (List.length es))
       ++ map fst ps)%list
  | _ => []
  end.

(** *** String operations used by the scripts *)

(** [s.includes(sub)] *)
Fixpoint includes (sub s : string) : bool :=
  String.prefix sub s ||
  match s with
  | EmptyString => false
  | String _ s' => includes sub s'
  end.

(** [s.startsWith(p)] *)
Definition startsWith (p s : string) : bool := String.prefix p s.

(** [s.endsWith(p)] *)
Definition endsWith (p s : string) : bool :=
  (String.length p <=? String.length s)%nat &&
  String.eqb (substring (String.length s - String.length p) (String.length p) s) p.

Fixpoint drop_chars (n : nat) (s : string) : string :=
  match n, s with
  | O, _ => s
  | S n', String _ s' => drop_chars n' s'
  | S _, EmptyString => EmptyString
  end.

(** [s.replace(pat, rep)] for a string pattern: the first occurrence
    only.  The replacement used in the scripts is the empty string, so
    the [$]-patterns of the replacement text play no role. *)
Fixpoint replace (pat rep s : string) : string :=
  if String.prefix pat s then rep ++ drop_chars (String.length pat) s
  else match s with
       | EmptyString => EmptyString
       | String c s' => String c (replace pat rep s')
       end.

(** [s.split('.')] *)
Fixpoint split_dot_aux (cur : string) (s : string) : list string :=
  match s with
  | EmptyString => [String.rev cur]
  | String c s' =>
      if Ascii.eqb c "."%char then String.rev cur :: split_dot_aux EmptyString s'
      else split_dot_aux (String c cur) s'
  end.

Definition split_dot (s : string) : list string := split_dot_aux EmptyString s.

(** ** The host: what the language provides *)

(** [NumberToString] and [StringToNumber] are the conversions of the
    language between numbers and their decimal text; [RegExp_new]
    compiles a pattern and fails ([None], a [SyntaxError] in the
    language) on an invalid one; [toLocaleTimeString] formats a time in
    milliseconds as the wall-clock text of the fired-tag records. *)
Class Host := {
  NumberToString : float -> string;
  StringToNumber : string -> float;
  regexp : Type;
  RegExp_new : string -> option regexp;
  RegExp_test : regexp -> string -> bool;
  toLocaleTimeString : Z -> string
}.

(** Completions: a function body either returns or throws. *)
Inductive exn := TypeError | SyntaxError.

Inductive completion (A : Type) : Type :=
| Normal (a : A)
| Throw (e : exn).
Arguments Normal {A} a.
Arguments Throw {A} e.

#[global] Instance completion_ret : MRet completion := fun A a => Normal a.
#[global] Instance completion_bind : MBind completion :=
  fun A B f c => match c with Normal a => f a | Throw e => Throw e end.

(** [try { body } catch (e) { handler }] *)
Definition try_catch {A} (body : completion A) (handler : exn -> completion A)
  : completion A :=
  match body with
  | Normal a => Normal a
  | Throw e => handler e
  end.

Fixpoint mapM {A B} (f : A -> completion B) (l : list A) : completion (list B) :=
  match l with
  | [] => Normal []
  | x :: l' => y ← f x; ys ← mapM f l'; Normal (y :: ys)
  end.

(** ** Conversions *)

Section Conversions.
Context {host : Host}.

(** [String(v)].  An array joins its elements with a comma, [null] and
    [undefined] elements giving the empty string; a plain object gives
    ["[object Object]"]. *)
Fixpoint ToString (v : value) : string :=
  match v with
  | VUndefined => "undefined"
  | VNull => "null"
  | VBool true => "true"
  | VBool false => "false"
  | VNum n => NumberToString n
  | VStr s => s
  | VArr _ es _ =>
      String.concat ","
        (List.map (fun e => match e with
                            | VUndefined | VNull => ""
                            | _ => ToString e
                            end) es)
  | VObj _ _ => "[object Object]"
  end.

(** [Number(v)].  Objects and arrays go through their string form. *)
Definition ToNumber (v : value) : float :=
  match v with
  | VUndefined => PrimFloat.nan
  | VNull => PrimFloat.zero
  | VBool true => PrimFloat.one
  | VBool false => PrimFloat.zero
  | VNum n => n
  | VStr s => StringToNumber s
  | VArr _ _ _ | VObj _ _ => StringToNumber (ToString v)
  end.

Definition hex_digit (n : nat) : ascii :=
  ascii_of_nat (if (n <? 10)%nat then 48 + n else 87 + n)%nat.

(** The escapes of [JSON.stringify] for one character. *)
Definition JSON_escape (c : ascii) : string :=
  let n := nat_of_ascii c in
  if (n =? 34)%nat then String "\"%char (String c EmptyString)
  else if (n =? 92)%nat then "\\"
  else if (n =? 8)%nat then "\b"
  else if (n =? 12)%nat then "\f"
  else if (n =? 10)%nat then "\n"
  else if (n =? 13)%nat then "\r"
  else if (n =? 9)%nat then "\t"
  else if (n <? 32)%nat then
    "\u00" ++ String (hex_digit (n / 16)) (String (hex_digit (n mod 16)) EmptyString)
  else String c EmptyString.

Fixpoint JSON_escape_all (s : string) : string :=
  match s with
  | EmptyString => EmptyString
  | String c s' => JSON_escape c ++ JSON_escape_all s'
  end.

Definition JSON_quote (s : string) : string :=
  String (ascii_of_nat 34) (JSON_escape_all s ++ String (ascii_of_nat 34) EmptyString).

Definition is_finite (n : float) : bool :=
  negb (PrimFloat.is_nan n || PrimFloat.is_infinity n).

(** [JSON.stringify(v)]: [None] is the result [undefined].  A property
    whose value is [undefined] is left out, an [undefined] array element
    is written [null], and so is a number that is not finite. *)
Fixpoint JSON_stringify (v : value) : option string :=
  match v with
  | VUndefined => None
  | VNull => Some "null"
  | VBool true => Some "true"
  | VBool false => Some "false"
  | VNum n => Some (if is_finite n then NumberToString n else "null")
  | VStr s => Some (JSON_quote s)
  | VArr _ es _ =>
      Some ("[" ++ String.concat ","
                     (List.map (fun e => default "null" (JSON_stringify e)) es)
                ++ "]")
  | VObj _ ps =>
      let fix members (ps : object) : list string :=
        match ps with
        | [] => []
        | (k, x) :: ps' =>
            match JSON_stringify x with
            | Some s => (JSON_quote k ++ ":" ++ s) :: members ps'
            | None => members ps'
            end
        end in
      Some ("{" ++ String.concat "," (members ps) ++ "}")
  end.

(** [JSON.parse(JSON.stringify(v))]: a fresh copy, extensible, without
    [undefined] properties, array extras or non-finite numbers; [None]
    where [JSON.stringify] gives [undefined]. *)
Fixpoint JSON_clone (v : value) : option value :=
  match v with
  | VUndefined => None
  | VNull => Some VNull
  | VBool b => Some (VBool b)
  | VNum n =>
      Some (if is_finite n
            then VNum (if PrimFloat.eqb n PrimFloat.zero then PrimFloat.zero else n)
            else VNull)
  | VStr s => Some (VStr s)
  | VArr _ es _ =>
      Some (VArr false (List.map (fun e => default VNull (JSON_clone e)) es) [])
  | VObj _ ps =>
      let fix members (ps : object) : object :=
        match ps with
        | [] => []
        | (k, x) :: ps' =>
            match JSON_clone x with
            | Some y => (k, y) :: members ps'
            | None => members ps'
            end
        end in
      Some (VObj false (members ps))
  end.

End Conversions.

(** ** The rule set of the tag manager *)

(** The objects the host page exposes when introspection is on.  A
    field the scripts test for presence is an [option]. *)
Record VariableParameters := {
  dataLayerName : option string
}.

Record VariableRef := {
  var_name : value;
  var_type : string;
  parameters : option VariableParameters;
  defaultValue : value
}.

Record Condition := {
  actual : option VariableRef;
  comparison : string;
  expected : value
}.

Record Tag := {
  tag_name : value;
  fireTriggerIds : option (list value)
}.

(** [getReferencedTags], when the trigger has the method, returns some
    value (an array of tags or something else) or throws. *)
Record Trigger := {
  trigger_id : value;
  trigger_name : value;
  trigger_type : value;
  conditions : option (list Condition);
  getReferencedTags : option (completion (option (list Tag)));
  referencedTags : option (list Tag)
}.

Record Container := {
  container_id : value;
  versionName : value;
  revision : value;
  environment : value;
  triggers : option (list Trigger);
  tags : option (list Tag);
  variables : option (list VariableRef);
  container_dataLayer : value
}.

(** The globals of the page the injected script reads: [window._mtm],
    [window.dataLayer] ([None] when undefined, else an array),
    [window.location.href] and the containers of
    [window.MatomoTagManager] ([None] when the object or its container
    list is missing). *)
Record Window := {
  _mtm : option (list value);
  dataLayer : option (list value);
  location_href : string;
  MatomoTagManager : option (list Container)
}.

(** The event context of the matcher ([extractEventInformation] builds
    it; its [originalData] back reference is never read and is left
    out). *)
Record EventInfo := {
  info_eventName : value;
  dataLayerData : object;
  info_source : string
}.

Definition is_undefined (v : value) : bool :=
  match v with VUndefined => true | _ => false end.

(** [v !== null && v !== undefined] *)
Definition is_present (v : value) : bool :=
  match v with VUndefined | VNull => false | _ => true end.

(** [v === n] for a number [n] *)
Definition strict_equal_number (v : value) (n : float) : bool :=
  match v with VNum m => PrimFloat.eqb m n | _ => false end.

(** [v === s] for a string literal [s] *)
Definition is_string (v : value) (s : string) : bool :=
  match v with VStr s' => String.eqb s' s | _ => false end.

(** ** Variable resolver and condition evaluator *)

Section Matcher.
Context {host : Host}.
Variable window : Window.

Definition getNestedValue (obj : value) (path : string) : value :=
  fold_left
    (fun current key =>
       if truthy current && negb (is_undefined (get current key))
       then get current key else VNull)
    (split_dot path) obj.

(** The fallback loop of [getNestedDataLayerValue] over
    [window.dataLayer], newest entry first. *)
Fixpoint searchDataLayer (name : string) (entries : list value) : value :=
  match entries with
  | [] => VNull
  | entry :: rest =>
      if negb (truthy entry) then searchDataLayer name rest
      else if hasOwnProperty entry name then get entry name
      else if includes "." name && is_present (getNestedValue entry name)
           then getNestedValue entry name
      else searchDataLayer name rest
  end.

Definition getNestedDataLayerValue (name : string) (eventInfo : EventInfo) : value :=
  let data := VObj false (dataLayerData eventInfo) in
  if hasOwnProperty data name then get data name
  else if includes "." name && is_present (getNestedValue data name)
       then getNestedValue data name
  else match dataLayer window with
       | Some entries => searchDataLayer name (rev entries)
       | None => VNull
       end.

Definition getVariableValue (variable : option VariableRef) (eventInfo : EventInfo)
  : value :=
  match variable with
  | None => VNull
  | Some variable =>
      if String.eqb (var_type variable) "DataLayer" then
        let fallback := js_or (defaultValue variable) VNull in
        match parameters variable with
        | Some {| dataLayerName := Some name |} =>
            if negb (String.eqb name "")
            then let v := getNestedDataLayerValue name eventInfo in
                 if is_present v then v else fallback
            else fallback
        | _ => fallback
        end
      else if String.eqb (var_type variable) "PageUrl" then
        VStr (location_href window)
      else if String.eqb (var_type variable) "CustomJsFunction" then
        js_or (defaultValue variable) VNull
      else
        js_or (defaultValue variable) VNull
  end.

(** [new RegExp(expected)]: the pattern is the string form of the
    argument, the empty pattern for [undefined]; an invalid pattern
    throws. *)
Definition RegExp (pattern : value) : completion regexp :=
  let source := match pattern with VUndefined => "" | _ => ToString pattern end in
  match RegExp_new source with
  | Some r => Normal r
  | None => Throw SyntaxError
  end.

(** The [switch (comparison)] of [evaluateCondition]: the cases are
    tried in order with strict equality, the last branch is [default]. *)
Definition evaluate (actualValue expectedValue : value) (comparison : string)
  : completion bool :=
  if String.eqb comparison "equals" then
    if jstype_eqb (typeof actualValue) TNumber
       && negb (PrimFloat.is_nan (ToNumber expectedValue))
    then Normal (strict_equal_number actualValue (ToNumber expectedValue))
    else Normal (String.eqb (ToString actualValue) (ToString expectedValue))
  else if String.eqb comparison "notEquals" then
    if jstype_eqb (typeof actualValue) TNumber
       && negb (PrimFloat.is_nan (ToNumber expectedValue))
    then Normal (negb (strict_equal_number actualValue (ToNumber expectedValue)))
    else Normal (negb (String.eqb (ToString actualValue) (ToString expectedValue)))
  else if String.eqb comparison "contains" then
    Normal (includes (ToString expectedValue) (ToString actualValue))
  else if String.eqb comparison "notContains" then
    Normal (negb (includes (ToString expectedValue) (ToString actualValue)))
  else if String.eqb comparison "startsWith" then
    Normal (startsWith (ToString expectedValue) (ToString actualValue))
  else if String.eqb comparison "endsWith" then
    Normal (endsWith (ToString expectedValue) (ToString actualValue))
  else if String.eqb comparison "matchesRegex" then
    try_catch
      (regex ← RegExp expectedValue;
       Normal (RegExp_test regex (ToString actualValue)))
      (fun _ => Normal false)
  else if String.eqb comparison "greaterThan" then
    Normal (PrimFloat.ltb (ToNumber expectedValue) (ToNumber actualValue))
  else if String.eqb comparison "lessThan" then
    Normal (PrimFloat.ltb (ToNumber actualValue) (ToNumber expectedValue))
  else if String.eqb comparison "greaterThanOrEqualTo" then
    Normal (PrimFloat.leb (ToNumber expectedValue) (ToNumber actualValue))
  else if String.eqb comparison "lessThanOrEqualTo" then
    Normal (PrimFloat.leb (ToNumber actualValue) (ToNumber expectedValue))
  else Normal false.

Definition evaluateCondition (condition : Condition) (eventInfo : EventInfo)
  : completion bool :=
  let actualValue := getVariableValue (actual condition) eventInfo in
  let expectedValue := expected condition in
  evaluate actualValue expectedValue (comparison condition).

(** ** Trigger matcher *)

(** The test of the timer branch: some condition reads the data-layer
    variable [aEvent] and expects ['timer']. *)
Definition isTimerCondition (cond : Condition) : bool :=
  match actual cond with
  | Some v =>
      String.eqb (var_type v) "DataLayer" &&
      match parameters v with
      | Some {| dataLayerName := Some name |} => String.eqb name "aEvent"
      | _ => false
      end &&
      is_string (expected cond) "timer"
  | None => false
  end.

Definition doesTriggerMatch (trigger : Trigger) (eventInfo : EventInfo)
  : completion bool :=
  match conditions trigger with
  | None => Normal false
  | Some [] => Normal false
  | Some conds =>
      conditionResults ← mapM (fun condition => evaluateCondition condition eventInfo) conds;
      if is_string (info_eventName eventInfo) "timer"
         || is_string (default VUndefined (lookup_prop "aEvent" (dataLayerData eventInfo))) "timer"
      then
        let hasTimerCondition := existsb isTimerCondition conds in
        if hasTimerCondition
        then Normal (forallb (fun result => result) conditionResults)
        else Normal (forallb (fun result => result) conditionResults)
      else Normal (forallb (fun result => result) conditionResults)
  end.

End Matcher.

(** ** Event records *)

(** One row of [getMatchedConditions]. *)
Record MatchedCondition := {
  mc_variable : value;
  mc_variableType : value;
  mc_dataLayerName : value;
  mc_comparison : string;
  mc_expected : value;
  mc_actual : value;
  matched : bool
}.

Record TriggerInfo := {
  ti_id : value;
  ti_name : value;
  ti_type : value;
  ti_conditions : list Condition;
  matchedConditions : list MatchedCondition
}.

Record TagObject := {
  fired_name : value;
  fired_trigger : value;
  fired_timestamp : string
}.

(** The result of [addTriggerAnalysis].  [debugMode] is the truth value
    of [container.triggers && container.tags]. *)
Record TriggerAnalysis := {
  triggeredTriggers : list TriggerInfo;
  analysis_firedTags : list TagObject;
  debugMode : bool;
  totalTriggers : nat;
  totalTags : nat
}.

(** One element of [getMTMContainerInfo()]. *)
Record ContainerInfo := {
  ci_id : value;
  ci_versionName : value;
  ci_revision : value;
  ci_environment : value;
  ci_debugMode : bool;
  ci_triggers : list Trigger;
  ci_tags : list Tag;
  ci_variables : list VariableRef;
  ci_dataLayer : value
}.

(** The event object as it travels from its creation to the consumer.
    A property that a path does not set is [None] ([VUndefined] for the
    payload fields); [arrayIndex] is [None] for both [null] and a
    missing property, which the scripts never tell apart.  Times are
    integers (milliseconds), indices are naturals. *)
Record EventData := {
  source : option string;
  objectName : option string;
  rawData : value;
  arrayIndex : option nat;
  eventName : value;
  details : value;
  firedTags : option (list value);
  isHistorical : option bool;
  sourceType : option string;
  detectionMethod : option string;
  triggerAnalysis : option TriggerAnalysis;
  hasTriggeredTriggers : option bool;
  hasFiredTags : option bool;
  containerInfo : option (list ContainerInfo);
  currentMtmArray : option (list value);
  customTimestamp : option Z
}.

Definition set_triggerAnalysis (a : TriggerAnalysis) (flags : option (bool * bool))
    (e : EventData) : EventData :=
  {| source := source e; objectName := objectName e; rawData := rawData e;
     arrayIndex := arrayIndex e; eventName := eventName e; details := details e;
     firedTags := firedTags e; isHistorical := isHistorical e;
     sourceType := sourceType e; detectionMethod := detectionMethod e;
     triggerAnalysis := Some a;
     hasTriggeredTriggers :=
       match flags with Some (t, _) => Some t | None => hasTriggeredTriggers e end;
     hasFiredTags :=
       match flags with Some (_, f) => Some f | None => hasFiredTags e end;
     containerInfo := containerInfo e; currentMtmArray := currentMtmArray e;
     customTimestamp := customTimestamp e |}.

Definition set_containerInfo (c : list ContainerInfo) (e : EventData) : EventData :=
  {| source := source e; objectName := objectName e; rawData := rawData e;
     arrayIndex := arrayIndex e; eventName := eventName e; details := details e;
     firedTags := firedTags e; isHistorical := isHistorical e;
     sourceType := sourceType e; detectionMethod := detectionMethod e;
     triggerAnalysis := triggerAnalysis e;
     hasTriggeredTriggers := hasTriggeredTriggers e;
     hasFiredTags := hasFiredTags e;
     containerInfo := Some c; currentMtmArray := currentMtmArray e;
     customTimestamp := customTimestamp e |}.

Definition set_currentMtmArray (a : list value) (e : EventData) : EventData :=
  {| source := source e; objectName := objectName e; rawData := rawData e;
     arrayIndex := arrayIndex e; eventName := eventName e; details := details e;
     firedTags := firedTags e; isHistorical := isHistorical e;
     sourceType := sourceType e; detectionMethod := detectionMethod e;
     triggerAnalysis := triggerAnalysis e;
     hasTriggeredTriggers := hasTriggeredTriggers e;
     hasFiredTags := hasFiredTags e;
     containerInfo := containerInfo e; currentMtmArray := Some a;
     customTimestamp := customTimestamp e |}.

Definition set_customTimestamp (t : Z) (e : EventData) : EventData :=
  {| source := source e; objectName := objectName e; rawData := rawData e;
     arrayIndex := arrayIndex e; eventName := eventName e; details := details e;
     firedTags := firedTags e; isHistorical := isHistorical e;
     sourceType := sourceType e; detectionMethod := detectionMethod e;
     triggerAnalysis := triggerAnalysis e;
     hasTriggeredTriggers := hasTriggeredTriggers e;
     hasFiredTags := hasFiredTags e;
     containerInfo := containerInfo e; currentMtmArray := currentMtmArray e;
     customTimestamp := Some t |}.

(** ** Injected script: constants *)

Module INTERVALS.
Definition ARRAY_CHECK : Z := 200.
Definition CACHE_CLEANUP : Z := 5000.
Definition HISTORICAL_OFFSET : Z := 5000.
End INTERVALS.

Module CACHE_TIMEOUTS.
Definition GLOBAL_EVENTS : Z := 1000.
Definition RECENT_EVENTS : Z := 2000.
End CACHE_TIMEOUTS.

Definition TAG_FIELDS : list string := ["tags"; "firedTags"; "mtm.tags"; "gtm.tags"].

Record Config := {
  watchDataLayer : bool;
  watchMTM : bool;
  autoShow : bool
}.

(** ** Injected script: helpers without state *)

(** [{...v}] of an object or array: its own enumerable properties. *)
Definition spread (v : value) : object :=
  map (fun k => (k, get v k)) (keys v).

(** [data && typeof data === 'object'] *)
Definition isObjectLike (v : value) : bool :=
  truthy v && jstype_eqb (typeof v) TObject.

Definition cleanEventDetails (details : value) : value :=
  if negb (truthy details) || negb (jstype_eqb (typeof details) TObject) then details
  else
    let cleaned := spread details in
    let cleaned := delete_prop "__mtm_processed" cleaned in
    let cleaned := delete_prop "_debug" cleaned in
    let cleaned := delete_prop "customTimestamp" cleaned in
    VObj false cleaned.

(** [data && typeof data === 'object' && data.__mtm_processed] *)
Definition isProcessed (data : value) : bool :=
  isObjectLike data && truthy (get data "__mtm_processed").

(** Writing back into a value along a path that [getNestedValue] has
    followed. *)
Fixpoint replace_nth {A} (i : nat) (x : A) (l : list A) : list A :=
  match l, i with
  | [], _ => []
  | _ :: l', O => x :: l'
  | y :: l', S i' => y :: replace_nth i' x l'
  end.

Definition put (v : value) (k : string) (x : value) : value :=
  match v with
  | VObj fr ps => VObj fr (set_prop k x ps)
  | VArr fr es ps =>
      match parse_index k with
      | Some i => VArr fr (replace_nth i x es) ps
      | None => VArr fr es (set_prop k x ps)
      end
  | _ => v
  end.

Fixpoint update_path (v : value) (path : list string) (x : value) : value :=
  match path with
  | [] => x
  | k :: path' => put v k (update_path (get v k) path' x)
  end.

(** [extractFiredTags(data)].  The array found under one of
    [TAG_FIELDS] is not copied: the two [push] calls that follow append
    to the array inside [data] itself, and raise when it is frozen.  The
    result is the list of fired tags together with [data] as it is
    afterwards. *)
Definition findTagField (data : value) : option (string * value) :=
  List.find
    (fun fv => isArray (snd fv))
    (map (fun field => (field, getNestedValue data field)) TAG_FIELDS).

Definition tagNamePushes (data : value) : list value :=
  if isObjectLike data then
    ((if truthy (get data "tagName") then [get data "tagName"] else []) ++
     (if truthy (get data "mtm.tagName") then [get data "mtm.tagName"] else []))%list
  else [].

Definition extractFiredTags (data : value) : completion (list value * value) :=
  match findTagField data with
  | Some (field, VArr fr es ps) =>
      match tagNamePushes data with
      | [] => Normal (es, data)
      | pushed =>
          if fr then Throw TypeError
          else Normal ((es ++ pushed)%list,
                       update_path data (split_dot field)
                         (VArr fr (es ++ pushed)%list ps))
      end
  | _ => Normal (tagNamePushes data, data)
  end.

(** [getMTMContainerInfo()] *)
Definition getMTMContainerInfo (window : Window) : list ContainerInfo :=
  match MatomoTagManager window with
  | Some containers =>
      map (fun container =>
             {| ci_id := container_id container;
                ci_versionName := versionName container;
                ci_revision := revision container;
                ci_environment := environment container;
                ci_debugMode :=
                  bool_decide (is_Some (triggers container))
                  && bool_decide (is_Some (tags container));
                ci_triggers := default [] (triggers container);
                ci_tags := default [] (tags container);
                ci_variables := default [] (variables container);
                ci_dataLayer := js_or (container_dataLayer container) (VArr false [] []) |})
          containers
  | None => []
  end.

(** [extractEventInformation(eventData)] *)
Definition copyMissing (src : value) (dld : object) : object :=
  fold_left
    (fun acc key =>
       if negb (String.eqb key "__mtm_processed")
          && is_undefined (default VUndefined (lookup_prop key acc))
       then set_prop key (get src key) acc else acc)
    (keys src) dld.

Definition setTimerTime (timer : value) (dld : object) : object :=
  if negb (is_undefined (get timer "time"))
  then set_prop "timer.time" (get timer "time") dld else dld.

Definition extractEventInformation (eventData : EventData) : EventInfo :=
  let name0 := if truthy (eventName eventData) then eventName eventData else VNull in
  let d := details eventData in
  let '(name1, dld1) :=
    if truthy d then
      (* copy all properties *)
      let dld := fold_left
                   (fun acc key =>
                      if negb (String.eqb key "__mtm_processed")
                         && negb (String.eqb key "_debug")
                      then set_prop key (get d key) acc else acc)
                   (keys d) [] in
      (* special handling for aEvent *)
      let '(name, dld) :=
        if truthy (get d "aEvent")
        then (get d "aEvent", set_prop "aEvent" (get d "aEvent") dld)
        else (name0, dld) in
      (* timer event handling *)
      let dld :=
        if truthy (get d "timer")
        then setTimerTime (get d "timer") (set_prop "timer" (get d "timer") dld)
        else dld in
      (* aMTMparams *)
      let p := get d "aMTMparams" in
      let dld :=
        if isObjectLike p then
          let dld := copyMissing p dld in
          if truthy (get p "timer")
          then setTimerTime (get p "timer") (set_prop "timer" (get p "timer") dld)
          else dld
        else dld in
      (* array-based parameters *)
      let params := get d "parameters" in
      let dld :=
        if is_string (get d "action") "aEvent" && truthy params then
          match params with
          | VArr _ es _ =>
              if (2 <=? List.length es)%nat then
                let dld := set_prop "aEvent" (nth 0 es VUndefined) dld in
                let p1 := nth 1 es VUndefined in
                if isObjectLike p1 then
                  let dld := assign dld (spread p1) in
                  if truthy (get p1 "timer")
                  then setTimerTime (get p1 "timer") dld
                  else dld
                else dld
              else dld
          | _ => dld
          end
        else dld in
      (name, dld)
    else (name0, []) in
  (* rawData as additional source *)
  let r := rawData eventData in
  let dld2 :=
    if isObjectLike r then
      let dld := copyMissing r dld1 in
      if truthy (get r "timer") then setTimerTime (get r "timer") dld else dld
    else dld1 in
  {| info_eventName := name1;
     dataLayerData := dld2;
     info_source := default "" (source eventData) |}.

(** ** Injected script: state *)

(** The module-level variables of the injected script, the page
    globals, the pending timers and the events handed to
    [document.dispatchEvent] so far.  [ticks] counts the readings of
    the system clock; the [n]-th reading returns [clock n]. *)
Record State := {
  ticks : nat;
  win : Window;
  CONFIG : Config;
  initialScanCompleted : bool;
  globalProcessedEvents : gmap string Z;
  lastKnownLength : nat;
  timers : list (Z * EventData);
  dispatched : list EventData
}.

Definition set_ticks (n : nat) (s : State) : State :=
  {| ticks := n; win := win s; CONFIG := CONFIG s;
     initialScanCompleted := initialScanCompleted s;
     globalProcessedEvents := globalProcessedEvents s;
     lastKnownLength := lastKnownLength s; timers := timers s;
     dispatched := dispatched s |}.

Definition set_mtm (a : option (list value)) (s : State) : State :=
  {| ticks := ticks s;
     win := {| _mtm := a; dataLayer := dataLayer (win s);
               location_href := location_href (win s);
               MatomoTagManager := MatomoTagManager (win s) |};
     CONFIG := CONFIG s;
     initialScanCompleted := initialScanCompleted s;
     globalProcessedEvents := globalProcessedEvents s;
     lastKnownLength := lastKnownLength s; timers := timers s;
     dispatched := dispatched s |}.

Definition set_dataLayer (a : option (list value)) (s : State) : State :=
  {| ticks := ticks s;
     win := {| _mtm := _mtm (win s); dataLayer := a;
               location_href := location_href (win s);
               MatomoTagManager := MatomoTagManager (win s) |};
     CONFIG := CONFIG s;
     initialScanCompleted := initialScanCompleted s;
     globalProcessedEvents := globalProcessedEvents s;
     lastKnownLength := lastKnownLength s; timers := timers s;
     dispatched := dispatched s |}.

Definition set_initialScanCompleted (b : bool) (s : State) : State :=
  {| ticks := ticks s; win := win s; CONFIG := CONFIG s;
     initialScanCompleted := b;
     globalProcessedEvents := globalProcessedEvents s;
     lastKnownLength := lastKnownLength s; timers := timers s;
     dispatched := dispatched s |}.

Definition set_globalProcessedEvents (c : gmap string Z) (s : State) : State :=
  {| ticks := ticks s; win := win s; CONFIG := CONFIG s;
     initialScanCompleted := initialScanCompleted s;
     globalProcessedEvents := c;
     lastKnownLength := lastKnownLength s; timers := timers s;
     dispatched := dispatched s |}.

Definition set_lastKnownLength (n : nat) (s : State) : State :=
  {| ticks := ticks s; win := win s; CONFIG := CONFIG s;
     initialScanCompleted := initialScanCompleted s;
     globalProcessedEvents := globalProcessedEvents s;
     lastKnownLength := n; timers := timers s;
     dispatched := dispatched s |}.

Definition set_timers (t : list (Z * EventData)) (s : State) : State :=
  {| ticks := ticks s; win := win s; CONFIG := CONFIG s;
     initialScanCompleted := initialScanCompleted s;
     globalProcessedEvents := globalProcessedEvents s;
     lastKnownLength := lastKnownLength s; timers := t;
     dispatched := dispatched s |}.

Definition set_dispatched (d : list EventData) (s : State) : State :=
  {| ticks := ticks s; win := win s; CONFIG := CONFIG s;
     initialScanCompleted := initialScanCompleted s;
     globalProcessedEvents := globalProcessedEvents s;
     lastKnownLength := lastKnownLength s; timers := timers s;
     dispatched := d |}.

(** A computation of the script: it runs on a state and returns or
    throws, leaving the state as changed up to that point. *)
Definition M (A : Type) : Type := State -> completion A * State.

#[global] Instance M_ret : MRet M := fun A a s => (Normal a, s).
#[global] Instance M_bind : MBind M :=
  fun A B f m s =>
    match m s with
    | (Normal a, s') => f a s'
    | (Throw e, s') => (Throw e, s')
    end.

Definition gets {A} (f : State -> A) : M A := fun s => (Normal (f s), s).
Definition modify (f : State -> State) : M unit := fun s => (Normal tt, f s).
Definition lift {A} (c : completion A) : M A := fun s => (c, s).

(** [items.forEach((item, index) => body(item, index))], the index
    starting at [i]. *)
Fixpoint forEach {A} (body : A -> nat -> M unit) (items : list A) (i : nat) : M unit :=
  match items with
  | [] => mret tt
  | item :: rest => body item i ≫= fun _ => forEach body rest (S i)
  end.

Section InjectedScript.
Context {host : Host}.
Variable clock : nat -> Z.

(** [Date.now()] and [new Date()] *)
Definition Date_now : M Z :=
  fun s => (Normal (clock (ticks s)), set_ticks (S (ticks s)) s).

(** [setTimeout(callback, delay)]: the callbacks of the script differ
    only in the event object they have captured. *)
Definition setTimeout (eventData : EventData) (delay : Z) : M unit :=
  modify (fun s => set_timers (timers s ++ [(delay, eventData)]) s).

(** [document.dispatchEvent(new CustomEvent('matomoEventDetected', {detail}))] *)
Definition dispatchEvent (detail : EventData) : M unit :=
  modify (fun s => set_dispatched (dispatched s ++ [detail]) s).

(** [cleanupCache(cache, maxAge)]; the cleaned map is returned. *)
Definition cleanupCache (cache : gmap string Z) (maxAge : Z) : M (gmap string Z) :=
  now ← Date_now;
  mret (filter (fun kv => ¬ (now - kv.2 > maxAge)%Z) cache).

(** The object both [isGlobalDuplicate] and [markEventAsProcessed]
    build and serialise. *)
Definition cleanEventForComparison (eventData : EventData) : value :=
  VObj false
    [("eventName", js_or (eventName eventData) (VStr "unknown"));
     ("source",
      js_or (match source eventData with
             | Some s => VStr (replace " (historical)" "" s)
             | None => VUndefined
             end) (VStr "unknown"));
     ("details",
      if truthy (details eventData) then cleanEventDetails (details eventData)
      else VNull)].

Definition eventSignature (eventData : EventData) : string :=
  default "" (JSON_stringify (cleanEventForComparison eventData)).

Definition isGlobalDuplicate (eventData : EventData) : M bool :=
  let eventSignature := eventSignature eventData in
  cache ← gets globalProcessedEvents;
  match cache !! eventSignature with
  | Some lastSeen =>
      now ← Date_now;
      let timeDiff := (now - lastSeen)%Z in
      if (timeDiff <? CACHE_TIMEOUTS.GLOBAL_EVENTS)%Z then mret true else mret false
  | None => mret false
  end.

Definition markEventAsProcessed (eventData : EventData) : M unit :=
  let eventSignature := eventSignature eventData in
  now ← Date_now;
  cache ← gets globalProcessedEvents;
  cleaned ← cleanupCache (<[eventSignature := now]> cache) CACHE_TIMEOUTS.GLOBAL_EVENTS;
  modify (set_globalProcessedEvents cleaned).

(** [JSON.parse(JSON.stringify(eventData, replacer))]: the payload
    fields are copied by [JSON_clone], a field whose copy is [undefined]
    disappears.  The typed fields stand for their own serialised form.
    Values of the model are finite trees without functions, so the
    serialisation does not fail and the replacer changes nothing. *)
Definition serializeEventData (e : EventData) : EventData :=
  {| source := source e; objectName := objectName e;
     rawData := default VUndefined (JSON_clone (rawData e));
     arrayIndex := arrayIndex e;
     eventName := default VUndefined (JSON_clone (eventName e));
     details := default VUndefined (JSON_clone (details e));
     firedTags :=
       option_map (map (fun v => default VNull (JSON_clone v))) (firedTags e);
     isHistorical := isHistorical e;
     sourceType := sourceType e; detectionMethod := detectionMethod e;
     triggerAnalysis := triggerAnalysis e;
     hasTriggeredTriggers := hasTriggeredTriggers e;
     hasFiredTags := hasFiredTags e;
     containerInfo := containerInfo e; currentMtmArray := currentMtmArray e;
     customTimestamp := customTimestamp e |}.

(** [dispatchMatomoEventWithTimestamp(eventData, timestamp)].  The
    callers always pass an event object, so the guard against a missing
    one does not appear; the [catch] branch of the serialisation is
    not reached (see [serializeEventData]). *)
Definition dispatchMatomoEventWithTimestamp (eventData : EventData) (timestamp : Z)
  : M unit :=
  let cleanedEventData := serializeEventData eventData in
  w ← gets win;
  let cleanedEventData :=
    match _mtm w with
    | Some arr =>
        set_currentMtmArray
          (map (fun v => default VNull (JSON_clone v)) arr) cleanedEventData
    | None => cleanedEventData
    end in
  duplicate ← isGlobalDuplicate cleanedEventData;
  if (duplicate : bool) then mret tt
  else
    markEventAsProcessed cleanedEventData ≫= fun _ =>
    dispatchEvent (set_customTimestamp timestamp cleanedEventData).

Definition dispatchMatomoEvent (eventData : EventData) : M unit :=
  now ← Date_now;
  dispatchMatomoEventWithTimestamp eventData now.

End InjectedScript.

(** ** Injected script: trigger analysis *)

(** [ids.includes(id)] compares with SameValueZero.  Two objects are
    the same only when they are one object, which the tree model cannot
    express; identifiers are primitives. *)
Definition sameValueZero (a b : value) : bool :=
  match a, b with
  | VUndefined, VUndefined | VNull, VNull => true
  | VBool x, VBool y => Bool.eqb x y
  | VNum x, VNum y => PrimFloat.eqb x y || (PrimFloat.is_nan x && PrimFloat.is_nan y)
  | VStr x, VStr y => String.eqb x y
  | _, _ => false
  end.

Definition tagObject (trigger : Trigger) (currentTime : string) (tag : Tag) : TagObject :=
  {| fired_name := js_or (tag_name tag) (VStr "Unknown Tag");
     fired_trigger := trigger_name trigger;
     fired_timestamp := currentTime |}.

(** The [try { ... } catch (error) { }] block of [addTriggerAnalysis]
    that collects the tags of a matched trigger. *)
Definition referencedTagObjects (trigger : Trigger) (currentTime : string)
  : list TagObject :=
  match getReferencedTags trigger with
  | Some call =>
      match call with
      | Normal (Some referenced) => map (tagObject trigger currentTime) referenced
      | Normal None => []
      | Throw _ => []
      end
  | None =>
      match referencedTags trigger with
      | Some referenced =>
          map (tagObject trigger currentTime)
            (List.filter
               (fun tag =>
                  match fireTriggerIds tag with
                  | Some ids => existsb (sameValueZero (trigger_id trigger)) ids
                  | None => false
                  end)
               referenced)
      | None => []
      end
  end.

Section InjectedAnalysis.
Context {host : Host}.
Variable clock : nat -> Z.

Definition getMatchedConditions (window : Window) (trigger : Trigger)
    (eventInfo : EventInfo) : completion (list MatchedCondition) :=
  match conditions trigger with
  | None => Normal []
  | Some conds =>
      mapM (fun condition =>
              let actualValue := getVariableValue window (actual condition) eventInfo in
              isMatched ← evaluateCondition window condition eventInfo;
              Normal
                {| mc_variable :=
                     js_or
                       (js_or (from_option var_name VUndefined (actual condition))
                          (match actual condition with
                           | Some {| parameters := Some {| dataLayerName := Some n |} |} =>
                               VStr n
                           | _ => VUndefined
                           end))
                       (VStr "Unknown Variable");
                   mc_variableType :=
                     js_or (from_option (fun v => VStr (var_type v)) VUndefined
                              (actual condition))
                       (VStr "Unknown");
                   mc_dataLayerName :=
                     js_or (match actual condition with
                            | Some {| parameters := Some {| dataLayerName := Some n |} |} =>
                                VStr n
                            | _ => VUndefined
                            end) VNull;
                   mc_comparison := comparison condition;
                   mc_expected := expected condition;
                   mc_actual := actualValue;
                   matched := isMatched |})
        conds
  end.

(** The body of [container.triggers.forEach] in [addTriggerAnalysis]. *)
Definition analyzeTrigger (window : Window) (eventInfo : EventInfo)
    (currentTime : string) (analysisResult : TriggerAnalysis) (trigger : Trigger)
  : completion TriggerAnalysis :=
  doesMatch ← doesTriggerMatch window trigger eventInfo;
  if (doesMatch : bool) then
    matchedConds ← getMatchedConditions window trigger eventInfo;
    let triggerInfo :=
      {| ti_id := trigger_id trigger;
         ti_name := trigger_name trigger;
         ti_type := trigger_type trigger;
         ti_conditions := default [] (conditions trigger);
         matchedConditions := matchedConds |} in
    Normal
      {| triggeredTriggers := (triggeredTriggers analysisResult ++ [triggerInfo])%list;
         analysis_firedTags :=
           (analysis_firedTags analysisResult
            ++ referencedTagObjects trigger currentTime)%list;
         debugMode := debugMode analysisResult;
         totalTriggers := totalTriggers analysisResult;
         totalTags := totalTags analysisResult |}
  else Normal analysisResult.

Fixpoint analyzeTriggers (window : Window) (eventInfo : EventInfo)
    (currentTime : string) (analysisResult : TriggerAnalysis) (ts : list Trigger)
  : completion TriggerAnalysis :=
  match ts with
  | [] => Normal analysisResult
  | trigger :: rest =>
      r ← analyzeTrigger window eventInfo currentTime analysisResult trigger;
      analyzeTriggers window eventInfo currentTime r rest
  end.

(** [addTriggerAnalysis(eventData)]; the event object with the new
    properties is returned. *)
Definition addTriggerAnalysis (eventData : EventData) : M EventData :=
  window ← gets win;
  let analysisResult :=
    {| triggeredTriggers := []; analysis_firedTags := []; debugMode := false;
       totalTriggers := 0; totalTags := 0 |} in
  match MatomoTagManager window with
  | None | Some [] => mret (set_triggerAnalysis analysisResult None eventData)
  | Some (container :: _) =>
      let analysisResult :=
        {| triggeredTriggers := []; analysis_firedTags := [];
           debugMode :=
             bool_decide (is_Some (triggers container))
             && bool_decide (is_Some (tags container));
           totalTriggers := List.length (default [] (triggers container));
           totalTags := List.length (default [] (tags container)) |} in
      if negb (debugMode analysisResult)
      then mret (set_triggerAnalysis analysisResult None eventData)
      else
        let eventInfo := extractEventInformation eventData in
        now ← Date_now clock;
        let currentTime := toLocaleTimeString now in
        analysisResult ← lift (analyzeTriggers window eventInfo currentTime
                                  analysisResult (default [] (triggers container)));
        mret (set_triggerAnalysis analysisResult
                (Some (negb (bool_decide (triggeredTriggers analysisResult = [])),
                       negb (bool_decide (analysis_firedTags analysisResult = []))))
                eventData)
  end.

(** [addContainerInfo(eventData)] *)
Definition addContainerInfo (eventData : EventData) : M EventData :=
  window ← gets win;
  let containerInfo := getMTMContainerInfo window in
  match containerInfo with
  | [] => mret eventData
  | _ => mret (set_containerInfo containerInfo eventData)
  end.

End InjectedAnalysis.

(** ** Injected script: interception and initial scan *)

(** [data.__mtm_processed = true], guarded in the source by
    [data && typeof data === 'object'].  The script runs in strict
    mode: the assignment raises on a frozen object. *)
Definition markProcessed (data : value) : completion value :=
  if isObjectLike data then
    match data with
    | VObj fr ps =>
        if fr then Throw TypeError
        else Normal (VObj fr (set_prop "__mtm_processed" (VBool true) ps))
    | VArr fr es ps =>
        if fr then Throw TypeError
        else Normal (VArr fr es (set_prop "__mtm_processed" (VBool true) ps))
    | _ => Normal data
    end
  else Normal data.

(** [data.slice(1)] *)
Definition slice1 (es : list value) : value := VArr false (tl es) [].

(** The three branches on the shape of [data] that
    [createMTMEventData] and [analyzeMTMDirectPushWithTimestamp] share:
    an array, another object, anything else. *)
Definition directPushName (data : value) : value :=
  match data with
  | VArr _ es _ => js_or (nth 0 es VUndefined) (VStr "MTM Array Event")
  | _ =>
      if isObjectLike data
      then js_or (js_or (get data "event") (get data "eventName"))
             (VStr "MTM Direct Object")
      else VStr "MTM Direct Value"
  end.

(** [createMTMEventData(objectName, data, arrayIndex)] *)
Definition createMTMEventData (objName : string) (data : value)
    (index : option nat) : EventData :=
  {| source := Some (objName ++ ".push"); objectName := Some objName;
     rawData := data; arrayIndex := index;
     eventName := directPushName data;
     details :=
       match data with
       | VArr _ es _ =>
           VObj false [("action", nth 0 es VUndefined); ("parameters", slice1 es)]
       | _ =>
           if isObjectLike data then data else VObj false [("value", data)]
       end;
     firedTags := None; isHistorical := None; sourceType := None;
     detectionMethod := None; triggerAnalysis := None;
     hasTriggeredTriggers := None; hasFiredTags := None; containerInfo := None;
     currentMtmArray := None; customTimestamp := None |}.

(** The event object [analyzeMTMDirectPushWithTimestamp] builds, before
    the trigger analysis and the container information are added;
    [tags] is the result of [extractFiredTags]. *)
Definition timestampedEventData (objName : string) (data : value)
    (tags : list value) (historical : bool) (index : option nat) : EventData :=
  let srcType := if historical then "initial-scan" else "live-proxy" in
  let method := if historical then "array-read" else "proxy-intercept" in
  let debugInfo :=
    VObj false
      [("sourceType", VStr srcType);
       ("detectionMethod", VStr method);
       ("arrayIndex", match index with
                      | Some i => VNum (num_of_nat i)
                      | None => VNull
                      end);
       ("isHistorical", VBool historical)] in
  {| source := Some (objName ++ ".push" ++ (if historical then " (historical)" else ""));
     objectName := Some objName;
     rawData := data; arrayIndex := index;
     eventName := directPushName data;
     details :=
       match data with
       | VArr _ es _ =>
           VObj false [("action", nth 0 es VUndefined);
                       ("parameters", slice1 es);
                       ("_debug", debugInfo)]
       | _ =>
           if isObjectLike data
           then VObj false (set_prop "_debug" debugInfo (spread data))
           else VObj false [("value", data); ("_debug", debugInfo)]
       end;
     firedTags := Some tags; isHistorical := Some historical;
     sourceType := Some srcType; detectionMethod := Some method;
     triggerAnalysis := None; hasTriggeredTriggers := None;
     hasFiredTags := None; containerInfo := None;
     currentMtmArray := None; customTimestamp := None |}.

(** [s.startsWith(p)] on a value that is truthy: a call on anything
    but a string raises. *)
Definition callStartsWith (p : string) (v : value) : completion bool :=
  match v with
  | VStr s => Normal (startsWith p s)
  | _ => Throw TypeError
  end.

(** The event object [analyzeMTMDataLayerEventWithTimestamp] builds,
    before the trigger analysis and the container information are
    added. *)
Definition dataLayerEventData (data : value) (tags : list value) (historical : bool)
  : completion EventData :=
  let srcType := if historical then "initial-scan" else "live-proxy" in
  let method := if historical then "array-read" else "proxy-intercept" in
  let debugInfo :=
    VObj false
      [("sourceType", VStr srcType);
       ("detectionMethod", VStr method);
       ("isHistorical", VBool historical)] in
  let event name det :=
    {| source := Some ("dataLayer" ++ (if historical then " (historical)" else ""));
       objectName := None;
       rawData := data; arrayIndex := None; eventName := name; details := det;
       firedTags := Some tags; isHistorical := Some historical;
       sourceType := Some srcType; detectionMethod := Some method;
       triggerAnalysis := None; hasTriggeredTriggers := None;
       hasFiredTags := None; containerInfo := None;
       currentMtmArray := None; customTimestamp := None |} in
  if is_string (get data "event") "mtm.CustomEvent" || truthy (get data "mtm.customEvent")
  then
    Normal
      (event
         (js_or (js_or (js_or (get data "eventName") (get data "mtm.customEventName"))
                   (get data "event"))
            (VStr "MTM Custom Event"))
         (VObj false
            (set_prop "_debug" debugInfo
               (assign
                  [("eventCategory", get data "eventCategory");
                   ("eventAction", get data "eventAction");
                   ("eventLabel", get data "eventLabel");
                   ("eventValue", get data "eventValue");
                   ("customEventName", get data "mtm.customEventName")]
                  (spread data)))))
  else
    isPrefixed ←
      (if truthy (get data "event") then callStartsWith "mtm." (get data "event")
       else Normal false);
    if (isPrefixed : bool)
    then Normal (event (get data "event")
                   (VObj false (set_prop "_debug" debugInfo (spread data))))
    else Normal (event
                   (js_or (js_or (js_or (get data "event") (get data "eventName"))
                             (get data "type"))
                      (VStr "MTM Event"))
                   (VObj false (set_prop "_debug" debugInfo (spread data)))).

(** The callback of [window.dataLayer.filter] in
    [monitorExistingArrays]; [entry.event.startsWith] is no function,
    and the call raises, when the event name is truthy and no string. *)
Definition isExistingMTMEvent (entry : value) : completion bool :=
  if negb (truthy entry) || negb (jstype_eqb (typeof entry) TObject) then Normal false
  else if negb (truthy (get entry "event")) then Normal false
  else
    match get entry "event" with
    | VStr event =>
        Normal (startsWith "mtm." event
                || String.eqb event "mtm"
                || includes "CustomEvent" event
                || truthy (get entry "mtm.customEvent")
                || hasOwnProperty entry "mtm")
    | _ => Throw TypeError
    end.

(** The positions of the entries the filter keeps; the filtered array
    holds the entries themselves, not copies. *)
Fixpoint filterPositions (entries : list value) (position : nat) : completion (list nat) :=
  match entries with
  | [] => Normal []
  | entry :: rest =>
      keep ← isExistingMTMEvent entry;
      kept ← filterPositions rest (S position);
      Normal (if (keep : bool) then position :: kept else kept)
  end.

Section InjectedInterception.
Context {host : Host}.
Variable clock : nat -> Z.

(** [analyzeMTMDirectPush(objectName, data, arrayIndex)].  The pushed
    object is shared: the event object captured by the timer callback
    holds it as [rawData] (and as [details] when it is a plain object),
    so the callback sees the mark set at the end of this function.  The
    computation returns [data] as it is afterwards; the captured event
    object is built from that. *)
Definition analyzeMTMDirectPush (objName : string) (data : value)
    (index : option nat) : M value :=
  if isProcessed data then mret data
  else
    match markProcessed data with
    | Normal marked =>
        setTimeout (createMTMEventData objName marked index) 50 ≫= fun _ =>
        mret marked
    | Throw e =>
        setTimeout (createMTMEventData objName data index) 50 ≫= fun _ =>
        lift (Throw e)
    end.

(** The body of [args.forEach] in the wrapper of [window._mtm.push];
    every argument is returned as the calls leave it. *)
Fixpoint analyzeArguments (args : list value) (argIndex : nat) : M (list value) :=
  match args with
  | [] => mret []
  | data :: rest =>
      data' ←
        (if isProcessed data then mret data
         else
           known ← gets lastKnownLength;
           let currentArrayIndex := (known + argIndex)%nat in
           analyzeMTMDirectPush "_mtm" data (Some currentArrayIndex));
      rest' ← analyzeArguments rest (S argIndex);
      mret (data' :: rest')
  end.

(** [Array.prototype.push.apply(window._mtm, args)]: the new length. *)
Definition nativePush (args : list value) : M nat :=
  arr ← gets (fun s => default [] (_mtm (win s)));
  modify (set_mtm (Some (arr ++ args)%list)) ≫= fun _ =>
  mret (List.length (arr ++ args)%list).

(** The function [interceptWindowMTM] installs as [window._mtm.push].
    [originalPush] is the function it replaces, called with the same
    argument objects. *)
Definition interceptedPush {R} (originalPush : list value -> M R) (args : list value)
  : M R :=
  args' ← analyzeArguments args 0;
  result ← originalPush args';
  len ← gets (fun s => List.length (default [] (_mtm (win s))));
  modify (set_lastKnownLength len) ≫= fun _ =>
  mret result.

(** [analyzeMTMDirectPushWithTimestamp].  [data] is an object of the
    page: [shared] stores it back where the caller took it from, as soon
    as [extractFiredTags] has changed it, so that the later reads of the
    page see the change.  The computation returns [data] as it is
    afterwards. *)
Definition analyzeMTMDirectPushWithTimestamp (objName : string) (data : value)
    (shared : value -> State -> State)
    (timestamp : Z) (historical : bool) (index : option nat) : M value :=
  '(tags, data) ← lift (extractFiredTags data);
  modify (shared data) ≫= fun _ =>
  let eventData := timestampedEventData objName data tags historical index in
  eventData ← addTriggerAnalysis clock eventData;
  eventData ← addContainerInfo eventData;
  dispatchMatomoEventWithTimestamp clock eventData timestamp ≫= fun _ =>
  mret data.

(** The callback of [window._mtm.forEach] in [monitorExistingArrays]:
    the entry is read from the array and written back as the calls
    leave it. *)
Definition scanEntry (wasInitialScan : bool) (index : nat) : M unit :=
  arr ← gets (fun s => default [] (_mtm (win s)));
  let entry := nth index arr VUndefined in
  if isProcessed entry then mret tt
  else
    now ← Date_now clock;
    let historicalTimestamp :=
      (now - (Z.of_nat (List.length arr) - Z.of_nat index) * INTERVALS.HISTORICAL_OFFSET)%Z in
    entry ← analyzeMTMDirectPushWithTimestamp "_mtm" entry
              (fun entry => set_mtm (Some (replace_nth index entry arr)))
              historicalTimestamp wasInitialScan (Some index);
    entry ← lift (markProcessed entry);
    modify (set_mtm (Some (replace_nth index entry arr))).

(** [analyzeMTMDataLayerEventWithTimestamp]; [shared] as above. *)
Definition analyzeMTMDataLayerEventWithTimestamp (data : value)
    (shared : value -> State -> State) (timestamp : Z) (historical : bool) : M value :=
  '(tags, data) ← lift (extractFiredTags data);
  modify (shared data) ≫= fun _ =>
  eventData ← lift (dataLayerEventData data tags historical);
  eventData ← addTriggerAnalysis clock eventData;
  eventData ← addContainerInfo eventData;
  dispatchMatomoEventWithTimestamp clock eventData timestamp ≫= fun _ =>
  mret data.

(** The callback of [mtmEvents.forEach] in [monitorExistingArrays];
    [position] is the place of the entry in [window.dataLayer], [count]
    the number of entries the filter has kept. *)
Definition scanDataLayerEntry (wasInitialScan : bool) (count : nat)
    (position index : nat) : M unit :=
  entries ← gets (fun s => default [] (dataLayer (win s)));
  let entry := nth position entries VUndefined in
  if truthy (get entry "__mtm_processed") then mret tt
  else
    now ← Date_now clock;
    let historicalTimestamp := (now - (Z.of_nat count - Z.of_nat index) * 3000)%Z in
    entry ← analyzeMTMDataLayerEventWithTimestamp entry
              (fun entry => set_dataLayer (Some (replace_nth position entry entries)))
              historicalTimestamp wasInitialScan;
    entry ← lift (markProcessed entry);
    modify (set_dataLayer (Some (replace_nth position entry entries))).

(** [monitorExistingArrays()] *)
Definition monitorExistingArrays : M unit :=
  wasInitialScan ← gets (fun s => negb (initialScanCompleted s));
  (* check existing _mtm entries *)
  config ← gets CONFIG;
  window ← gets win;
  (match _mtm window with
   | Some arr =>
       if watchMTM config
       then forEach (fun _ index => scanEntry wasInitialScan index) arr 0
       else mret tt
   | None => mret tt
   end) ≫= fun _ =>
  (* check existing dataLayer entries for MTM events *)
  config ← gets CONFIG;
  window ← gets win;
  (match dataLayer window with
   | Some entries =>
       if watchDataLayer config
       then
         mtmEvents ← lift (filterPositions entries 0);
         forEach (fun position index =>
                    scanDataLayerEntry wasInitialScan (List.length mtmEvents)
                      position index)
           mtmEvents 0
       else mret tt
   | None => mret tt
   end) ≫= fun _ =>
  if (wasInitialScan : bool) then modify (set_initialScanCompleted true) else mret tt.

End InjectedInterception.

(** ** Injected script: the polling fallback and the re-interception *)

(** The body of the [for] loop of [checkArrayChanges]: the entry is
    read from the array and written back as the calls leave it. *)
Definition checkEntry (i : nat) : M unit :=
  arr ← gets (fun s => default [] (_mtm (win s)));
  let entry := nth i arr VUndefined in
  if isProcessed entry then mret tt
  else
    entry ← analyzeMTMDirectPush "_mtm" entry (Some i);
    modify (set_mtm (Some (replace_nth i entry arr))) ≫= fun _ =>
    entry ← lift (markProcessed entry);
    modify (set_mtm (Some (replace_nth i entry arr))).

(** [checkArrayChanges], the function [interceptWindowMTM] hands to
    [setInterval]: one call of it. *)
Definition checkArrayChanges : M unit :=
  window ← gets win;
  known ← gets lastKnownLength;
  match _mtm window with
  | Some arr =>
      if negb (List.length arr =? known)%nat then
        forEach (fun i _ => checkEntry i) (seq known (List.length arr - known)) 0 ≫= fun _ =>
        len ← gets (fun s => List.length (default [] (_mtm (win s))));
        modify (set_lastKnownLength len)
      else mret tt
  | None => mret tt
  end.

(** [args.forEach(data => analyzeMTMDirectPush(objName, data))] in the
    wrapper of [setupPeriodicMonitoring]; the array index is left to its
    default [null]. *)
Fixpoint analyzeEach (objName : string) (args : list value) : M (list value) :=
  match args with
  | [] => mret []
  | data :: rest =>
      data' ← analyzeMTMDirectPush objName data None;
      rest' ← analyzeEach objName rest;
      mret (data' :: rest')
  end.

(** The function [setupPeriodicMonitoring] installs as
    [window[objName].push] over a push that does not carry the
    [__intercepted] flag; [originalPush] is the function it replaces. *)
Definition reinterceptedPush {R} (objName : string) (originalPush : list value -> M R)
    (args : list value) : M R :=
  args' ← analyzeEach objName args;
  originalPush args'.

(** ** Injected script: live data-layer events *)

(** [Array.from] raises a [RangeError] for an array-like object that is
    too long, an exception the paths above do not meet. *)
Inductive raised := Raised (e : exn) | RangeError.

Inductive outcome (A : Type) : Type :=
| Returned (a : A)
| Aborted (r : raised).
Arguments Returned {A} a.
Arguments Aborted {A} r.

(** The page together with the variable [lastKnownLength] of the
    closure of [interceptDataLayer], which is another variable than the
    one of [interceptWindowMTM]. *)
Record Watcher := {
  page : State;
  dataLayerLength : nat
}.

Definition L (A : Type) : Type := Watcher -> outcome A * Watcher.

#[global] Instance L_ret : MRet L := fun A a w => (Returned a, w).
#[global] Instance L_bind : MBind L :=
  fun A B f m w =>
    match m w with
    | (Returned a, w') => f a w'
    | (Aborted r, w') => (Aborted r, w')
    end.

(** A computation on the page, run by the data-layer code. *)
Definition onPage {A} (m : M A) : L A :=
  fun w =>
    match m (page w) with
    | (Normal a, s) => (Returned a, {| page := s; dataLayerLength := dataLayerLength w |})
    | (Throw e, s) => (Aborted (Raised e), {| page := s; dataLayerLength := dataLayerLength w |})
    end.

Definition abort {A} (r : raised) : L A := fun w => (Aborted r, w).

Definition set_dataLayerLength (n : nat) : L unit :=
  fun w => (Returned tt, {| page := page w; dataLayerLength := n |}).

Definition set_rawData (r : value) (e : EventData) : EventData :=
  {| source := source e; objectName := objectName e; rawData := r;
     arrayIndex := arrayIndex e; eventName := eventName e; details := details e;
     firedTags := firedTags e; isHistorical := isHistorical e;
     sourceType := sourceType e; detectionMethod := detectionMethod e;
     triggerAnalysis := triggerAnalysis e;
     hasTriggeredTriggers := hasTriggeredTriggers e;
     hasFiredTags := hasFiredTags e;
     containerInfo := containerInfo e; currentMtmArray := currentMtmArray e;
     customTimestamp := customTimestamp e |}.

(** The length [new Array(len)] accepts for [len = ToLength(n)]: the
    integer part of [n], zero for [NaN] and for what is not positive;
    [None], a [RangeError], from [2^32] on. *)
Definition arrayLength (n : float) : option nat :=
  match FloatOps.Prim2SF n with
  | SpecFloat.S754_finite false m e =>
      let z := if (0 <=? e)%Z then (Z.pos m * 2 ^ e)%Z else (Z.pos m / 2 ^ (- e))%Z in
      if (z <? 2 ^ 32)%Z then Some (Z.to_nat z) else None
  | SpecFloat.S754_infinity false => None
  | _ => Some 0%nat
  end.

(** [v.hasOwnProperty(k)] on an object.  An own property named
    [hasOwnProperty] hides the method; it is no function (the model has
    none), so the call raises. *)
Definition callHasOwnProperty (v : value) (k : string) : completion bool :=
  if hasOwnProperty v "hasOwnProperty" then Throw TypeError
  else Normal (hasOwnProperty v k).

Section LiveDataLayer.
Context {host : Host}.

(** [Array.from(data)] for an object that is no array: it is read as an
    array-like object, from its [length] and its index properties. *)
Definition arrayFrom (data : value) : outcome (list value) :=
  match arrayLength (ToNumber (get data "length")) with
  | Some len =>
      Returned (map (fun k => get data (pretty.pretty (N.of_nat k))) (seq 0 len))
  | None => Aborted RangeError
  end.

(** The test [isMTMEvent] of [analyzeMTMDataLayerEvent]. *)
Definition isMTMDataLayerEvent (data : value) : completion bool :=
  named ←
    (if truthy (get data "event") then
       prefixed ← callStartsWith "mtm." (get data "event");
       Normal (prefixed
               || is_string (get data "event") "mtm"
               || match get data "event" with
                  | VStr event => includes "CustomEvent" event
                  | _ => false
                  end
               || truthy (get data "mtm.customEvent"))
     else Normal false);
  if (named : bool) then Normal true
  else
    own ← callHasOwnProperty data "mtm";
    if (own : bool) then Normal true
    else
      stamped ← callHasOwnProperty data "aMTMts";
      if (stamped : bool) then callHasOwnProperty data "aMTMparams" else Normal false.

(** [createDataLayerEventData(data, firedTags)] *)
Definition createDataLayerEventData (data : value) (tags : list value)
  : completion EventData :=
  let event name det :=
    {| source := Some "dataLayer"; objectName := None;
       rawData := data; arrayIndex := None; eventName := name; details := det;
       firedTags := Some tags; isHistorical := None;
       sourceType := None; detectionMethod := None;
       triggerAnalysis := None; hasTriggeredTriggers := None;
       hasFiredTags := None; containerInfo := None;
       currentMtmArray := None; customTimestamp := None |} in
  if is_string (get data "event") "mtm.CustomEvent" || truthy (get data "mtm.customEvent")
  then
    Normal
      (event
         (js_or (js_or (js_or (get data "eventName") (get data "mtm.customEventName"))
                   (get data "event"))
            (VStr "MTM Custom Event"))
         (VObj false
            (assign
               [("eventCategory", get data "eventCategory");
                ("eventAction", get data "eventAction");
                ("eventLabel", get data "eventLabel");
                ("eventValue", get data "eventValue");
                ("customEventName", get data "mtm.customEventName")]
               (spread data))))
  else
    isPrefixed ←
      (if truthy (get data "event") then callStartsWith "mtm." (get data "event")
       else Normal false);
    if (isPrefixed : bool)
    then Normal (event (get data "event") (VObj false (spread data)))
    else Normal (event
                   (js_or (js_or (js_or (get data "event") (get data "eventName"))
                             (get data "type"))
                      (VStr "MTM Event"))
                   (VObj false (spread data))).

(** The argument of the call of [debugLog] before the branch on
    [isMTMEvent]: [JSON.parse(JSON.stringify(data.event))] is evaluated
    although nothing is logged, and [JSON.parse(undefined)] raises. *)
Definition parseEventName (data : value) : completion unit :=
  match JSON_stringify (get data "event") with
  | Some _ => Normal tt
  | None => Throw SyntaxError
  end.

(** [analyzeMTMDataLayerEvent(data)] from its second test on, for the
    object [data] stands for after the conversion of an [Arguments]
    object.  The computation returns [data] as it is afterwards; the
    event object the timer callback has captured holds it as
    [rawData]. *)
Definition analyzeDataLayerObject (data : value) : L value :=
  if negb (truthy data) || negb (jstype_eqb (typeof data) TObject) then mret data
  else if truthy (get data "__mtm_processed") then mret data
  else
    isMTMEvent ← onPage (lift (isMTMDataLayerEvent data));
    onPage (lift (parseEventName data)) ≫= fun _ =>
    if (isMTMEvent : bool) then
      '(tags, data) ← onPage (lift (extractFiredTags data));
      eventData ← onPage (lift (createDataLayerEventData data tags));
      match markProcessed data with
      | Normal marked =>
          onPage (setTimeout (set_rawData marked eventData) 50) ≫= fun _ =>
          mret marked
      | Throw e =>
          onPage (setTimeout eventData 50) ≫= fun _ =>
          abort (Raised e)
      end
    else mret data.

(** [analyzeMTMDataLayerEvent(data)].  An object with a [length] that
    is no array is taken for an [Arguments] object; its first element,
    when it is an object, is analysed in its place. *)
Definition analyzeMTMDataLayerEvent (data : value) : L value :=
  if isObjectLike data && negb (is_undefined (get data "length")) && negb (isArray data)
  then
    match arrayFrom data with
    | Returned (first :: _) =>
        if jstype_eqb (typeof first) TObject
        then first' ← analyzeDataLayerObject first; mret (put data "0" first')
        else mret data
    | Returned [] => mret data
    | Aborted r => abort r
    end
  else analyzeDataLayerObject data.

(** The body of [args.forEach] in the wrapper of
    [window.dataLayer.push]. *)
Fixpoint analyzeDataLayerArguments (args : list value) : L (list value) :=
  match args with
  | [] => mret []
  | data :: rest =>
      data' ← (if isProcessed data then mret data else analyzeMTMDataLayerEvent data);
      rest' ← analyzeDataLayerArguments rest;
      mret (data' :: rest')
  end.

(** [Array.prototype.push.apply(window.dataLayer, args)] *)
Definition nativeDataLayerPush (args : list value) : L nat :=
  onPage
    (entries ← gets (fun s => default [] (dataLayer (win s)));
     modify (set_dataLayer (Some (entries ++ args)%list)) ≫= fun _ =>
     mret (List.length (entries ++ args)%list)).

(** The function [interceptDataLayer] installs as
    [window.dataLayer.push]. *)
Definition interceptedDataLayerPush {R} (originalPush : list value -> L R)
    (args : list value) : L R :=
  args' ← analyzeDataLayerArguments args;
  result ← originalPush args';
  len ← onPage (gets (fun s => List.length (default [] (dataLayer (win s)))));
  set_dataLayerLength len ≫= fun _ =>
  mret result.

End LiveDataLayer.

(** ** Content script (consumer) *)

Module PERFORMANCE.
Definition MAX_EVENTS : Z := 1000.
Definition VIRTUALIZE_THRESHOLD : Z := 100.
Definition DUPLICATE_TIMEOUT : Z := 2000.
Definition CLEANUP_INTERVAL : Z := 5000.
End PERFORMANCE.

(** What [chrome.storage.sync.get(DEFAULT_CONFIG, ...)] hands to the
    listener. *)
Record StoredConfig := {
  cfg_watchMTM : bool;
  cfg_watchDataLayer : bool;
  cfg_autoShow : bool;
  cfg_hideMTMFrame : bool;
  cfg_consoleLogging : bool;
  cfg_maxEvents : Z;
  cfg_virtualizeThreshold : Z
}.

Definition DEFAULT_CONFIG : StoredConfig :=
  {| cfg_watchMTM := true; cfg_watchDataLayer := false; cfg_autoShow := true;
     cfg_hideMTMFrame := false; cfg_consoleLogging := true;
     cfg_maxEvents := 1000; cfg_virtualizeThreshold := 100 |}.

(** An element of [eventLog]: the delivered detail without its
    [customTimestamp], with the [timestamp] (the ISO text stands for the
    millisecond count it encodes) and the [id] the listener adds.  The
    [id] is the sum of a time and of [Math.random()], taken exactly. *)
Record LoggedEvent := {
  logged : EventData;
  timestamp : Z;
  event_id : Qc
}.

(** The value kept in [recentEvents] for a signature. *)
Record RecentEvent := {
  recent_timestamp : Z;
  hadArrayIndex : bool
}.

(** The variables of the content script that the listener reads and
    writes; the overlay and its flags are outside the model.
    [expandedStates] is keyed by the event id behind the key text
    [event-<id>].  [c_ticks] counts the readings of the clock, [rolls]
    the calls of [Math.random()]. *)
Record Consumer := {
  c_ticks : nat;
  rolls : nat;
  eventLog : list LoggedEvent;
  expandedStates : gmap Qc bool;
  recentEvents : gmap string RecentEvent;
  suppressedDuplicates : nat;
  maxEvents : Z;
  virtualizeThreshold : Z;
  isVirtualized : bool;
  globalContainerInfo : option (list ContainerInfo);
  consoleLoggingEnabled : bool
}.

Definition set_clock_reads (n r : nat) (c : Consumer) : Consumer :=
  {| c_ticks := n; rolls := r; eventLog := eventLog c;
     expandedStates := expandedStates c; recentEvents := recentEvents c;
     suppressedDuplicates := suppressedDuplicates c; maxEvents := maxEvents c;
     virtualizeThreshold := virtualizeThreshold c; isVirtualized := isVirtualized c;
     globalContainerInfo := globalContainerInfo c;
     consoleLoggingEnabled := consoleLoggingEnabled c |}.

Definition set_settings (m v : Z) (l : bool) (c : Consumer) : Consumer :=
  {| c_ticks := c_ticks c; rolls := rolls c; eventLog := eventLog c;
     expandedStates := expandedStates c; recentEvents := recentEvents c;
     suppressedDuplicates := suppressedDuplicates c; maxEvents := m;
     virtualizeThreshold := v; isVirtualized := isVirtualized c;
     globalContainerInfo := globalContainerInfo c;
     consoleLoggingEnabled := l |}.

Definition set_globalContainerInfo (i : list ContainerInfo) (c : Consumer) : Consumer :=
  {| c_ticks := c_ticks c; rolls := rolls c; eventLog := eventLog c;
     expandedStates := expandedStates c; recentEvents := recentEvents c;
     suppressedDuplicates := suppressedDuplicates c; maxEvents := maxEvents c;
     virtualizeThreshold := virtualizeThreshold c; isVirtualized := isVirtualized c;
     globalContainerInfo := Some i;
     consoleLoggingEnabled := consoleLoggingEnabled c |}.

Definition set_recentEvents (r : gmap string RecentEvent) (c : Consumer) : Consumer :=
  {| c_ticks := c_ticks c; rolls := rolls c; eventLog := eventLog c;
     expandedStates := expandedStates c; recentEvents := r;
     suppressedDuplicates := suppressedDuplicates c; maxEvents := maxEvents c;
     virtualizeThreshold := virtualizeThreshold c; isVirtualized := isVirtualized c;
     globalContainerInfo := globalContainerInfo c;
     consoleLoggingEnabled := consoleLoggingEnabled c |}.

Definition set_suppressedDuplicates (n : nat) (c : Consumer) : Consumer :=
  {| c_ticks := c_ticks c; rolls := rolls c; eventLog := eventLog c;
     expandedStates := expandedStates c; recentEvents := recentEvents c;
     suppressedDuplicates := n; maxEvents := maxEvents c;
     virtualizeThreshold := virtualizeThreshold c; isVirtualized := isVirtualized c;
     globalContainerInfo := globalContainerInfo c;
     consoleLoggingEnabled := consoleLoggingEnabled c |}.

Definition set_log (l : list LoggedEvent) (x : gmap Qc bool) (v : bool)
    (c : Consumer) : Consumer :=
  {| c_ticks := c_ticks c; rolls := rolls c; eventLog := l;
     expandedStates := x; recentEvents := recentEvents c;
     suppressedDuplicates := suppressedDuplicates c; maxEvents := maxEvents c;
     virtualizeThreshold := virtualizeThreshold c; isVirtualized := v;
     globalContainerInfo := globalContainerInfo c;
     consoleLoggingEnabled := consoleLoggingEnabled c |}.

Definition clear_customTimestamp (e : EventData) : EventData :=
  {| source := source e; objectName := objectName e; rawData := rawData e;
     arrayIndex := arrayIndex e; eventName := eventName e; details := details e;
     firedTags := firedTags e; isHistorical := isHistorical e;
     sourceType := sourceType e; detectionMethod := detectionMethod e;
     triggerAnalysis := triggerAnalysis e;
     hasTriggeredTriggers := hasTriggeredTriggers e;
     hasFiredTags := hasFiredTags e;
     containerInfo := containerInfo e; currentMtmArray := currentMtmArray e;
     customTimestamp := None |}.

Definition set_eventName (n : value) (e : EventData) : EventData :=
  {| source := source e; objectName := objectName e; rawData := rawData e;
     arrayIndex := arrayIndex e; eventName := n; details := details e;
     firedTags := firedTags e; isHistorical := isHistorical e;
     sourceType := sourceType e; detectionMethod := detectionMethod e;
     triggerAnalysis := triggerAnalysis e;
     hasTriggeredTriggers := hasTriggeredTriggers e;
     hasFiredTags := hasFiredTags e;
     containerInfo := containerInfo e; currentMtmArray := currentMtmArray e;
     customTimestamp := customTimestamp e |}.

(** [newEvent.arrayIndex !== null && newEvent.arrayIndex !== undefined] *)
Definition hasArrayIndex (e : EventData) : bool :=
  bool_decide (is_Some (arrayIndex e)).

(** [eventLog.sort((a, b) => new Date(a.timestamp) - new Date(b.timestamp))]:
    a stable sort by time. *)
Fixpoint insertByTimestamp (x : LoggedEvent) (l : list LoggedEvent) : list LoggedEvent :=
  match l with
  | [] => [x]
  | y :: l' =>
      if (timestamp x <? timestamp y)%Z then x :: y :: l'
      else y :: insertByTimestamp x l'
  end.

Definition sortByTimestamp (l : list LoggedEvent) : list LoggedEvent :=
  fold_left (fun sorted x => insertByTimestamp x sorted) l [].

Section ContentScript.
Context {host : Host}.
Variable clock : nat -> Z.
Variable random : nat -> Qc.

(** The object [isExactDuplicate] serialises.  Unlike the injected
    script it applies no default to the name and the source. *)
Definition cleanEvent (newEvent : EventData) : value :=
  VObj false
    [("eventName", eventName newEvent);
     ("source",
      match source newEvent with
      | Some s => VStr (replace " (historical)" "" s)
      | None => VUndefined
      end);
     ("details",
      if truthy (details newEvent) then cleanEventDetails (details newEvent)
      else VNull)].

Definition eventJson (newEvent : EventData) : string :=
  default "" (JSON_stringify (cleanEvent newEvent)).

(** [cleanupEventCaches()], at the clock reading [now]. *)
Definition cleanupEventCaches (now : Z) (cache : gmap string RecentEvent)
  : gmap string RecentEvent :=
  filter (fun kv => ¬ (now - recent_timestamp kv.2 > PERFORMANCE.DUPLICATE_TIMEOUT)%Z)
    cache.

(** [isExactDuplicate(newEvent)]: the answer and the state afterwards.
    The clock is read once at the start; a second time, by
    [cleanupEventCaches], only when the event is recorded. *)
Definition isExactDuplicate (newEvent : EventData) (c : Consumer) : bool * Consumer :=
  let now := clock (c_ticks c) in
  let c := set_clock_reads (S (c_ticks c)) (rolls c) c in
  let key := eventJson newEvent in
  let suppressed :=
    match recentEvents c !! key with
    | Some lastSeen =>
        let timeDiff := (now - recent_timestamp lastSeen)%Z in
        (timeDiff <? PERFORMANCE.DUPLICATE_TIMEOUT)%Z
        && negb (Bool.eqb (hadArrayIndex lastSeen) (hasArrayIndex newEvent))
    | None => false
    end in
  if suppressed then (true, c)
  else
    let cache :=
      <[key := {| recent_timestamp := now; hadArrayIndex := hasArrayIndex newEvent |}]>
        (recentEvents c) in
    let now' := clock (c_ticks c) in
    let c := set_clock_reads (S (c_ticks c)) (rolls c) c in
    (false, set_recentEvents (cleanupEventCaches now' cache) c).

(** [cleanupEventLog()] on the log and the expanded states. *)
Definition cleanupEventLog (limit : Z) (log : list LoggedEvent)
    (expanded : gmap Qc bool) : list LoggedEvent * gmap Qc bool :=
  if (Z.of_nat (List.length log) >? limit)%Z then
    let eventsToRemove := Z.to_nat (Z.of_nat (List.length log) - limit) in
    let removedEvents := firstn eventsToRemove log in
    (skipn eventsToRemove log,
     fold_left (fun acc event => delete (event_id event) acc) removedEvents expanded)
  else (log, expanded).

(** [cleanupExpandedStates()]: only the states of the last twenty
    events are kept. *)
Definition cleanupExpandedStates (log : list LoggedEvent) (expanded : gmap Qc bool)
  : gmap Qc bool :=
  let currentEventIds :=
    map event_id (skipn (List.length log - 20) log) in
  filter (fun kv => kv.1 ∈ currentEventIds) expanded.

(** The name the listener gives to an event that arrives without one. *)
Definition fallbackEventName (e : EventData) : value :=
  if truthy (eventName e) then eventName e
  else if truthy (details e) && truthy (get (details e) "event")
       then get (details e) "event"
  else if truthy (rawData e) && truthy (get (rawData e) "event")
       then get (rawData e) "event"
  else if truthy (details e) && truthy (get (details e) "type")
       then get (details e) "type"
  else VStr "Unknown".

(** [customTimestamp] as the conditions of the listener see it. *)
Definition truthyTimestamp (e : EventData) : option Z :=
  match customTimestamp e with
  | Some t => if (t =? 0)%Z then None else Some t
  | None => None
  end.

(** The listener of [matomoEventDetected], with the configuration the
    storage callback receives.  Console output and the updates of the
    overlay and of the badge leave the modelled state alone. *)
Definition onMatomoEventDetected (detail : EventData) (config : StoredConfig)
    (c : Consumer) : Consumer :=
  let c := set_settings
             (if (cfg_maxEvents config =? 0)%Z then PERFORMANCE.MAX_EVENTS
              else cfg_maxEvents config)
             (if (cfg_virtualizeThreshold config =? 0)%Z
              then PERFORMANCE.VIRTUALIZE_THRESHOLD
              else cfg_virtualizeThreshold config)
             (cfg_consoleLogging config) c in
  if negb (cfg_watchMTM config) && negb (cfg_watchDataLayer config) then c
  else
    (* timestamp: ..., id: ... *)
    let '(time, c) :=
      match truthyTimestamp detail with
      | Some t => (t, c)
      | None => (clock (c_ticks c), set_clock_reads (S (c_ticks c)) (rolls c) c)
      end in
    let '(base, c) :=
      match truthyTimestamp detail with
      | Some t => (t, c)
      | None => (clock (c_ticks c), set_clock_reads (S (c_ticks c)) (rolls c) c)
      end in
    let id := (Q2Qc (inject_Z base) + random (rolls c))%Qc in
    let c := set_clock_reads (c_ticks c) (S (rolls c)) c in
    let eventData := clear_customTimestamp detail in
    (* store container info globally if available *)
    let c :=
      match containerInfo eventData with
      | Some (info :: rest) => set_globalContainerInfo (info :: rest) c
      | _ => c
      end in
    (* enhanced event name extraction *)
    let eventData := set_eventName (fallbackEventName eventData) eventData in
    (* precise duplicate detection *)
    let '(duplicate, c) := isExactDuplicate eventData c in
    if (duplicate : bool) then set_suppressedDuplicates (S (suppressedDuplicates c)) c
    else
      let entry := {| logged := eventData; timestamp := time; event_id := id |} in
      let log := (eventLog c ++ [entry])%list in
      let '(log, expanded) := cleanupEventLog (maxEvents c) log (expandedStates c) in
      let log := sortByTimestamp log in
      let virtualized := (Z.of_nat (List.length log) >? virtualizeThreshold c)%Z in
      let expanded := cleanupExpandedStates log expanded in
      set_log log expanded virtualized c.

End ContentScript.

(** ** Content script: clearing the log *)

(** [clearEvents()]; the overlay and the badge are outside the model. *)
Definition clearEvents (c : Consumer) : Consumer :=
  {| c_ticks := c_ticks c; rolls := rolls c; eventLog := [];
     expandedStates := ∅; recentEvents := ∅;
     suppressedDuplicates := 0; maxEvents := maxEvents c;
     virtualizeThreshold := virtualizeThreshold c; isVirtualized := false;
     globalContainerInfo := globalContainerInfo c;
     consoleLoggingEnabled := consoleLoggingEnabled c |}.

(** ** A host to run the model on examples *)

(** [IntegerHost] agrees with the language on the integers the examples
    use: a number with an integer value is printed as its decimal
    numeral and a decimal numeral is read as that integer.  Its
    regular expressions are the literal patterns, matched by search;
    a pattern with a metacharacter is rejected, as the language rejects
    an unbalanced parenthesis.  Times are printed in UTC. *)
Module IntegerHost.

Definition digits (z : Z) : string := pretty.pretty (Z.to_N z).

Definition pad (width : nat) (z : Z) : string :=
  let s := digits z in
  String.concat "" (repeat "0" (width - String.length s)) ++ s.

Fixpoint strip_leading_zeros (s : string) : string :=
  match s with
  | String "0"%char s' => strip_leading_zeros s'
  | _ => s
  end.

Definition strip_zeros (s : string) : string :=
  String.rev (strip_leading_zeros (String.rev s)).

Definition printNumber (f : float) : string :=
  match FloatOps.Prim2SF f with
  | SpecFloat.S754_nan => "NaN"
  | SpecFloat.S754_infinity false => "Infinity"
  | SpecFloat.S754_infinity true => "-Infinity"
  | SpecFloat.S754_zero _ => "0"
  | SpecFloat.S754_finite s m e =>
      (if s then "-" else "") ++
      (if (0 <=? e)%Z then digits (Z.pos m * 2 ^ e)
       else
         let den := (2 ^ (- e))%Z in
         let whole := (Z.pos m / den)%Z in
         let part := (Z.pos m mod den)%Z in
         if (part =? 0)%Z then digits whole
         else digits whole ++ "." ++
              strip_zeros (pad (Z.to_nat (- e)) (part * 5 ^ (- e))))
  end.

Definition number_of_Z (z : Z) : float :=
  if (z <? 0)%Z then PrimFloat.opp (PrimFloat.of_uint63 (Uint63.of_Z (- z)))
  else PrimFloat.of_uint63 (Uint63.of_Z z).

Definition readNumber (s : string) : float :=
  match s with
  | EmptyString => PrimFloat.zero
  | String "-"%char (String c s') =>
      match parse_digits (String c s') 0 with
      | Some n => number_of_Z (- Z.of_nat n)
      | None => PrimFloat.nan
      end
  | _ =>
      match parse_digits s 0 with
      | Some n => number_of_Z (Z.of_nat n)
      | None => PrimFloat.nan
      end
  end.

Definition metacharacter (c : ascii) : bool :=
  existsb (Ascii.eqb c)
    (list_ascii_of_string "\^$.|?*+()[]{}").

Fixpoint literal (s : string) : bool :=
  match s with
  | EmptyString => true
  | String c s' => negb (metacharacter c) && literal s'
  end.

Definition compile (pattern : string) : option string :=
  if literal pattern then Some pattern else None.

Definition formatTime (t : Z) : string :=
  pad 2 ((t / 3600000) mod 24) ++ ":" ++ pad 2 ((t / 60000) mod 60) ++ ":" ++
  pad 2 ((t / 1000) mod 60) ++ "," ++ pad 3 (t mod 1000).

#[global] Instance host : Host :=
  {| NumberToString := printNumber;
     StringToNumber := readNumber;
     regexp := string;
     RegExp_new := compile;
     RegExp_test := includes;
     toLocaleTimeString := formatTime |}.

End IntegerHost.

(** * Properties *)

(** ** Condition evaluator and trigger matcher *)

Section MatcherFacts.
Context {host : Host}.
Variable window : Window.

(** Every branch of the operator table returns: the only call that can
    throw, the construction of the regular expression, sits in the
    [try] block. *)
Lemma evaluate_returns actualValue expectedValue comparison :
  exists b, evaluate actualValue expectedValue comparison = Normal b.
Proof.
  unfold evaluate.
  repeat match goal with
         | |- context [if ?c then _ else _] => destruct c
         end; eauto.
  unfold RegExp. destruct (RegExp_new _); simpl; eauto.
Qed.

Lemma evaluateCondition_returns condition eventInfo :
  exists b, evaluateCondition window condition eventInfo = Normal b.
Proof. apply evaluate_returns. Qed.

(** The truth value of a condition. *)
Definition conditionHolds (eventInfo : EventInfo) (condition : Condition) : bool :=
  match evaluateCondition window condition eventInfo with
  | Normal b => b
  | Throw _ => false
  end.

Lemma evaluateCondition_holds condition eventInfo :
  evaluateCondition window condition eventInfo
  = Normal (conditionHolds eventInfo condition).
Proof.
  unfold conditionHolds.
  destruct (evaluateCondition_returns condition eventInfo) as [b ->]. reflexivity.
Qed.

Lemma mapM_evaluateCondition eventInfo conds :
  mapM (fun condition => evaluateCondition window condition eventInfo) conds
  = Normal (map (conditionHolds eventInfo) conds).
Proof.
  induction conds as [|c conds IH]; simpl; [reflexivity|].
  rewrite evaluateCondition_holds. simpl. rewrite IH. reflexivity.
Qed.

(** The matcher as a closed form: the timer branch returns what the
    standard branch returns. *)
Lemma doesTriggerMatch_forallb trigger eventInfo :
  doesTriggerMatch window trigger eventInfo
  = Normal match conditions trigger with
           | Some (c :: conds) => forallb (conditionHolds eventInfo) (c :: conds)
           | _ => false
           end.
Proof.
  unfold doesTriggerMatch.
  destruct (conditions trigger) as [[|c conds]|]; try reflexivity.
  rewrite mapM_evaluateCondition.
  change (Normal (map (conditionHolds eventInfo) (c :: conds)) ≫= ?f)
    with (f (map (conditionHolds eventInfo) (c :: conds))).
  cbv beta.
  assert (Hmap : forallb (fun result : bool => result)
                   (map (conditionHolds eventInfo) (c :: conds))
                 = forallb (conditionHolds eventInfo) (c :: conds)).
  { generalize (c :: conds). intros l.
    induction l as [|x l IH]; simpl; [reflexivity|]. now rewrite IH. }
  rewrite Hmap.
  destruct (_ || _); [destruct (existsb _ _)|]; reflexivity.
Qed.


(** The reading of the [equals] row of the operator table: numeric
    comparison when the actual value is a number and the expected value
    converts to one, comparison of the string forms otherwise. *)
Definition equalsNumericAware (actualValue expectedValue : value) : bool :=
  match actualValue with
  | VNum n =>
      if PrimFloat.is_nan (ToNumber expectedValue)
      then String.eqb (ToString actualValue) (ToString expectedValue)
      else PrimFloat.eqb n (ToNumber expectedValue)
  | _ => String.eqb (ToString actualValue) (ToString expectedValue)
  end.



(** C6 (as the code has it). For a variable whose type is neither
    [DataLayer] nor [PageUrl] (a constant, a custom function, any
    unknown type) the resolver returns [defaultValue || null]: the
    default value when it is truthy, [null] when it is [undefined],
    [null], [false], [0], [NaN] or the empty string.  Neither the event
    context nor the page is consulted. *)
Theorem getVariableValue_default_or_null variable eventInfo :
  var_type variable <> "DataLayer" ->
  var_type variable <> "PageUrl" ->
  getVariableValue window (Some variable) eventInfo
  = if truthy (defaultValue variable) then defaultValue variable else VNull.
Proof.
  intros Hd Hp. unfold getVariableValue.
  apply String.eqb_neq in Hd. apply String.eqb_neq in Hp.
  rewrite Hd, Hp. unfold js_or.
  destruct (String.eqb (var_type variable) "CustomJsFunction"); reflexivity.
Qed.

End MatcherFacts.

(** *** The matcher on concrete rules *)

Definition emptyWindow : Window :=
  {| _mtm := None; dataLayer := None;
     location_href := "https://example.org/"; MatomoTagManager := None |}.

Definition clickInfo : EventInfo :=
  {| info_eventName := VStr "click";
     dataLayerData := [("event", VStr "click"); ("count", VStr "42")];
     info_source := "_mtm.push" |}.

Definition dataLayerVariable (name : string) : VariableRef :=
  {| var_name := VStr name; var_type := "DataLayer";
     parameters := Some {| dataLayerName := Some name |};
     defaultValue := VUndefined |}.

Definition eventIsClick : Condition :=
  {| actual := Some (dataLayerVariable "event");
     comparison := "equals"; expected := VStr "click" |}.

Definition countIs7 : Condition :=
  {| actual := Some (dataLayerVariable "count");
     comparison := "equals"; expected := VNum 7 |}.

Definition countIs42 : Condition :=
  {| actual := Some (dataLayerVariable "count");
     comparison := "equals"; expected := VNum 42 |}.

Definition triggerWith (conds : option (list Condition)) : Trigger :=
  {| trigger_id := VNum 1; trigger_name := VStr "T"; trigger_type := VStr "CustomEvent";
     conditions := conds; getReferencedTags := None; referencedTags := None |}.

Example match_both_conditions :
  doesTriggerMatch emptyWindow (triggerWith (Some [eventIsClick; countIs42])) clickInfo
  = Normal true.
Proof. vm_compute. reflexivity. Qed.

Example no_match_one_of_two :
  doesTriggerMatch emptyWindow (triggerWith (Some [eventIsClick; countIs7])) clickInfo
  = Normal false.
Proof. vm_compute. reflexivity. Qed.

Example no_match_without_conditions :
  doesTriggerMatch emptyWindow (triggerWith (Some [])) clickInfo = Normal false /\
  doesTriggerMatch emptyWindow (triggerWith None) clickInfo = Normal false.
Proof. split; reflexivity. Qed.


Definition unbalancedPattern : Condition :=
  {| actual := Some (dataLayerVariable "event");
     comparison := "matchesRegex"; expected := VStr "(" |}.


Definition constantZero : VariableRef :=
  {| var_name := VStr "zero"; var_type := "Constant";
     parameters := None; defaultValue := VNum 0 |}.

Definition constantText : VariableRef :=
  {| var_name := VStr "text"; var_type := "Constant";
     parameters := None; defaultValue := VStr "abc" |}.

(** A constant whose default value is the number 0 resolves to [null],
    not to its default value. *)
Lemma getVariableValue_falsy_default :
  var_type constantZero = "Constant" /\
  defaultValue constantZero = VNum 0 /\
  getVariableValue emptyWindow (Some constantZero) clickInfo = VNull.
Proof. repeat split. Qed.

Lemma getVariableValue_default_or_null_witness :
  var_type constantText <> "DataLayer" /\
  var_type constantText <> "PageUrl" /\
  getVariableValue emptyWindow (Some constantText) clickInfo = VStr "abc".
Proof.
  assert (Hd : var_type constantText <> "DataLayer") by discriminate.
  assert (Hp : var_type constantText <> "PageUrl") by discriminate.
  split; [exact Hd|]. split; [exact Hp|].
  exact (getVariableValue_default_or_null emptyWindow constantText clickInfo Hd Hp).
Defined.

(** ** Dispatch gate and global cache *)

Section DispatchGateFacts.
Context {host : Host}.
Variable clock : nat -> Z.
Hypothesis clock_monotone : forall i j, (i <= j)%nat -> (clock i <= clock j)%Z.

(** The event object the gate checks and emits: the serialised copy
    with the snapshot of [window._mtm]. *)
Definition atGate (s : State) (eventData : EventData) : EventData :=
  match _mtm (win s) with
  | Some arr =>
      set_currentMtmArray (map (fun v => default VNull (JSON_clone v)) arr)
        (serializeEventData eventData)
  | None => serializeEventData eventData
  end.

(** The normalized signature of an entry at the gate: the name, the
    source without the historical suffix and the cleaned details of its
    serialised copy. *)
Definition gateSignature (eventData : EventData) : string :=
  eventSignature (serializeEventData eventData).

Lemma eventSignature_atGate s eventData :
  eventSignature (atGate s eventData) = gateSignature eventData.
Proof. unfold atGate, gateSignature. destruct (_mtm (win s)); reflexivity. Qed.

(** The three components the signature is made of. *)
Lemma eventSignature_components e1 e2 :
  js_or (eventName e1) (VStr "unknown") = js_or (eventName e2) (VStr "unknown") ->
  option_map (replace " (historical)" "") (source e1)
  = option_map (replace " (historical)" "") (source e2) ->
  (if truthy (details e1) then cleanEventDetails (details e1) else VNull)
  = (if truthy (details e2) then cleanEventDetails (details e2) else VNull) ->
  eventSignature e1 = eventSignature e2.
Proof.
  intros Hn Hs Hd. unfold eventSignature, cleanEventForComparison.
  rewrite Hn, Hd.
  destruct (source e1), (source e2); simpl in Hs; try discriminate;
    [injection Hs as ->|]; reflexivity.
Qed.

Lemma isGlobalDuplicate_cases eventData s :
  match globalProcessedEvents s !! eventSignature eventData with
  | Some lastSeen =>
      isGlobalDuplicate clock eventData s
      = (Normal (clock (ticks s) - lastSeen <? CACHE_TIMEOUTS.GLOBAL_EVENTS)%Z,
         set_ticks (S (ticks s)) s)
  | None => isGlobalDuplicate clock eventData s = (Normal false, s)
  end.
Proof.
  unfold isGlobalDuplicate, mbind, M_bind, gets. simpl.
  destruct (globalProcessedEvents s !! eventSignature eventData) as [t|];
    [|reflexivity].
  unfold Date_now. destruct (_ <? _)%Z; reflexivity.
Qed.

(** Marking: the signature is recorded with the reading of the clock,
    then entries older than the window at the next reading are swept. *)
Lemma markEventAsProcessed_run eventData s :
  markEventAsProcessed clock eventData s
  = (Normal tt,
     set_globalProcessedEvents
       (filter (fun kv => ~ (clock (S (ticks s)) - kv.2 > CACHE_TIMEOUTS.GLOBAL_EVENTS)%Z)
          (<[eventSignature eventData := clock (ticks s)]> (globalProcessedEvents s)))
       (set_ticks (S (S (ticks s))) s)).
Proof. reflexivity. Qed.

Lemma dispatch_run eventData timestamp s :
  dispatchMatomoEventWithTimestamp clock eventData timestamp s
  = match isGlobalDuplicate clock (atGate s eventData) s with
    | (Normal true, s0) => (Normal tt, s0)
    | (Normal false, s0) =>
        let s1 := (markEventAsProcessed clock (atGate s eventData) s0).2 in
        (Normal tt,
         set_dispatched
           (dispatched s1 ++ [set_customTimestamp timestamp (atGate s eventData)]) s1)
    | (Throw e, s0) => (Throw e, s0)
    end.
Proof.
  unfold dispatchMatomoEventWithTimestamp, atGate, mbind, M_bind, gets. simpl.
  destruct (_mtm (win s)); simpl;
    destruct (isGlobalDuplicate clock _ s) as [[[|]|e] s0]; reflexivity.
Qed.


End DispatchGateFacts.

(** *** The gate on a concrete run *)

(** A clock that advances by ten milliseconds at every reading. *)
Definition tickClock (n : nat) : Z := 1700000000000 + 10 * Z.of_nat n.

Lemma tickClock_monotone i j : (i <= j)%nat -> (tickClock i <= tickClock j)%Z.
Proof. unfold tickClock. lia. Qed.

Definition defaultConfig : Config :=
  {| watchDataLayer := false; watchMTM := true; autoShow := true |}.

Definition startState (arr : list value) : State :=
  {| ticks := 0;
     win := {| _mtm := Some arr; dataLayer := None;
               location_href := "https://example.org/"; MatomoTagManager := None |};
     CONFIG := defaultConfig;
     initialScanCompleted := false;
     globalProcessedEvents := ∅;
     lastKnownLength := List.length arr;
     timers := [];
     dispatched := [] |}.

Definition clickEntry : value :=
  VObj false [("event", VStr "click"); ("__mtm_processed", VBool true)].

(** The same push seen by the two interception paths: once with its
    index, once without. *)
Definition clickSeenByPush : EventData := createMTMEventData "_mtm" clickEntry (Some 0%nat).
Definition clickSeenByWrapper : EventData := createMTMEventData "_mtm" clickEntry None.


(** ** Presentation cache and event log of the consumer *)

Lemma insertByTimestamp_Permutation x l : insertByTimestamp x l ≡ₚ x :: l.
Proof.
  induction l as [|y l IH]; simpl; [reflexivity|].
  destruct (timestamp x <? timestamp y)%Z; [reflexivity|].
  rewrite IH. apply perm_swap.
Qed.

Lemma sortByTimestamp_Permutation l : sortByTimestamp l ≡ₚ l.
Proof.
  unfold sortByTimestamp.
  assert (H : forall acc, fold_left (fun sorted x => insertByTimestamp x sorted) l acc
                          ≡ₚ (l ++ acc)%list).
  { induction l as [|x l IH]; intros acc; simpl; [reflexivity|].
    rewrite IH, insertByTimestamp_Permutation.
    symmetry. apply Permutation_middle. }
  rewrite H. now rewrite app_nil_r.
Qed.

Lemma sortByTimestamp_length l : List.length (sortByTimestamp l) = List.length l.
Proof. apply Permutation_length, sortByTimestamp_Permutation. Qed.

Section ConsumerFacts.
Context {host : Host}.
Variable clock : nat -> Z.
Variable random : nat -> Qc.

(** The test of [isExactDuplicate]: the signature was recorded less
    than [DUPLICATE_TIMEOUT] ago with the other index-presence. *)
Definition suppresses (now : Z) (cache : gmap string RecentEvent)
    (newEvent : EventData) : bool :=
  match cache !! eventJson newEvent with
  | Some lastSeen =>
      (now - recent_timestamp lastSeen <? PERFORMANCE.DUPLICATE_TIMEOUT)%Z
      && negb (Bool.eqb (hadArrayIndex lastSeen) (hasArrayIndex newEvent))
  | None => false
  end.

Definition recorded (newEvent : EventData) (c : Consumer) : gmap string RecentEvent :=
  cleanupEventCaches (clock (S (c_ticks c)))
    (<[eventJson newEvent :=
         {| recent_timestamp := clock (c_ticks c);
            hadArrayIndex := hasArrayIndex newEvent |}]> (recentEvents c)).

Lemma isExactDuplicate_run newEvent c :
  isExactDuplicate clock newEvent c
  = if suppresses (clock (c_ticks c)) (recentEvents c) newEvent
    then (true, set_clock_reads (S (c_ticks c)) (rolls c) c)
    else (false,
          set_recentEvents (recorded newEvent c)
            (set_clock_reads (S (S (c_ticks c))) (rolls c) c)).
Proof.
  unfold isExactDuplicate, suppresses, recorded. cbn [recentEvents set_clock_reads c_ticks rolls].
  destruct (recentEvents c !! eventJson newEvent) as [lastSeen|]; [|reflexivity].
  destruct (_ && _); reflexivity.
Qed.

(** A run of duplicate checks, one delivery after the other. *)
Fixpoint checkAll (events : list EventData) (c : Consumer) : list bool * Consumer :=
  match events with
  | [] => ([], c)
  | e :: es =>
      let '(b, c1) := isExactDuplicate clock e c in
      let '(bs, c2) := checkAll es c1 in
      (b :: bs, c2)
  end.

(** C10. A delivery that the presentation cache classifies as a
    duplicate leaves the cache as it is: the timestamp and the
    index-presence flag stored for its signature are unchanged, so the
    window is measured from the last recorded delivery; only a
    delivery that is not suppressed overwrites the entry (with the
    time of the check and its own index-presence, before the sweep).
    Any run of suppressed duplicates therefore leaves the cache
    unchanged. *)
Theorem suppressed_duplicate_keeps_cache :
  (forall newEvent c,
     let r := isExactDuplicate clock newEvent c in
     if r.1 then recentEvents r.2 = recentEvents c
     else recentEvents r.2 = recorded newEvent c)
  /\ (forall events c,
        Forall (fun b => b = true) (checkAll events c).1 ->
        recentEvents (checkAll events c).2 = recentEvents c).
Proof.
  split.
  - intros newEvent c. cbv zeta. rewrite isExactDuplicate_run.
    destruct (suppresses _ _ _); reflexivity.
  - induction events as [|e es IH]; intros c Hall; [reflexivity|].
    simpl in *.
    pose proof (isExactDuplicate_run e c) as Hrun.
    destruct (isExactDuplicate clock e c) as [b c1].
    specialize (IH c1).
    destruct (checkAll es c1) as [bs c2]. simpl in *.
    inversion Hall as [|? ? Hb Hbs]; subst.
    rewrite IH by assumption.
    destruct (suppresses _ _ _); inversion Hrun; subst; reflexivity.
Qed.

(** *** The listener *)

Definition limitOf (config : StoredConfig) : Z :=
  if (cfg_maxEvents config =? 0)%Z then PERFORMANCE.MAX_EVENTS else cfg_maxEvents config.

Definition thresholdOf (config : StoredConfig) : Z :=
  if (cfg_virtualizeThreshold config =? 0)%Z then PERFORMANCE.VIRTUALIZE_THRESHOLD
  else cfg_virtualizeThreshold config.

(** Monitoring is on: the listener does not return at its first test. *)
Definition enabled (config : StoredConfig) : bool :=
  cfg_watchMTM config || cfg_watchDataLayer config.

(** The event object the listener checks and stores. *)
Definition received (detail : EventData) : EventData :=
  set_eventName (fallbackEventName (clear_customTimestamp detail))
    (clear_customTimestamp detail).

(** The index of the clock reading taken by the duplicate check: a
    detail without timestamp costs two readings before. *)
Definition checkTick (detail : EventData) (c : Consumer) : nat :=
  match truthyTimestamp detail with
  | Some _ => c_ticks c
  | None => S (S (c_ticks c))
  end.

(** The state in which the listener calls [isExactDuplicate]. *)
Definition prepared (detail : EventData) (config : StoredConfig) (c : Consumer)
  : Consumer :=
  let c := set_settings (limitOf config) (thresholdOf config)
             (cfg_consoleLogging config) c in
  let c := set_clock_reads (checkTick detail c) (S (rolls c)) c in
  match containerInfo detail with
  | Some (info :: rest) => set_globalContainerInfo (info :: rest) c
  | _ => c
  end.

(** The element the listener appends to the log. *)
Definition entryOf (detail : EventData) (c : Consumer) : LoggedEvent :=
  {| logged := received detail;
     timestamp := match truthyTimestamp detail with
                  | Some t => t
                  | None => clock (c_ticks c)
                  end;
     event_id := (Q2Qc (inject_Z match truthyTimestamp detail with
                                 | Some t => t
                                 | None => clock (S (c_ticks c))
                                 end) + random (rolls c))%Qc |}.

(** The log after an insertion: the new element goes last, the excess
    is cut from the front, the rest is sorted. *)
Definition trimmed (limit : Z) (log : list LoggedEvent) : list LoggedEvent :=
  skipn (Z.to_nat (Z.of_nat (List.length log) - limit)) log.

Lemma cleanupEventLog_fst limit log expanded :
  (cleanupEventLog limit log expanded).1 = trimmed limit log.
Proof.
  unfold cleanupEventLog, trimmed.
  destruct (Z.gtb_spec (Z.of_nat (List.length log)) limit) as [H|H]; [reflexivity|].
  simpl. replace (Z.to_nat _) with 0%nat by lia. reflexivity.
Qed.

Lemma cleanupEventLog_snd limit log expanded :
  (cleanupEventLog limit log expanded).2
  = fold_left (fun acc event => delete (event_id event) acc)
      (firstn (Z.to_nat (Z.of_nat (List.length log) - limit)) log) expanded.
Proof.
  unfold cleanupEventLog.
  destruct (Z.gtb_spec (Z.of_nat (List.length log)) limit) as [H|H]; [reflexivity|].
  simpl. replace (Z.to_nat _) with 0%nat by lia. reflexivity.
Qed.

Lemma onMatomoEventDetected_disabled detail config c :
  enabled config = false ->
  onMatomoEventDetected clock random detail config c
  = set_settings (limitOf config) (thresholdOf config) (cfg_consoleLogging config) c.
Proof.
  unfold enabled, onMatomoEventDetected. intros H.
  apply orb_false_elim in H as [-> ->]. reflexivity.
Qed.

Lemma onMatomoEventDetected_enabled detail config c :
  enabled config = true ->
  onMatomoEventDetected clock random detail config c
  = let r := isExactDuplicate clock (received detail) (prepared detail config c) in
    if r.1 then set_suppressedDuplicates (S (suppressedDuplicates r.2)) r.2
    else
      let log := (eventLog r.2 ++ [entryOf detail c])%list in
      let cleaned := cleanupEventLog (maxEvents r.2) log (expandedStates r.2) in
      let log := sortByTimestamp cleaned.1 in
      set_log log (cleanupExpandedStates log cleaned.2)
        (Z.of_nat (List.length log) >? virtualizeThreshold r.2)%Z r.2.
Proof.
  unfold enabled, onMatomoEventDetected. intros H.
  replace (negb (cfg_watchMTM config) && negb (cfg_watchDataLayer config)) with false
    by (destruct (cfg_watchMTM config), (cfg_watchDataLayer config); simpl in *; congruence).
  unfold prepared, entryOf, checkTick, received, limitOf, thresholdOf.
  cbn [containerInfo clear_customTimestamp].
  destruct (truthyTimestamp detail) as [t|];
    destruct (containerInfo detail) as [[|info rest]|];
    cbv zeta;
    set (r := isExactDuplicate clock _ _);
    change (isExactDuplicate clock _ _) with r;
    clearbody r; destruct r as [[|] c2];
    cbn [fst snd]; try reflexivity;
    destruct (cleanupEventLog _ _ _); reflexivity.
Qed.

Lemma prepared_fields detail config c :
  recentEvents (prepared detail config c) = recentEvents c /\
  c_ticks (prepared detail config c) = checkTick detail c /\
  eventLog (prepared detail config c) = eventLog c /\
  expandedStates (prepared detail config c) = expandedStates c /\
  suppressedDuplicates (prepared detail config c) = suppressedDuplicates c /\
  maxEvents (prepared detail config c) = limitOf config.
Proof.
  unfold prepared, checkTick.
  destruct (containerInfo detail) as [[|info rest]|], (truthyTimestamp detail);
    repeat split.
Qed.

Lemma hasArrayIndex_received detail : hasArrayIndex (received detail) = hasArrayIndex detail.
Proof. reflexivity. Qed.

(** What a delivery does to the log, the counters and the cache, by
    the outcome of the duplicate check. *)
Lemma onMatomoEventDetected_outcome detail config c :
  enabled config = true ->
  let c' := onMatomoEventDetected clock random detail config c in
  maxEvents c' = limitOf config /\
  if suppresses (clock (checkTick detail c)) (recentEvents c) (received detail)
  then eventLog c' = eventLog c /\
       expandedStates c' = expandedStates c /\
       suppressedDuplicates c' = S (suppressedDuplicates c) /\
       recentEvents c' = recentEvents c /\
       c_ticks c' = S (checkTick detail c)
  else eventLog c'
       = sortByTimestamp (trimmed (limitOf config) (eventLog c ++ [entryOf detail c])) /\
       expandedStates c'
       = cleanupExpandedStates (eventLog c')
           (fold_left (fun acc event => delete (event_id event) acc)
              (firstn (Z.to_nat (Z.of_nat (List.length (eventLog c ++ [entryOf detail c]))
                                 - limitOf config))
                 (eventLog c ++ [entryOf detail c]))
              (expandedStates c)) /\
       suppressedDuplicates c' = suppressedDuplicates c /\
       recentEvents c' = recorded (received detail) (prepared detail config c) /\
       c_ticks c' = S (S (checkTick detail c)).
Proof.
  intros Hen c'. subst c'. rewrite (onMatomoEventDetected_enabled _ _ _ Hen).
  cbv zeta. rewrite isExactDuplicate_run.
  destruct (prepared_fields detail config c) as (Hr & Ht & Hl & Hx & Hs & Hm).
  rewrite Hr, Ht.
  destruct (suppresses _ _ _); cbn [fst snd].
  - cbn [maxEvents eventLog expandedStates suppressedDuplicates recentEvents c_ticks
         set_suppressedDuplicates set_clock_reads].
    rewrite ?Hm, ?Hl, ?Hx, ?Hs, ?Hr, ?Ht. repeat split.
  - cbn [maxEvents eventLog expandedStates suppressedDuplicates recentEvents c_ticks
         set_log set_recentEvents set_clock_reads].
    rewrite cleanupEventLog_fst, cleanupEventLog_snd.
    rewrite ?Hm, ?Hl, ?Hx, ?Hs, ?Ht. repeat split.
Qed.

Lemma trimmed_length limit log :
  (0 <= limit)%Z -> (Z.of_nat (List.length (trimmed limit log)) <= limit)%Z.
Proof. intros H. unfold trimmed. rewrite length_skipn. lia. Qed.

Lemma trimmed_keeps_last limit log x :
  (0 < limit)%Z -> In x (trimmed limit (log ++ [x])).
Proof.
  intros H. unfold trimmed. rewrite length_app. simpl.
  rewrite skipn_app. apply in_or_app. right.
  replace (_ - List.length log)%nat with 0%nat by lia. simpl. now left.
Qed.

Lemma recorded_lookup newEvent c :
  recorded newEvent c !! eventJson newEvent = None \/
  recorded newEvent c !! eventJson newEvent
  = Some {| recent_timestamp := clock (c_ticks c);
            hadArrayIndex := hasArrayIndex newEvent |}.
Proof.
  unfold recorded, cleanupEventCaches.
  destruct (filter _ _ !! _) as [x|] eqn:Hx; [right|now left].
  apply map_lookup_filter_Some in Hx as [Hx _].
  rewrite lookup_insert_eq in Hx. congruence.
Qed.

Lemma recorded_lookup_fresh newEvent c :
  (clock (S (c_ticks c)) - clock (c_ticks c) <= PERFORMANCE.DUPLICATE_TIMEOUT)%Z ->
  recorded newEvent c !! eventJson newEvent
  = Some {| recent_timestamp := clock (c_ticks c);
            hadArrayIndex := hasArrayIndex newEvent |}.
Proof.
  intros H. unfold recorded, cleanupEventCaches.
  apply map_lookup_filter_Some. split; [apply lookup_insert_eq|].
  cbn [snd recent_timestamp]. lia.
Qed.


Lemma fold_delete_None (removed : list LoggedEvent) (m : gmap Qc bool) k :
  m !! k = None ->
  fold_left (fun acc event => delete (event_id event) acc) removed m !! k = None.
Proof.
  revert m. induction removed as [|x removed IH]; intros m Hm; simpl; [exact Hm|].
  apply IH. apply lookup_delete_None. now right.
Qed.

Lemma fold_delete_removed (removed : list LoggedEvent) (m : gmap Qc bool) r :
  In r removed ->
  fold_left (fun acc event => delete (event_id event) acc) removed m !! event_id r = None.
Proof.
  revert m. induction removed as [|x removed IH]; intros m Hin; simpl; [destruct Hin|].
  destruct Hin as [-> | Hin]; [|now apply IH].
  apply fold_delete_None, lookup_delete_eq.
Qed.


End ConsumerFacts.

(** *** The consumer on a concrete run *)

Definition freshConsumer : Consumer :=
  {| c_ticks := 0; rolls := 0; eventLog := []; expandedStates := ∅;
     recentEvents := ∅; suppressedDuplicates := 0;
     maxEvents := PERFORMANCE.MAX_EVENTS;
     virtualizeThreshold := PERFORMANCE.VIRTUALIZE_THRESHOLD;
     isVirtualized := false; globalContainerInfo := None;
     consoleLoggingEnabled := false |}.

Definition halfRandom (n : nat) : Qc := Q2Qc (1 # 2).

(** The detail of a dispatched event, as the gate builds it. *)
Definition detailOf (eventData : EventData) (timestamp : Z) : EventData :=
  set_customTimestamp timestamp (serializeEventData eventData).

Definition clickWithIndex : EventData := detailOf clickSeenByPush 1700000000000.
Definition clickWithoutIndex : EventData := detailOf clickSeenByWrapper 1700000000060.

Definition pushOf (name : string) (index : nat) : EventData :=
  detailOf (createMTMEventData "_mtm" (VObj false [("event", VStr name)]) (Some index))
    1700000000000.



(** The limit is lowered to 2 while the log holds three events, and
    the next delivery is a suppressed duplicate: the listener sets
    [maxEvents] to 2 and returns with the three events still stored. *)
Definition lowLimit : StoredConfig :=
  {| cfg_watchMTM := true; cfg_watchDataLayer := false; cfg_autoShow := true;
     cfg_hideMTMFrame := false; cfg_consoleLogging := true;
     cfg_maxEvents := 2; cfg_virtualizeThreshold := 100 |}.

Definition threeStored : Consumer :=
  onMatomoEventDetected tickClock halfRandom clickWithIndex DEFAULT_CONFIG
    (onMatomoEventDetected tickClock halfRandom (pushOf "b" 1) DEFAULT_CONFIG
       (onMatomoEventDetected tickClock halfRandom (pushOf "a" 0) DEFAULT_CONFIG
          freshConsumer)).


(** ** The intercepted push *)

(** An entry the wrapper can take: it is already processed, or the
    monitor can set its mark (it is no frozen object). *)
Definition markable (data : value) : bool :=
  isProcessed data ||
  match markProcessed data with Normal _ => true | Throw _ => false end.

(** The entry as the wrapper leaves it: marked, unless it was processed
    before or cannot carry a mark. *)
Definition afterAnalysis (data : value) : value :=
  if isProcessed data then data
  else match markProcessed data with Normal marked => marked | Throw _ => data end.

(** The timer callbacks the wrapper schedules for its arguments. *)
Fixpoint scheduledTasks (known : nat) (args : list value) (argIndex : nat)
  : list (Z * EventData) :=
  match args with
  | [] => []
  | data :: rest =>
      (if isProcessed data then []
       else [(50%Z, createMTMEventData "_mtm" (afterAnalysis data)
                      (Some (known + argIndex)%nat))])
      ++ scheduledTasks known rest (S argIndex)
  end.

Section InterceptionFacts.
Context {host : Host}.

Lemma set_timers_same s : set_timers (timers s ++ []) s = s.
Proof. destruct s. unfold set_timers. simpl. now rewrite app_nil_r. Qed.

Lemma analyzeArguments_run args argIndex s :
  forallb markable args = true ->
  analyzeArguments args argIndex s
  = (Normal (map afterAnalysis args),
     set_timers (timers s ++ scheduledTasks (lastKnownLength s) args argIndex) s).
Proof.
  revert argIndex s.
  induction args as [|data rest IH]; intros argIndex s Hall.
  - simpl. now rewrite set_timers_same.
  - simpl in Hall. apply andb_prop in Hall as [Hdata Hrest].
    cbn [analyzeArguments scheduledTasks map].
    unfold afterAnalysis at 1. unfold markable in Hdata.
    destruct (isProcessed data) eqn:Hproc.
    + unfold mbind, M_bind, mret, M_ret at 1.
      rewrite (IH _ _ Hrest). reflexivity.
    + simpl in Hdata. unfold analyzeMTMDirectPush. rewrite Hproc.
      unfold afterAnalysis. rewrite Hproc.
      destruct (markProcessed data) as [marked|e]; [|discriminate].
      unfold mbind, M_bind, mret, M_ret, gets, setTimeout, modify.
      rewrite (IH _ _ Hrest).
      cbn [lastKnownLength timers set_timers].
      unfold set_timers. cbn. now rewrite <- app_assoc.
Qed.


End InterceptionFacts.

(** *** The wrapper on concrete pushes *)

Definition frozenEntry : value := VObj true [("event", VStr "click")].
Definition plainEntry : value := VObj false [("event", VStr "click")].



(** ** The initial scan of the backlog *)

(** An entry the scan can take: collecting its fired tags and setting
    its mark do not raise (neither the entry nor the tag array the tag
    names are appended to is frozen). *)
Definition scannable (entry : value) : bool :=
  match extractFiredTags entry with
  | Normal (_, data) =>
      match markProcessed data with Normal _ => true | Throw _ => false end
  | Throw _ => false
  end.

Section ScanFacts.
Context {host : Host}.
Variable clock : nat -> Z.
Hypothesis clock_monotone : forall i j, (i <= j)%nat -> (clock i <= clock j)%Z.

(** The signature under which the gate records the event the scan
    builds for an entry. *)
Definition scanSignature (historical : bool) (index : nat) (entry : value) : string :=
  match extractFiredTags entry with
  | Normal (tags, data) =>
      gateSignature (timestampedEventData "_mtm" data tags historical (Some index))
  | Throw _ => ""
  end.

Lemma mapM_returns {A B} (f : A -> completion B) l :
  (forall x, exists y, f x = Normal y) -> exists ys, mapM f l = Normal ys.
Proof.
  intros Hf. induction l as [|x l [ys IH]]; simpl; [eauto|].
  destruct (Hf x) as [y ->]. simpl. rewrite IH. simpl. eauto.
Qed.

Lemma getMatchedConditions_returns window trigger eventInfo :
  exists rows, getMatchedConditions window trigger eventInfo = Normal rows.
Proof.
  unfold getMatchedConditions. destruct (conditions trigger); [|eauto].
  apply mapM_returns. intros condition.
  destruct (evaluateCondition_returns window condition eventInfo) as [b ->].
  simpl. eauto.
Qed.

Lemma analyzeTriggers_returns window eventInfo currentTime analysisResult ts :
  exists r, analyzeTriggers window eventInfo currentTime analysisResult ts = Normal r.
Proof.
  revert analysisResult. induction ts as [|trigger ts IH]; intros a; simpl; [eauto|].
  unfold analyzeTrigger. rewrite doesTriggerMatch_forallb. simpl.
  destruct (match conditions trigger with Some (c :: conds) => _ | _ => false end).
  - destruct (getMatchedConditions_returns window trigger eventInfo) as [rows ->].
    simpl. apply IH.
  - simpl. apply IH.
Qed.

Lemma set_ticks_same s : set_ticks (ticks s) s = s.
Proof. now destruct s. Qed.

(** The enrichment adds properties to the event object and may read the
    clock; it does not raise and changes nothing else. *)
Lemma addTriggerAnalysis_run eventData s :
  exists a flags n,
    (ticks s <= n)%nat /\
    addTriggerAnalysis clock eventData s
    = (Normal (set_triggerAnalysis a flags eventData), set_ticks n s).
Proof.
  unfold addTriggerAnalysis, mbind, M_bind, gets, mret, M_ret.
  destruct (MatomoTagManager (win s)) as [[|container rest]|].
  - do 2 eexists. exists (ticks s). split; [lia|]. now rewrite set_ticks_same.
  - destruct (negb _).
    + do 2 eexists. exists (ticks s). split; [lia|]. now rewrite set_ticks_same.
    + unfold Date_now, lift.
      destruct (analyzeTriggers_returns (win s) (extractEventInformation eventData)
                  (toLocaleTimeString (clock (ticks s)))
                  {| triggeredTriggers := []; analysis_firedTags := [];
                     debugMode :=
                       bool_decide (is_Some (triggers container))
                       && bool_decide (is_Some (tags container));
                     totalTriggers := List.length (default [] (triggers container));
                     totalTags := List.length (default [] (tags container)) |}
                  (default [] (triggers container))) as [r Hr].
      cbn [debugMode] in *. rewrite Hr.
      do 2 eexists. exists (S (ticks s)). split; [lia|]. reflexivity.
  - do 2 eexists. exists (ticks s). split; [lia|]. now rewrite set_ticks_same.
Qed.

Lemma addContainerInfo_run eventData s :
  exists eventData',
    addContainerInfo eventData s = (Normal eventData', s) /\
    (eventData' = eventData \/
     exists info, eventData' = set_containerInfo info eventData).
Proof.
  unfold addContainerInfo, mbind, M_bind, gets, mret, M_ret.
  destruct (getMTMContainerInfo (win s)) as [|info rest]; eauto.
Qed.

(** Running a sequence: the laws of [M] used below. *)
Lemma run_bind {A B} (m : M A) (k : A -> M B) s a s' :
  m s = (Normal a, s') -> (m ≫= k) s = k a s'.
Proof. intros H. unfold mbind, M_bind. now rewrite H. Qed.

Lemma run_gets {A B} (f : State -> A) (k : A -> M B) s :
  (gets f ≫= k) s = k (f s) s.
Proof. reflexivity. Qed.

Lemma run_modify {B} (f : State -> State) (k : unit -> M B) s :
  (modify f ≫= k) s = k tt (f s).
Proof. reflexivity. Qed.

Lemma run_lift {A B} (a : A) (k : A -> M B) s :
  (lift (Normal a) ≫= k) s = k a s.
Proof. reflexivity. Qed.

Lemma run_assoc {A B C} (m : M A) (f : A -> M B) (g : B -> M C) s :
  ((m ≫= f) ≫= g) s = (m ≫= fun a => f a ≫= g) s.
Proof. unfold mbind, M_bind. destruct (m s) as [[a|e] s']; reflexivity. Qed.

Lemma run_ret {A B} (a : A) (k : A -> M B) s : (mret a ≫= k) s = k a s.
Proof. reflexivity. Qed.

Lemma run_Date_now {B} (k : Z -> M B) s :
  (Date_now clock ≫= k) s = k (clock (ticks s)) (set_ticks (S (ticks s)) s).
Proof. reflexivity. Qed.

Lemma scanEntry_run wasInitialScan index s arr tags data marked :
  _mtm (win s) = Some arr ->
  isProcessed (nth index arr VUndefined) = false ->
  extractFiredTags (nth index arr VUndefined) = Normal (tags, data) ->
  markProcessed data = Normal marked ->
  globalProcessedEvents s
    !! gateSignature (timestampedEventData "_mtm" data tags wasInitialScan (Some index))
  = None ->
  exists s' d,
    scanEntry clock wasInitialScan index s = (Normal tt, s') /\
    dispatched s' = (dispatched s ++ [d])%list /\
    isHistorical d = Some wasInitialScan /\
    arrayIndex d = Some index /\
    customTimestamp d
    = Some (clock (ticks s)
            - (Z.of_nat (List.length arr) - Z.of_nat index) * INTERVALS.HISTORICAL_OFFSET)%Z /\
    _mtm (win s') = Some (replace_nth index marked arr) /\
    (ticks s < ticks s')%nat /\
    CONFIG s' = CONFIG s /\
    initialScanCompleted s' = initialScanCompleted s /\
    (forall k, is_Some (globalProcessedEvents s' !! k) ->
       k = gateSignature (timestampedEventData "_mtm" data tags wasInitialScan (Some index))
       \/ is_Some (globalProcessedEvents s !! k)).
Proof.
  intros Hmtm Hproc Htags Hmark Hfresh.
  unfold scanEntry. rewrite run_gets, Hmtm.
  change (default [] (Some arr)) with arr. rewrite Hproc, run_Date_now.
  unfold analyzeMTMDirectPushWithTimestamp.
  rewrite Htags, !run_assoc, run_lift. cbn beta iota.
  rewrite run_assoc, run_modify.
  destruct (addTriggerAnalysis_run
              (timestampedEventData "_mtm" data tags wasInitialScan (Some index))
              (set_mtm (Some (replace_nth index data arr))
                 (set_ticks (S (ticks s)) s)))
    as (a & flags & n & Hn & Hrun).
  rewrite run_assoc, (run_bind _ _ _ _ _ Hrun).
  set (event := timestampedEventData "_mtm" data tags wasInitialScan (Some index)) in *.
  set (st := set_ticks n _) in *.
  destruct (addContainerInfo_run (set_triggerAnalysis a flags event) st)
    as (enriched & Hrun2 & Hform).
  rewrite run_assoc, (run_bind _ _ _ _ _ Hrun2).
  assert (Hsig : gateSignature enriched = gateSignature event)
    by (destruct Hform as [-> | [info ->]]; reflexivity).
  assert (Hhist : isHistorical enriched = Some wasInitialScan
                  /\ arrayIndex enriched = Some index)
    by (destruct Hform as [-> | [info ->]]; split; reflexivity).
  set (timestamp := (clock (ticks s) - _)%Z).
  assert (Hdispatch :
            dispatchMatomoEventWithTimestamp clock enriched timestamp st
            = (Normal tt,
               set_dispatched
                 (dispatched st ++ [set_customTimestamp timestamp (atGate st enriched)])
                 (set_globalProcessedEvents
                    (filter (fun kv => ~ (clock (S (ticks st)) - kv.2
                                          > CACHE_TIMEOUTS.GLOBAL_EVENTS)%Z)
                       (<[gateSignature event := clock (ticks st)]>
                          (globalProcessedEvents st)))
                    (set_ticks (S (S (ticks st))) st)))).
  { rewrite dispatch_run.
    pose proof (isGlobalDuplicate_cases clock (atGate st enriched) st) as Hc.
    rewrite eventSignature_atGate, Hsig in Hc.
    change (globalProcessedEvents st) with (globalProcessedEvents s) in Hc.
    rewrite Hfresh in Hc. rewrite Hc, markEventAsProcessed_run.
    rewrite eventSignature_atGate, Hsig. reflexivity. }
  rewrite !run_assoc, (run_bind _ _ _ _ _ Hdispatch), run_ret, Hmark, run_lift.
  unfold modify.
  eexists. eexists. split; [reflexivity|].
  cbn [dispatched set_dispatched set_mtm set_globalProcessedEvents set_ticks win _mtm
       ticks CONFIG initialScanCompleted globalProcessedEvents].
  split; [reflexivity|].
  split; [unfold atGate; destruct (_mtm (win st)); apply Hhist|].
  split; [unfold atGate; destruct (_mtm (win st)); apply Hhist|].
  split; [reflexivity|]. split; [reflexivity|].
  split; [subst st; cbn [ticks set_ticks set_mtm] in *; lia|].
  split; [reflexivity|]. split; [reflexivity|].
  intros k [x Hx]. apply map_lookup_filter_Some in Hx as [Hx _].
  destruct (decide (gateSignature event = k)) as [<-|Hne]; [now left|].
  right. rewrite lookup_insert_ne in Hx by assumption. eauto.
Qed.

Lemma scannable_spec entry :
  scannable entry = true ->
  exists tags data marked,
    extractFiredTags entry = Normal (tags, data) /\
    markProcessed data = Normal marked.
Proof.
  unfold scannable.
  destruct (extractFiredTags entry) as [[tags data]|]; [|discriminate].
  destruct (markProcessed data) as [marked|] eqn:Hmark; [|discriminate].
  intros _. exists tags, data, marked. split; [reflexivity|exact Hmark].
Qed.


End ScanFacts.

(** *** The scan on concrete backlogs *)

Definition viewEntry : value := VObj false [("event", VStr "view")].
Definition arrayEntry : value := VArr false [VStr "trackPageView"; VStr "home"] [].

(** Three different entries: three historical events, indices 0, 1, 2,
    timestamps 15, 10 and 5 seconds before the readings of the clock. *)
Example initial_scan_run :
  let r := monitorExistingArrays tickClock (startState [plainEntry; viewEntry; arrayEntry]) in
  r.1 = Normal tt /\
  map arrayIndex (dispatched r.2) = [Some 0; Some 1; Some 2]%nat /\
  map isHistorical (dispatched r.2) = [Some true; Some true; Some true] /\
  map customTimestamp (dispatched r.2)
  = [Some 1699999985000; Some 1699999990030; Some 1699999995060]%Z /\
  map isProcessed (default [] (_mtm (win r.2))) = [true; true; true].
Proof. vm_compute. repeat split. Qed.

(** The data layer is watched as well: the entries whose event name
    marks them as tag-manager events are reported, three seconds
    apart, and marked. *)
Definition watchedDataLayer : State :=
  {| ticks := 0;
     win := {| _mtm := None;
               dataLayer :=
                 Some [VObj false [("event", VStr "mtm.CustomEvent");
                                   ("mtm.customEventName", VStr "click")];
                       VObj false [("event", VStr "gtm.js")];
                       VStr "text";
                       VObj false [("event", VStr "mtm.PageView")]];
               location_href := "https://example.org/"; MatomoTagManager := None |};
     CONFIG := {| watchDataLayer := true; watchMTM := true; autoShow := true |};
     initialScanCompleted := false;
     globalProcessedEvents := ∅;
     lastKnownLength := 0;
     timers := [];
     dispatched := [] |}.

Example initial_scan_dataLayer_run :
  let r := monitorExistingArrays tickClock watchedDataLayer in
  r.1 = Normal tt /\
  map eventName (dispatched r.2) = [VStr "click"; VStr "mtm.PageView"] /\
  map source (dispatched r.2)
  = [Some "dataLayer (historical)"; Some "dataLayer (historical)"] /\
  map customTimestamp (dispatched r.2) = [Some 1699999994000; Some 1699999997030]%Z /\
  map isProcessed (default [] (dataLayer (win r.2))) = [true; false; false; true].
Proof. vm_compute. repeat split. Qed.



(** * Further properties *)

(** ** Paths, data-layer lookup and the operator table *)

Lemma split_dot_aux_app cur p q :
  split_dot_aux cur (p ++ "." ++ q) = (split_dot_aux cur p ++ split_dot q)%list.
Proof.
  revert cur. induction p as [|c p IH]; intros cur; simpl.
  - reflexivity.
  - destruct (Ascii.eqb c "."); rewrite IH; reflexivity.
Qed.

Lemma split_dot_last p : exists keys key, split_dot p = (keys ++ [key])%list.
Proof.
  unfold split_dot. generalize EmptyString.
  induction p as [|c p IH]; intros cur; simpl.
  - exists [], (String.rev cur). reflexivity.
  - destruct (Ascii.eqb c ".").
    + destruct (IH EmptyString) as (keys & key & ->).
      exists (String.rev cur :: keys), key. reflexivity.
    + apply IH.
Qed.

(** X1. A dotted path is followed step by step: looking up [p.q] is
    looking up [q] in what [p] leads to.  A step that is missing gives
    [null], never [undefined], and from [null] every further step stays
    [null]. *)
Theorem getNestedValue_dotted obj p q :
  getNestedValue obj (p ++ "." ++ q) = getNestedValue (getNestedValue obj p) q
  /\ is_undefined (getNestedValue obj p) = false
  /\ getNestedValue VNull p = VNull.
Proof.
  unfold getNestedValue. split; [|split].
  - unfold split_dot. rewrite split_dot_aux_app. apply fold_left_app.
  - destruct (split_dot_last p) as (keys & key & ->).
    rewrite fold_left_app. simpl.
    destruct (truthy _ && negb (is_undefined _)) eqn:H; [|reflexivity].
    apply andb_prop in H as [_ H]. now apply negb_true_iff in H.
  - induction (split_dot p) as [|key keys IH]; simpl; [reflexivity|exact IH].
Qed.

Section ResolverFacts.
Context {host : Host}.
Variable window : Window.

Lemma searchDataLayer_newest name newer entry older :
  includes "." name = false ->
  truthy entry = true ->
  hasOwnProperty entry name = true ->
  forallb (fun e => negb (truthy e && hasOwnProperty e name)) newer = true ->
  searchDataLayer name (rev newer ++ entry :: older) = get entry name.
Proof.
  intros Hdot Ht Hown Hall.
  rewrite <- (rev_involutive newer) in Hall.
  induction (rev newer) as [|e l IH]; simpl.
  - now rewrite Ht, Hown.
  - simpl in Hall. rewrite forallb_app in Hall. apply andb_prop in Hall as [Hl He].
    simpl in He. rewrite andb_true_r in He. apply negb_true_iff in He.
    rewrite Hdot. simpl.
    destruct (truthy e); simpl in *; [rewrite He|]; now apply IH.
Qed.



Lemma is_nan_Prim2SF x :
  PrimFloat.is_nan x = true -> FloatOps.Prim2SF x = SpecFloat.S754_nan.
Proof.
  unfold PrimFloat.is_nan. rewrite FloatAxioms.eqb_spec. intros H. apply negb_true_iff in H.
  destruct (FloatOps.Prim2SF x) as [s|s| |s m e]; try reflexivity; exfalso.
  - discriminate.
  - destruct s; discriminate.
  - unfold SpecFloat.SFeqb, SpecFloat.SFcompare in H.
    rewrite Z.compare_refl, Pos.compare_cont_refl in H.
    destruct s; discriminate.
Qed.

Lemma compare_nan x y :
  PrimFloat.is_nan x || PrimFloat.is_nan y = true ->
  PrimFloat.ltb x y = false /\ PrimFloat.leb x y = false.
Proof.
  intros H. rewrite FloatAxioms.ltb_spec, FloatAxioms.leb_spec.
  unfold SpecFloat.SFltb, SpecFloat.SFleb.
  apply orb_prop in H as [H|H]; apply is_nan_Prim2SF in H; rewrite H.
  - split; reflexivity.
  - destruct (FloatOps.Prim2SF x); split; reflexivity.
Qed.


(** The case labels of the [switch] in [evaluateCondition]. *)
Definition operators : list string :=
  ["equals"; "notEquals"; "contains"; "notContains"; "startsWith"; "endsWith";
   "matchesRegex"; "greaterThan"; "lessThan"; "greaterThanOrEqualTo";
   "lessThanOrEqualTo"].


Lemma substring_zero n s : substring n 0 s = EmptyString.
Proof. revert n. induction s as [|c s IH]; intros [|n]; simpl; auto. Qed.


End ResolverFacts.

(** ** Trigger analysis *)

Section AnalysisFacts.
Context {host : Host}.
Variable clock : nat -> Z.

Lemma mapM_Normal {A B} (f : A -> completion B) (g : A -> B) l :
  (forall x, f x = Normal (g x)) -> mapM f l = Normal (map g l).
Proof.
  intros H. induction l as [|x l IH]; simpl; [reflexivity|].
  rewrite H. simpl. rewrite IH. reflexivity.
Qed.


(** The verdict of the matcher as a boolean. *)
Definition triggerMatches (window : Window) (eventInfo : EventInfo) (trigger : Trigger)
  : bool :=
  match doesTriggerMatch window trigger eventInfo with
  | Normal b => b
  | Throw _ => false
  end.

Lemma analyzeTriggers_matching window eventInfo currentTime acc ts :
  exists r,
    analyzeTriggers window eventInfo currentTime acc ts = Normal r /\
    map (fun info => (ti_id info, ti_name info, ti_type info)) (triggeredTriggers r)
    = (map (fun info => (ti_id info, ti_name info, ti_type info)) (triggeredTriggers acc)
       ++ map (fun t => (trigger_id t, trigger_name t, trigger_type t))
            (List.filter (triggerMatches window eventInfo) ts))%list /\
    analysis_firedTags r
    = (analysis_firedTags acc
       ++ flat_map (fun t => referencedTagObjects t currentTime)
            (List.filter (triggerMatches window eventInfo) ts))%list /\
    debugMode r = debugMode acc /\
    totalTriggers r = totalTriggers acc /\
    totalTags r = totalTags acc.
Proof.
  revert acc. induction ts as [|t ts IH]; intros acc; simpl.
  - exists acc. rewrite !app_nil_r. repeat split.
  - assert (Hm : doesTriggerMatch window t eventInfo
                 = Normal (triggerMatches window eventInfo t))
      by (unfold triggerMatches; now rewrite doesTriggerMatch_forallb).
    unfold analyzeTrigger. rewrite Hm. simpl.
    destruct (triggerMatches window eventInfo t); simpl.
    + destruct (getMatchedConditions_returns window t eventInfo) as [rows ->]. simpl.
      edestruct IH as (r & -> & Ht & Hf & Hd & Hn & Hg).
      exists r. split; [reflexivity|].
      cbn [triggeredTriggers analysis_firedTags debugMode totalTriggers totalTags] in *.
      rewrite Ht, Hf, map_app, <- !app_assoc. repeat split; assumption.
    + apply IH.
Qed.


End AnalysisFacts.

(** ** From a pushed object to the resolver *)

Lemma lookup_set_prop_eq k v ps : lookup_prop k (set_prop k v ps) = Some v.
Proof.
  induction ps as [|[k' v'] ps IH]; simpl.
  - now rewrite String.eqb_refl.
  - destruct (String.eqb k k') eqn:E; simpl; rewrite ?String.eqb_refl, ?E; auto.
Qed.

Lemma lookup_set_prop_ne k k' v ps :
  String.eqb k k' = false -> lookup_prop k (set_prop k' v ps) = lookup_prop k ps.
Proof.
  intros Hne. induction ps as [|[k'' v''] ps IH]; simpl.
  - now rewrite Hne.
  - destruct (String.eqb k' k'') eqn:E; simpl.
    + apply String.eqb_eq in E as <-. now rewrite Hne.
    + destruct (String.eqb k k''); auto.
Qed.

(** Setting a property to the value it has, or setting another
    property, keeps what a key reads. *)
Lemma lookup_set_prop_same k k' v x ps :
  lookup_prop k ps = Some v ->
  (String.eqb k k' = true -> x = v) ->
  lookup_prop k (set_prop k' x ps) = Some v.
Proof.
  intros Hk Hx. destruct (String.eqb k k') eqn:E.
  - apply String.eqb_eq in E as <-. rewrite lookup_set_prop_eq. f_equal. now apply Hx.
  - now rewrite lookup_set_prop_ne.
Qed.

Lemma copyMissing_keeps src dld k v :
  lookup_prop k dld = Some v ->
  is_undefined v = false ->
  lookup_prop k (copyMissing src dld) = Some v.
Proof.
  unfold copyMissing. revert dld.
  induction (keys src) as [|key ks IH]; intros dld Hk Hv; simpl; [exact Hk|].
  apply IH; [|exact Hv].
  destruct (negb (String.eqb key "__mtm_processed") && _) eqn:Hc; [|exact Hk].
  apply lookup_set_prop_same; [exact Hk|].
  intros E. apply String.eqb_eq in E as <-.
  apply andb_prop in Hc as [_ Hc]. rewrite Hk in Hc. simpl in Hc. congruence.
Qed.

Lemma setTimerTime_keeps timer dld k v :
  lookup_prop k dld = Some v ->
  String.eqb k "timer.time" = false ->
  lookup_prop k (setTimerTime timer dld) = Some v.
Proof.
  intros Hk Hne. unfold setTimerTime.
  destruct (negb _); [|exact Hk]. now rewrite lookup_set_prop_ne.
Qed.

Lemma copied_properties d k ks acc :
  lookup_prop k
    (fold_left
       (fun acc key =>
          if negb (String.eqb key "__mtm_processed") && negb (String.eqb key "_debug")
          then set_prop key (get d key) acc else acc)
       ks acc)
  = if negb (String.eqb k "__mtm_processed") && negb (String.eqb k "_debug")
       && existsb (String.eqb k) ks
    then Some (get d k) else lookup_prop k acc.
Proof.
  revert acc. induction ks as [|key ks IH]; intros acc; simpl.
  - now rewrite andb_false_r.
  - rewrite IH. destruct (String.eqb k key) eqn:E.
    + apply String.eqb_eq in E as <-.
      destruct (negb (String.eqb k "__mtm_processed") && negb (String.eqb k "_debug"));
        simpl; [|reflexivity].
      rewrite lookup_set_prop_eq. now destruct (existsb _ ks).
    + simpl.
      destruct (negb (String.eqb k "__mtm_processed") && negb (String.eqb k "_debug")
                && existsb (String.eqb k) ks); [reflexivity|].
      destruct (negb (String.eqb key "__mtm_processed") && _); [|reflexivity].
      now rewrite lookup_set_prop_ne.
Qed.

Lemma lookup_prop_keys k ps v :
  lookup_prop k ps = Some v -> existsb (String.eqb k) (map fst ps) = true.
Proof.
  induction ps as [|[k' v'] ps IH]; simpl; [discriminate|].
  destruct (String.eqb k k'); [reflexivity|exact IH].
Qed.

Section PushedData.
Context {host : Host}.
Variable window : Window.


End PushedData.

(** ** The dispatch gate: what passes and when the window ends *)

Section GateFacts.
Context {host : Host}.
Variable clock : nat -> Z.

(** The gate lets an event through when its signature is not in the
    cache, or was recorded a full window before the check. *)
Definition passesGate (s : State) (eventData : EventData) : bool :=
  match globalProcessedEvents s !! gateSignature eventData with
  | Some lastSeen => negb (clock (ticks s) - lastSeen <? CACHE_TIMEOUTS.GLOBAL_EVENTS)%Z
  | None => true
  end.

(** The readings of the clock a call of the gate makes: one for the
    check when the signature is cached, two more when the event is
    recorded. *)
Definition checkedAt (s : State) (eventData : EventData) : nat :=
  match globalProcessedEvents s !! gateSignature eventData with
  | Some _ => S (ticks s)
  | None => ticks s
  end.

Lemma dispatch_outcome eventData timestamp s :
  dispatchMatomoEventWithTimestamp clock eventData timestamp s
  = if passesGate s eventData then
      (Normal tt,
       set_dispatched
         (dispatched s ++ [set_customTimestamp timestamp (atGate s eventData)])
         (set_globalProcessedEvents
            (filter (fun kv => ~ (clock (S (checkedAt s eventData)) - kv.2
                                  > CACHE_TIMEOUTS.GLOBAL_EVENTS)%Z)
               (<[gateSignature eventData := clock (checkedAt s eventData)]>
                  (globalProcessedEvents s)))
            (set_ticks (S (S (checkedAt s eventData))) s)))
    else (Normal tt, set_ticks (S (ticks s)) s).
Proof.
  rewrite dispatch_run. unfold passesGate, checkedAt.
  pose proof (isGlobalDuplicate_cases clock (atGate s eventData) s) as Hc.
  rewrite eventSignature_atGate in Hc.
  destruct (globalProcessedEvents s !! gateSignature eventData) as [lastSeen|];
    rewrite Hc.
  - destruct (_ <? _)%Z; cbn [negb]; [reflexivity|].
    cbv zeta. rewrite markEventAsProcessed_run, eventSignature_atGate. reflexivity.
  - cbv zeta. rewrite markEventAsProcessed_run, eventSignature_atGate. reflexivity.
Qed.


(** X11. The window of the global cache ends: when an event has been
    emitted and an event with the same signature reaches the gate
    1000 ms or more after the first was recorded, the second is emitted
    as well.  Between the two the page may change in any way that
    leaves the cache alone. *)
Theorem global_cache_window_ends eventData1 eventData2 timestamp1 timestamp2 s s' :
  gateSignature eventData1 = gateSignature eventData2 ->
  passesGate s eventData1 = true ->
  let r1 := dispatchMatomoEventWithTimestamp clock eventData1 timestamp1 s in
  globalProcessedEvents s' = globalProcessedEvents r1.2 ->
  (CACHE_TIMEOUTS.GLOBAL_EVENTS
   <= clock (ticks s') - clock (checkedAt s eventData1))%Z ->
  let r2 := dispatchMatomoEventWithTimestamp clock eventData2 timestamp2 s' in
  dispatched r1.2
  = (dispatched s ++ [set_customTimestamp timestamp1 (atGate s eventData1)])%list /\
  dispatched r2.2
  = (dispatched s' ++ [set_customTimestamp timestamp2 (atGate s' eventData2)])%list.
Proof.
  intros Hsig Hpass r1 Hcache Hwin r2. subst r1 r2.
  rewrite !dispatch_outcome, Hpass in *.
  cbn [fst snd dispatched set_dispatched set_globalProcessedEvents set_ticks
       globalProcessedEvents] in *.
  split; [reflexivity|].
  assert (Hpass2 : passesGate s' eventData2 = true).
  { unfold passesGate. rewrite Hcache, <- Hsig.
    destruct (filter _ _ !! _) as [t|] eqn:Ht; [|reflexivity].
    apply map_lookup_filter_Some in Ht as [Ht _].
    rewrite lookup_insert_eq in Ht. injection Ht as <-.
    apply negb_true_iff, Z.ltb_ge. exact Hwin. }
  now rewrite Hpass2.
Qed.

End GateFacts.

(** ** Marking, the polling fallback and stacked wrappers *)

Lemma set_prop_idem k v ps : set_prop k v (set_prop k v ps) = set_prop k v ps.
Proof.
  induction ps as [|[k' v'] ps IH]; simpl.
  - now rewrite String.eqb_refl.
  - destruct (String.eqb k k') eqn:E; simpl; rewrite ?String.eqb_refl, ?E; [|rewrite IH];
      reflexivity.
Qed.

Lemma markProcessed_idem data marked :
  markProcessed data = Normal marked -> markProcessed marked = Normal marked.
Proof.
  unfold markProcessed, isObjectLike.
  destruct data as [| |b|n|str|fr es ps|fr ps]; simpl; rewrite ?andb_false_r; intros H;
    try (injection H as <-; simpl; rewrite ?andb_false_r; reflexivity).
  all: destruct fr; [discriminate|]; injection H as <-; simpl;
    now rewrite set_prop_idem.
Qed.

Lemma isProcessed_markProcessed data marked :
  isObjectLike data = true ->
  markProcessed data = Normal marked ->
  isProcessed marked = true.
Proof.
  unfold markProcessed. intros Hobj. rewrite Hobj.
  destruct data as [| |b|n|str|fr es ps|fr ps];
    try (unfold isObjectLike in Hobj; simpl in Hobj;
         rewrite ?andb_false_r in Hobj; discriminate).
  all: destruct fr; [discriminate|]; intros H; injection H as <-;
    unfold isProcessed; simpl; now rewrite lookup_set_prop_eq.
Qed.

Lemma markProcessed_primitive data :
  isObjectLike data = false -> markProcessed data = Normal data.
Proof. unfold markProcessed. now intros ->. Qed.

Lemma isProcessed_afterAnalysis data :
  isObjectLike data = true -> markable data = true ->
  isProcessed (afterAnalysis data) = true.
Proof.
  unfold markable, afterAnalysis. intros Hobj Hm.
  destruct (isProcessed data) eqn:Hp; [exact Hp|].
  destruct (markProcessed data) as [marked|] eqn:Hmark; [|discriminate].
  now apply (isProcessed_markProcessed data).
Qed.

Lemma afterAnalysis_idem data :
  markable data = true ->
  markable (afterAnalysis data) = true /\
  afterAnalysis (afterAnalysis data) = afterAnalysis data.
Proof.
  unfold markable, afterAnalysis. intros Hm.
  destruct (isProcessed data) eqn:Hp.
  - now rewrite Hp.
  - destruct (markProcessed data) as [marked|] eqn:Hmark; [|discriminate].
    rewrite (markProcessed_idem _ _ Hmark).
    split; [apply orb_true_r|]. now destruct (isProcessed marked).
Qed.


(** *** The polling fallback *)

Lemma set_mtm_timers_same s arr :
  _mtm (win s) = Some arr ->
  set_mtm (Some arr) (set_timers (timers s ++ []) s) = s.
Proof.
  destruct s as [t [m d h c] cfg i g k tm ds]. simpl. intros ->.
  unfold set_mtm, set_timers. simpl. now rewrite app_nil_r.
Qed.

Lemma replace_nth_middle {A} (pre : list A) x y rest :
  replace_nth (List.length pre) y (pre ++ x :: rest) = (pre ++ y :: rest)%list.
Proof. induction pre as [|z pre IH]; simpl; [reflexivity|now rewrite IH]. Qed.

Lemma nth_middle_value (pre : list value) x rest :
  nth (List.length pre) (pre ++ x :: rest) VUndefined = x.
Proof. induction pre as [|z pre IH]; simpl; [reflexivity|exact IH]. Qed.

Lemma scheduledTasks_shift known args argIndex :
  scheduledTasks known args argIndex = scheduledTasks 0 args (known + argIndex).
Proof.
  revert argIndex. induction args as [|data rest IH]; intros argIndex; simpl;
    [reflexivity|].
  rewrite IH. now replace (known + S argIndex)%nat with (S (known + argIndex)) by lia.
Qed.

Lemma checkEntry_run pre x rest s :
  _mtm (win s) = Some (pre ++ x :: rest)%list ->
  markable x = true ->
  checkEntry (List.length pre) s
  = (Normal tt,
     set_mtm (Some (pre ++ afterAnalysis x :: rest)%list)
       (set_timers
          (timers s ++
           if isProcessed x then []
           else [(50%Z, createMTMEventData "_mtm" (afterAnalysis x)
                          (Some (List.length pre)))]) s)).
Proof.
  intros Hmtm Hx. unfold checkEntry. rewrite run_gets, Hmtm.
  change (default [] (Some (pre ++ x :: rest)%list)) with (pre ++ x :: rest)%list.
  rewrite nth_middle_value. unfold afterAnalysis. unfold markable in Hx.
  destruct (isProcessed x) eqn:Hp.
  - unfold mret, M_ret. now rewrite set_mtm_timers_same.
  - simpl in Hx.
    destruct (markProcessed x) as [marked|] eqn:Hmark; [|discriminate].
    unfold analyzeMTMDirectPush. rewrite Hp, Hmark.
    rewrite !run_assoc. unfold setTimeout at 1. rewrite run_modify, run_ret.
    rewrite run_modify, (markProcessed_idem _ _ Hmark), run_lift.
    unfold modify. rewrite replace_nth_middle.
    destruct s as [t [m d h c] cfg i g k tm ds]. reflexivity.
Qed.

Lemma checkEntries_run rest : forall pre position s,
  _mtm (win s) = Some (pre ++ rest)%list ->
  forallb markable rest = true ->
  forEach (fun i _ => checkEntry i) (seq (List.length pre) (List.length rest)) position s
  = (Normal tt,
     set_mtm (Some (pre ++ map afterAnalysis rest)%list)
       (set_timers (timers s ++ scheduledTasks 0 rest (List.length pre)) s)).
Proof.
  induction rest as [|x rest IH]; intros pre position s Hmtm Hall.
  - simpl. rewrite app_nil_r in *. now rewrite set_mtm_timers_same.
  - simpl in Hall. apply andb_prop in Hall as [Hx Hrest].
    cbn [List.length seq forEach scheduledTasks map].
    rewrite (run_bind _ _ _ _ _ (checkEntry_run _ _ _ _ Hmtm Hx)).
    set (s1 := set_mtm _ _).
    specialize (IH (pre ++ [afterAnalysis x])%list (S position) s1).
    rewrite length_app in IH. simpl in IH.
    replace (List.length pre + 1)%nat with (S (List.length pre)) in IH by lia.
    rewrite <- app_assoc in IH. simpl in IH.
    rewrite IH by (try assumption; reflexivity).
    f_equal. subst s1. destruct s as [t [m d h c] cfg i g k tm ds].
    unfold set_mtm, set_timers. simpl. now rewrite <- !app_assoc.
Qed.



(** *** The wrapper of the periodic monitoring on top of the first *)

(** The timer callbacks [analyzeEach] schedules. *)
Fixpoint eachTasks (objName : string) (args : list value) : list (Z * EventData) :=
  match args with
  | [] => []
  | data :: rest =>
      (if isProcessed data then []
       else [(50%Z, createMTMEventData objName (afterAnalysis data) None)])
      ++ eachTasks objName rest
  end.

Lemma analyzeEach_run objName args s :
  forallb markable args = true ->
  analyzeEach objName args s
  = (Normal (map afterAnalysis args),
     set_timers (timers s ++ eachTasks objName args) s).
Proof.
  revert s. induction args as [|data rest IH]; intros s Hall.
  - simpl. now rewrite set_timers_same.
  - simpl in Hall. apply andb_prop in Hall as [Hdata Hrest].
    cbn [analyzeEach eachTasks map].
    unfold markable in Hdata. unfold analyzeMTMDirectPush.
    destruct (isProcessed data) eqn:Hproc.
    + assert (Ha : afterAnalysis data = data)
        by (unfold afterAnalysis; now rewrite Hproc).
      rewrite Ha, run_ret, (run_bind _ _ _ _ _ (IH _ Hrest)). reflexivity.
    + simpl in Hdata.
      destruct (markProcessed data) as [marked|e] eqn:Hmark; [|discriminate].
      assert (Ha : afterAnalysis data = marked)
        by (unfold afterAnalysis; now rewrite Hproc, Hmark).
      rewrite Ha, !run_assoc. unfold setTimeout. rewrite run_modify, run_ret.
      rewrite (run_bind _ _ _ _ _ (IH _ Hrest)).
      unfold mret, M_ret. f_equal.
      destruct s. unfold set_timers. simpl. now rewrite <- app_assoc.
Qed.

Lemma scheduledTasks_processed known args argIndex :
  forallb isProcessed args = true -> scheduledTasks known args argIndex = [].
Proof.
  revert argIndex. induction args as [|data rest IH]; intros argIndex H; simpl;
    [reflexivity|].
  simpl in H. apply andb_prop in H as [-> Hrest]. now apply IH.
Qed.


(** ** The consumer: order, bounds and resets *)

Definition earlier (a b : LoggedEvent) : Prop := (timestamp a <= timestamp b)%Z.

Lemma insertByTimestamp_sorted x l :
  Sorted.StronglySorted earlier l ->
  Sorted.StronglySorted earlier (insertByTimestamp x l).
Proof.
  induction 1 as [|y l Hl IH Hy]; simpl.
  - repeat constructor.
  - destruct (Z.ltb_spec (timestamp x) (timestamp y)) as [Hlt|Hge].
    + constructor; [now constructor|].
      constructor; [unfold earlier; lia|].
      eapply List.Forall_impl; [|exact Hy]. unfold earlier. intros z Hz. lia.
    + constructor; [exact IH|].
      rewrite insertByTimestamp_Permutation. now constructor.
Qed.

Lemma sortByTimestamp_sorted l : Sorted.StronglySorted earlier (sortByTimestamp l).
Proof.
  unfold sortByTimestamp.
  assert (H : forall acc, Sorted.StronglySorted earlier acc ->
                Sorted.StronglySorted earlier
                  (fold_left (fun sorted x => insertByTimestamp x sorted) l acc)).
  { induction l as [|x l IH]; intros acc Hacc; simpl; [exact Hacc|].
    apply IH. now apply insertByTimestamp_sorted. }
  apply H. constructor.
Qed.

Lemma size_keys_within {V} (m : gmap Qc V) (l : list Qc) :
  (forall k, is_Some (m !! k) -> k ∈ l) -> size m <= List.length l.
Proof.
  revert m. induction l as [|x l IH]; intros m Hm.
  - assert (m = ∅) as ->.
    { apply map_empty. intros k. apply eq_None_not_Some. intros Hk.
      specialize (Hm k Hk). now apply elem_of_nil in Hm. }
    rewrite map_size_empty. simpl. lia.
  - assert (Hd : size (delete x m) <= List.length l).
    { apply IH. intros k Hk.
      destruct (decide (k = x)) as [->|Hne].
      - rewrite lookup_delete_eq in Hk. now destruct Hk.
      - rewrite lookup_delete_ne in Hk by congruence.
        specialize (Hm k Hk). apply elem_of_cons in Hm as [?|?]; [congruence|done]. }
    pose proof (map_size_delete x m) as Hs.
    destruct (m !! x); simpl in *; lia.
Qed.

Lemma In_skipn_In {A} n (l : list A) x : In x (skipn n l) -> In x l.
Proof.
  revert l. induction n as [|n IH]; intros [|y l]; simpl; auto.
Qed.

Section LogFacts.
Context {host : Host}.
Variable clock : nat -> Z.
Variable random : nat -> Qc.

Lemma onMatomoEventDetected_dropped detail config c :
  enabled config = false \/
  suppresses (clock (checkTick detail c)) (recentEvents c) (received detail) = true ->
  let c' := onMatomoEventDetected clock random detail config c in
  eventLog c' = eventLog c /\ expandedStates c' = expandedStates c.
Proof.
  intros H c'. subst c'. destruct (enabled config) eqn:Hen.
  - destruct H as [H|H]; [discriminate|].
    pose proof (onMatomoEventDetected_outcome clock random detail config c Hen) as [_ Ho].
    rewrite H in Ho. now destruct Ho as (? & ? & _).
  - now rewrite (onMatomoEventDetected_disabled _ _ _ _ _ Hen).
Qed.

(** X16. The log is kept in the order of the event times: a delivery
    either leaves the log as it was (monitoring off, or a suppressed
    duplicate) or leaves it sorted by timestamp, so that an event of
    the initial scan, which carries a time in the past, is placed
    before the live events. *)
Theorem eventLog_sorted_after_delivery detail config c :
  let c' := onMatomoEventDetected clock random detail config c in
  eventLog c' = eventLog c \/ Sorted.StronglySorted earlier (eventLog c').
Proof.
  intros c'.
  destruct (enabled config) eqn:Hen;
    [|left; now apply onMatomoEventDetected_dropped; left].
  destruct (suppresses (clock (checkTick detail c)) (recentEvents c) (received detail))
    eqn:Hs; [left; now apply onMatomoEventDetected_dropped; right|].
  right. pose proof (onMatomoEventDetected_outcome clock random detail config c Hen) as [_ Ho].
  rewrite Hs in Ho. destruct Ho as (Hlog & _). subst c'. rewrite Hlog.
  apply sortByTimestamp_sorted.
Qed.

(** X17. The expanded states never outlive the twenty newest events:
    a delivery either leaves the log and the states as they were or
    leaves only states of the last twenty entries of the log, at most
    twenty of them. *)
Theorem expandedStates_bounded_after_delivery detail config c :
  let c' := onMatomoEventDetected clock random detail config c in
  (eventLog c' = eventLog c /\ expandedStates c' = expandedStates c) \/
  ((forall id, is_Some (expandedStates c' !! id) ->
      id ∈ map event_id (skipn (List.length (eventLog c') - 20) (eventLog c'))) /\
   size (expandedStates c') <= 20).
Proof.
  intros c'.
  destruct (enabled config) eqn:Hen;
    [|left; now apply onMatomoEventDetected_dropped; left].
  destruct (suppresses (clock (checkTick detail c)) (recentEvents c) (received detail))
    eqn:Hs; [left; now apply onMatomoEventDetected_dropped; right|].
  right. pose proof (onMatomoEventDetected_outcome clock random detail config c Hen) as [_ Ho].
  rewrite Hs in Ho. destruct Ho as (_ & Hexp & _). fold c' in Hexp.
  assert (Hkeys : forall id, is_Some (expandedStates c' !! id) ->
             id ∈ map event_id (skipn (List.length (eventLog c') - 20) (eventLog c'))).
  { intros id [b Hb]. rewrite Hexp in Hb. unfold cleanupExpandedStates in Hb.
    apply map_lookup_filter_Some in Hb as [_ Hin]. exact Hin. }
  split; [exact Hkeys|].
  etransitivity; [apply (size_keys_within _ _ Hkeys)|].
  rewrite length_map, length_skipn. lia.
Qed.

Lemma fallbackEventName_truthy e : truthy (fallbackEventName e) = true.
Proof.
  unfold fallbackEventName.
  repeat match goal with
         | |- truthy (if ?c then _ else _) = true => destruct c eqn:?
         end;
    try reflexivity; try assumption;
    match goal with H : _ && _ = true |- _ => now apply andb_prop in H end.
Qed.

(** X18. The listener stores nothing but the event it received, and
    stores it with a name: after a delivery every entry of the log was
    in the log before or is the entry built from the delivered event,
    whose name is truthy (the fallbacks end in ['Unknown']). *)
Theorem eventLog_entries_after_delivery detail config c :
  let c' := onMatomoEventDetected clock random detail config c in
  truthy (eventName (logged (entryOf clock random detail c))) = true /\
  Forall (fun e => In e (eventLog c) \/ e = entryOf clock random detail c) (eventLog c').
Proof.
  intros c'. split; [apply fallbackEventName_truthy|].
  apply List.Forall_forall. intros e He.
  destruct (enabled config) eqn:Hen.
  - pose proof (onMatomoEventDetected_outcome clock random detail config c Hen) as [_ Ho].
    fold c' in Ho.
    destruct (suppresses _ _ _).
    + destruct Ho as (Hlog & _). rewrite Hlog in He. now left.
    + destruct Ho as (Hlog & _). rewrite Hlog in He.
      eapply Permutation_in in He; [|apply sortByTimestamp_Permutation].
      unfold trimmed in He. apply In_skipn_In in He.
      apply in_app_or in He as [He|[He|[]]]; [now left|now right].
  - subst c'. rewrite (onMatomoEventDetected_disabled _ _ _ _ _ Hen) in He. now left.
Qed.



End LogFacts.

(** ** The scan of the backlog, for a backlog of any length *)

Lemma isObjectLike_put v k x : isObjectLike (put v k x) = isObjectLike v.
Proof.
  destruct v as [| |b|n|str|fr es ps|fr ps]; simpl; try reflexivity.
  now destruct (parse_index k).
Qed.

Lemma isObjectLike_extractFiredTags entry tags data :
  extractFiredTags entry = Normal (tags, data) -> isObjectLike data = isObjectLike entry.
Proof.
  unfold extractFiredTags.
  destruct (findTagField entry) as [[field [| | | | |fr es ps|]]|];
    try (intros H; injection H as _ <-; reflexivity).
  destruct (tagNamePushes entry); [intros H; injection H as _ <-; reflexivity|].
  destruct fr; [discriminate|]. intros H. injection H as _ <-.
  destruct (split_dot_last field) as (keys & key & ->).
  destruct keys as [|k keys]; simpl; apply isObjectLike_put.
Qed.

(** The entry as the scan leaves it: marked, unless it was processed
    before or cannot carry a mark. *)
Definition afterScan (entry : value) : value :=
  if isProcessed entry then entry
  else match extractFiredTags entry with
       | Normal (_, data) =>
           match markProcessed data with Normal marked => marked | Throw _ => entry end
       | Throw _ => entry
       end.

Section RescanFacts.
Context {host : Host}.
Variable clock : nat -> Z.

Lemma scanEntry_marks wasInitialScan pre x rest s :
  _mtm (win s) = Some (pre ++ x :: rest)%list ->
  isProcessed x || scannable x = true ->
  exists s' emitted,
    scanEntry clock wasInitialScan (List.length pre) s = (Normal tt, s') /\
    _mtm (win s') = Some (pre ++ afterScan x :: rest)%list /\
    dataLayer (win s') = dataLayer (win s) /\
    CONFIG s' = CONFIG s /\
    initialScanCompleted s' = initialScanCompleted s /\
    dispatched s' = (dispatched s ++ emitted)%list /\
    List.length emitted <= 1.
Proof.
  intros Hmtm Hx. unfold scanEntry. rewrite run_gets, Hmtm.
  change (default [] (Some (pre ++ x :: rest)%list)) with (pre ++ x :: rest)%list.
  rewrite nth_middle_value. unfold afterScan.
  destruct (isProcessed x) eqn:Hp.
  { exists s, []. rewrite app_nil_r. repeat split; auto. }
  simpl in Hx. destruct (scannable_spec _ Hx) as (tags & data & marked & Htags & Hmark).
  rewrite Htags, Hmark, run_Date_now.
  unfold analyzeMTMDirectPushWithTimestamp.
  rewrite Htags, !run_assoc, run_lift. cbn beta iota.
  rewrite run_assoc, run_modify, !replace_nth_middle.
  set (event := timestampedEventData "_mtm" data tags wasInitialScan
                  (Some (List.length pre))).
  set (s0 := set_mtm _ _).
  destruct (addTriggerAnalysis_run clock event s0) as (a & flags & n & Hn & Hrun).
  rewrite run_assoc, (run_bind _ _ _ _ _ Hrun).
  destruct (addContainerInfo_run (set_triggerAnalysis a flags event) (set_ticks n s0))
    as (enriched & Hrun2 & _).
  rewrite run_assoc, (run_bind _ _ _ _ _ Hrun2).
  set (timestamp := (clock (ticks s) - _)%Z).
  pose proof (dispatch_outcome clock enriched timestamp (set_ticks n s0)) as Hd.
  destruct (passesGate clock (set_ticks n s0) enriched).
  - rewrite !run_assoc, (run_bind _ _ _ _ _ Hd), run_ret, Hmark, run_lift.
    unfold modify. eexists. eexists [_]. split; [reflexivity|].
    cbn. rewrite ?replace_nth_middle. repeat split; auto.
  - rewrite !run_assoc, (run_bind _ _ _ _ _ Hd), run_ret, Hmark, run_lift.
    unfold modify. eexists. exists []. split; [reflexivity|].
    cbn. rewrite app_nil_r, ?replace_nth_middle. repeat split; auto.
Qed.

Lemma scanEntries_mark wasInitialScan rest : forall pre s,
  _mtm (win s) = Some (pre ++ rest)%list ->
  forallb (fun entry => isProcessed entry || scannable entry) rest = true ->
  exists s' emitted,
    forEach (fun (_ : value) index => scanEntry clock wasInitialScan index) rest
      (List.length pre) s = (Normal tt, s') /\
    _mtm (win s') = Some (pre ++ map afterScan rest)%list /\
    dataLayer (win s') = dataLayer (win s) /\
    CONFIG s' = CONFIG s /\
    initialScanCompleted s' = initialScanCompleted s /\
    dispatched s' = (dispatched s ++ emitted)%list /\
    List.length emitted <= List.length rest.
Proof.
  induction rest as [|x rest IH]; intros pre s Hmtm Hall.
  - exists s, []. simpl. rewrite !app_nil_r in *. repeat split; auto.
  - simpl in Hall. apply andb_prop in Hall as [Hx Hrest].
    destruct (scanEntry_marks wasInitialScan pre x rest s Hmtm Hx)
      as (s1 & e1 & Hrun1 & Hmtm1 & Hdl1 & Hcfg1 & Hinit1 & Hdisp1 & Hlen1).
    specialize (IH (pre ++ [afterScan x])%list s1).
    rewrite <- app_assoc, length_app in IH. simpl in IH.
    replace (List.length pre + 1)%nat with (S (List.length pre)) in IH by lia.
    destruct (IH Hmtm1 Hrest)
      as (s2 & e2 & Hrun2 & Hmtm2 & Hdl2 & Hcfg2 & Hinit2 & Hdisp2 & Hlen2).
    exists s2, (e1 ++ e2)%list.
    cbn [forEach]. rewrite (run_bind _ _ _ _ _ Hrun1), Hrun2.
    split; [reflexivity|].
    split; [now rewrite Hmtm2, <- app_assoc|].
    split; [congruence|]. split; [congruence|]. split; [congruence|].
    split; [now rewrite Hdisp2, Hdisp1, app_assoc|].
    rewrite length_app. simpl. lia.
Qed.

Lemma isProcessed_afterScan entry :
  isObjectLike entry = true ->
  isProcessed entry || scannable entry = true ->
  isProcessed (afterScan entry) = true.
Proof.
  intros Hobj Hx. unfold afterScan.
  destruct (isProcessed entry) eqn:Hp; [exact Hp|].
  simpl in Hx. destruct (scannable_spec _ Hx) as (tags & data & marked & Htags & Hmark).
  rewrite Htags, Hmark.
  apply (isProcessed_markProcessed data); [|exact Hmark].
  now rewrite (isObjectLike_extractFiredTags _ _ _ Htags).
Qed.

Lemma scanEntries_processed wasInitialScan rest : forall pre s,
  _mtm (win s) = Some (pre ++ rest)%list ->
  forallb isProcessed rest = true ->
  forEach (fun (_ : value) index => scanEntry clock wasInitialScan index) rest
    (List.length pre) s = (Normal tt, s).
Proof.
  induction rest as [|x rest IH]; intros pre s Hmtm Hall; [reflexivity|].
  simpl in Hall. apply andb_prop in Hall as [Hx Hrest].
  cbn [forEach].
  assert (Hrun : scanEntry clock wasInitialScan (List.length pre) s = (Normal tt, s)).
  { unfold scanEntry. rewrite run_gets, Hmtm.
    change (default [] (Some (pre ++ x :: rest)%list)) with (pre ++ x :: rest)%list.
    now rewrite nth_middle_value, Hx. }
  rewrite (run_bind _ _ _ _ _ Hrun).
  specialize (IH (pre ++ [x])%list s).
  rewrite <- app_assoc, length_app in IH. simpl in IH.
  replace (List.length pre + 1)%nat with (S (List.length pre)) in IH by lia.
  now apply IH.
Qed.


(** An entry of the data layer whose event name is truthy and no
    string. *)
Definition eventWithoutText (entry : value) : bool :=
  truthy entry && jstype_eqb (typeof entry) TObject
  && truthy (get entry "event")
  && negb (jstype_eqb (typeof (get entry "event")) TString).

Lemma filterPositions_raises entries position :
  existsb eventWithoutText entries = true ->
  filterPositions entries position = Throw TypeError.
Proof.
  revert position. induction entries as [|entry rest IH]; intros position H;
    [discriminate|].
  simpl in H. cbn [filterPositions].
  assert (Hcases : (eventWithoutText entry = true /\
                    isExistingMTMEvent entry = Throw TypeError) \/
                   (eventWithoutText entry = false /\
                    exists keep, isExistingMTMEvent entry = Normal keep)).
  { unfold eventWithoutText, isExistingMTMEvent.
    destruct (truthy entry); simpl; [|right; eauto].
    destruct (jstype_eqb (typeof entry) TObject); simpl; [|right; eauto].
    destruct (truthy (get entry "event")); simpl; [|right; eauto].
    destruct (get entry "event"); simpl; eauto. }
  destruct Hcases as [[_ ->]|[Hno [keep ->]]]; [reflexivity|].
  rewrite Hno in H. simpl in H. simpl. now rewrite (IH _ H).
Qed.

(** X22. The scan of the data layer raises on an event name that is no
    text: when the data layer is watched and one of its entries is an
    object whose [event] is truthy and no string (a number, say), the
    scan ends in a [TypeError] while it selects the entries to report,
    before any of them is analysed; nothing is emitted or marked and
    the initial scan is not recorded as done. *)
Theorem scan_raises_on_event_without_text s entries :
  dataLayer (win s) = Some entries ->
  watchDataLayer (CONFIG s) = true ->
  watchMTM (CONFIG s) = false ->
  existsb eventWithoutText entries = true ->
  monitorExistingArrays clock s = (Throw TypeError, s).
Proof.
  intros Hdl Hwatch Hmtm Hbad. unfold monitorExistingArrays.
  rewrite !run_gets, Hmtm.
  destruct (_mtm (win s)); rewrite run_ret, !run_gets, Hdl, Hwatch;
    unfold lift, mbind, M_bind; now rewrite (filterPositions_raises _ _ Hbad).
Qed.

End RescanFacts.

(** ** Live data-layer events *)

Section LiveDataLayerFacts.
Context {host : Host}.

Lemma runL_bind {A B} (m : L A) (k : A -> L B) w a w' :
  m w = (Returned a, w') -> (m ≫= k) w = k a w'.
Proof. intros H. unfold mbind, L_bind. now rewrite H. Qed.

Lemma runL_abort {A B} (m : L A) (k : A -> L B) w r w' :
  m w = (Aborted r, w') -> (m ≫= k) w = (Aborted r, w').
Proof. intros H. unfold mbind, L_bind. now rewrite H. Qed.

(** One step of a run: the computation whose outcome [H] states. *)
Ltac stepL H := unfold mbind at 1; unfold L_bind at 1; rewrite H; cbn beta iota.

Lemma onPage_lift {A} (c : completion A) w :
  onPage (lift c) w
  = (match c with Normal a => Returned a | Throw e => Aborted (Raised e) end, w).
Proof. unfold onPage, lift. destruct w, c; reflexivity. Qed.

(** An object that [analyzeMTMDataLayerEvent] does not take for an
    [Arguments] object. *)
Definition plainObject (data : value) : bool :=
  isObjectLike data && (is_undefined (get data "length") || isArray data).

Lemma analyzeMTMDataLayerEvent_plain data :
  plainObject data = true ->
  analyzeMTMDataLayerEvent data = analyzeDataLayerObject data.
Proof.
  unfold plainObject, analyzeMTMDataLayerEvent. intros H.
  apply andb_prop in H as [-> H]. simpl.
  destruct (is_undefined (get data "length")), (isArray data); simpl in *;
    try reflexivity; discriminate.
Qed.

(** X23. With the data layer watched, pushing an object that has no
    [event] raises: the wrapper evaluates
    [JSON.parse(JSON.stringify(data.event))] for the log line it never
    writes, and [JSON.parse(undefined)] is a [SyntaxError].  The error
    reaches the caller of [dataLayer.push]; the original push is not
    called, nothing is scheduled and the data layer is left as it
    was. *)
Theorem dataLayer_push_without_event_raises {R} (originalPush : list value -> L R)
    data rest w :
  plainObject data = true ->
  truthy (get data "__mtm_processed") = false ->
  get data "event" = VUndefined ->
  hasOwnProperty data "hasOwnProperty" = false ->
  analyzeMTMDataLayerEvent data w = (Aborted (Raised SyntaxError), w) /\
  interceptedDataLayerPush originalPush (data :: rest) w
  = (Aborted (Raised SyntaxError), w).
Proof.
  intros Hplain Hproc Hevent Hown.
  assert (Hobj : isObjectLike data = true)
    by (unfold plainObject in Hplain; now apply andb_prop in Hplain).
  assert (Hrun : analyzeMTMDataLayerEvent data w = (Aborted (Raised SyntaxError), w)).
  { rewrite (analyzeMTMDataLayerEvent_plain _ Hplain). unfold analyzeDataLayerObject.
    unfold isObjectLike in Hobj. apply andb_prop in Hobj as [-> ->]. cbn [negb orb].
    rewrite Hproc. cbn iota.
    assert (Htest : exists b, isMTMDataLayerEvent data = Normal b).
    { unfold isMTMDataLayerEvent, callHasOwnProperty. rewrite Hevent, Hown. simpl.
      destruct (hasOwnProperty data "mtm"); simpl; eauto.
      destruct (hasOwnProperty data "aMTMts"); simpl; eauto. }
    destruct Htest as [b Hb].
    assert (H1 : onPage (lift (isMTMDataLayerEvent data)) w = (Returned b, w))
      by (now rewrite onPage_lift, Hb).
    assert (H2 : onPage (lift (parseEventName data)) w = (Aborted (Raised SyntaxError), w))
      by (rewrite onPage_lift; unfold parseEventName; now rewrite Hevent).
    stepL H1. now stepL H2. }
  split; [exact Hrun|].
  unfold interceptedDataLayerPush. cbn [analyzeDataLayerArguments].
  assert (Hp : isProcessed data = false)
    by (unfold isProcessed; rewrite Hproc; apply andb_false_r).
  rewrite Hp.
  unfold mbind, L_bind. now rewrite Hrun.
Qed.

(** An entry the wrapper passes over: a value that is no object, an
    object that is processed already, or an object with a text as
    [event] in which the test for tag-manager events finds nothing. *)
Definition passedOver (data : value) : bool :=
  negb (isObjectLike data)
  || isProcessed data
  || (plainObject data
      && match get data "event" with VStr _ => true | _ => false end
      && match isMTMDataLayerEvent data with Normal false => true | _ => false end).

Lemma analyzeDataLayerArguments_passedOver args w :
  forallb passedOver args = true ->
  analyzeDataLayerArguments args w = (Returned args, w).
Proof.
  induction args as [|data rest IH]; intros Hall; [reflexivity|].
  simpl in Hall. apply andb_prop in Hall as [Hdata Hrest].
  cbn [analyzeDataLayerArguments].
  assert (Hrun : (if isProcessed data then mret data
                  else analyzeMTMDataLayerEvent data) w = (Returned data, w)).
  { destruct (isProcessed data) eqn:Hp; [reflexivity|].
    unfold passedOver in Hdata. rewrite Hp, orb_false_r in Hdata.
    destruct (isObjectLike data) eqn:Hobj; simpl in Hdata.
    - apply andb_prop in Hdata as [Hdata Htest].
      apply andb_prop in Hdata as [Hplain Hevent].
      rewrite (analyzeMTMDataLayerEvent_plain _ Hplain). unfold analyzeDataLayerObject.
      pose proof Hobj as Hobj'. unfold isObjectLike in Hobj'.
      apply andb_prop in Hobj' as [-> ->]. cbn [negb orb].
      unfold isProcessed in Hp. rewrite Hobj in Hp. simpl in Hp. rewrite Hp. cbn iota.
      assert (H1 : onPage (lift (isMTMDataLayerEvent data)) w = (Returned false, w)).
      { rewrite onPage_lift.
        destruct (isMTMDataLayerEvent data) as [[|]|]; try discriminate; reflexivity. }
      assert (H2 : onPage (lift (parseEventName data)) w = (Returned tt, w)).
      { rewrite onPage_lift. unfold parseEventName.
        destruct (get data "event"); try discriminate. reflexivity. }
      stepL H1. now stepL H2.
    - unfold analyzeMTMDataLayerEvent, analyzeDataLayerObject. rewrite Hobj. simpl.
      unfold isObjectLike in Hobj.
      destruct (truthy data); simpl in *; [now rewrite Hobj|reflexivity]. }
  unfold mbind, L_bind. rewrite Hrun. fold (analyzeDataLayerArguments rest).
  now rewrite (IH Hrest).
Qed.

(** X24. What is no tag-manager event passes through the wrapper of
    the data layer untouched: for values that are no objects (texts,
    numbers, [null]), for processed objects and for objects whose
    [event] is a text the test does not recognise, nothing is
    scheduled and nothing is marked; the original push is called with
    the same entries, its result is returned, and the length the
    wrapper remembers is the length of the data layer after it. *)
Theorem dataLayer_push_passes_over {R} (originalPush : list value -> L R) args w :
  forallb passedOver args = true ->
  interceptedDataLayerPush originalPush args w
  = match originalPush args w with
    | (Returned result, w') =>
        (Returned result,
         {| page := page w';
            dataLayerLength := List.length (default [] (dataLayer (win (page w')))) |})
    | (Aborted r, w') => (Aborted r, w')
    end.
Proof.
  intros Hall. unfold interceptedDataLayerPush.
  unfold mbind, L_bind.
  rewrite (analyzeDataLayerArguments_passedOver _ _ Hall).
  destruct (originalPush args w) as [[result|r] w']; [|reflexivity].
  unfold onPage, gets, set_dataLayerLength, mret, L_ret. destruct w'; reflexivity.
Qed.

(** X25. A tag-manager event pushed to the data layer (an object whose
    [event] is a text that starts with [mtm.], without tag names of its
    own) is scheduled once, as an event of source [dataLayer] without
    array index, and marked; the marked object, pushed or seen again,
    is passed over. *)
Theorem dataLayer_event_scheduled_once props name w :
  let data := VObj false props in
  let marked := VObj false (set_prop "__mtm_processed" (VBool true) props) in
  get data "event" = VStr name ->
  startsWith "mtm." name = true ->
  is_undefined (get data "length") = true ->
  truthy (get data "__mtm_processed") = false ->
  tagNamePushes data = [] ->
  exists eventData,
    analyzeMTMDataLayerEvent data w
    = (Returned marked,
       {| page := set_timers (timers (page w) ++ [(50%Z, eventData)]) (page w);
          dataLayerLength := dataLayerLength w |}) /\
    source eventData = Some "dataLayer" /\
    arrayIndex eventData = None /\
    rawData eventData = marked /\
    passedOver marked = true.
Proof.
  intros data marked Hevent Hprefix Hlen Hproc Htags.
  assert (Hplain : plainObject data = true)
    by (unfold plainObject; now rewrite Hlen).
  assert (Htest : isMTMDataLayerEvent data = Normal true).
  { unfold isMTMDataLayerEvent. rewrite Hevent. simpl. rewrite Hprefix.
    destruct name; [discriminate|reflexivity]. }
  assert (Hextract : exists tags, extractFiredTags data = Normal (tags, data)).
  { unfold extractFiredTags. rewrite Htags.
    destruct (findTagField data) as [[field [| | | | |fr es ps|]]|]; eauto. }
  destruct Hextract as [tags Hextract].
  assert (Hcreate : exists eventData,
             createDataLayerEventData data tags = Normal eventData /\
             source eventData = Some "dataLayer" /\
             arrayIndex eventData = None).
  { unfold createDataLayerEventData. rewrite Hevent.
    destruct (is_string (VStr name) "mtm.CustomEvent" || _); [eauto|].
    simpl. rewrite Hprefix. destruct (String.eqb name ""); simpl; eauto. }
  destruct Hcreate as (eventData & Hcreate & Hsource & Hindex).
  exists (set_rawData marked eventData).
  split; [|repeat split; try assumption].
  - rewrite (analyzeMTMDataLayerEvent_plain _ Hplain). unfold analyzeDataLayerObject.
    change (truthy data) with true. change (typeof data) with TObject.
    cbn [negb orb jstype_eqb]. rewrite Hproc. cbn iota.
    assert (H1 : onPage (lift (isMTMDataLayerEvent data)) w = (Returned true, w))
      by (now rewrite onPage_lift, Htest).
    assert (H2 : onPage (lift (parseEventName data)) w = (Returned tt, w))
      by (rewrite onPage_lift; unfold parseEventName; now rewrite Hevent).
    assert (H3 : onPage (lift (extractFiredTags data)) w = (Returned (tags, data), w))
      by (now rewrite onPage_lift, Hextract).
    assert (H4 : onPage (lift (createDataLayerEventData data tags)) w
                 = (Returned eventData, w))
      by (now rewrite onPage_lift, Hcreate).
    stepL H1. stepL H2. cbn iota. stepL H3. cbn iota beta. stepL H4. reflexivity.
  - unfold passedOver, isProcessed, marked. simpl.
    now rewrite lookup_set_prop_eq.
Qed.

End LiveDataLayerFacts.

(** ** The signature of the gate and the path of detection *)

(** The members of the copy [JSON_clone] makes of an object. *)
Fixpoint cloneMembers (ps : object) : object :=
  match ps with
  | [] => []
  | (k, x) :: ps' =>
      match JSON_clone x with
      | Some y => (k, y) :: cloneMembers ps'
      | None => cloneMembers ps'
      end
  end.

Lemma JSON_clone_VObj fr ps : JSON_clone (VObj fr ps) = Some (VObj false (cloneMembers ps)).
Proof. reflexivity. Qed.

(** No key occurs twice: what the property list of an object of the
    language satisfies. *)
Fixpoint distinct (ks : list string) : bool :=
  match ks with
  | [] => true
  | k :: ks' => negb (existsb (String.eqb k) ks') && distinct ks'
  end.

Definition distinctKeys (data : value) : bool :=
  match data with
  | VObj _ ps => distinct (map fst ps)
  | _ => true
  end.

Lemma spread_distinct fr ps : distinct (map fst ps) = true -> spread (VObj fr ps) = ps.
Proof.
  unfold spread. cbn [keys get].
  induction ps as [|[k v] ps IH]; intros Hd; [reflexivity|].
  cbn [map fst distinct] in *. apply andb_prop in Hd as [Hk Hd].
  apply negb_true_iff in Hk.
  cbn [lookup_prop]. rewrite String.eqb_refl. cbn [default]. f_equal.
  rewrite <- (IH Hd) at 2. apply map_ext_in. intros key Hin.
  destruct (String.eqb key k) eqn:E; [|reflexivity].
  apply String.eqb_eq in E as ->.
  assert (existsb (String.eqb k) (map fst ps) = true); [|congruence].
  apply existsb_exists. exists k. split; [exact Hin|apply String.eqb_refl].
Qed.

Lemma keys_cloneMembers k ps :
  existsb (String.eqb k) (map fst (cloneMembers ps)) = true ->
  existsb (String.eqb k) (map fst ps) = true.
Proof.
  induction ps as [|[k' x] ps IH]; simpl; [auto|].
  destruct (JSON_clone x); simpl; intros H.
  - apply orb_prop in H as [->|H]; [reflexivity|]. rewrite (IH H). apply orb_true_r.
  - rewrite (IH H). apply orb_true_r.
Qed.

Lemma distinct_cloneMembers ps :
  distinct (map fst ps) = true -> distinct (map fst (cloneMembers ps)) = true.
Proof.
  induction ps as [|[k x] ps IH]; simpl; [auto|]. intros Hd.
  apply andb_prop in Hd as [Hk Hd]. apply negb_true_iff in Hk.
  destruct (JSON_clone x); simpl; [|auto].
  rewrite (IH Hd), andb_true_r. apply negb_true_iff.
  destruct (existsb _ (map fst (cloneMembers ps))) eqn:E; [|reflexivity].
  apply keys_cloneMembers in E. congruence.
Qed.

Lemma keys_set_prop k k' v ps :
  existsb (String.eqb k) (map fst (set_prop k' v ps))
  = existsb (String.eqb k) (map fst ps) || String.eqb k k'.
Proof.
  induction ps as [|[k'' x] ps IH]; simpl; [apply orb_comm|].
  destruct (String.eqb k' k'') eqn:E; simpl.
  - apply String.eqb_eq in E as <-.
    destruct (String.eqb k k'), (existsb _ (map fst ps)); reflexivity.
  - rewrite IH. now rewrite orb_assoc.
Qed.

Lemma distinct_set_prop k v ps :
  distinct (map fst ps) = true -> distinct (map fst (set_prop k v ps)) = true.
Proof.
  induction ps as [|[k' x] ps IH]; simpl; [auto|]. intros Hd.
  apply andb_prop in Hd as [Hk Hd].
  destruct (String.eqb k k') eqn:E; simpl.
  - apply String.eqb_eq in E as <-. now rewrite Hk, Hd.
  - rewrite (IH Hd), andb_true_r, keys_set_prop.
    apply negb_true_iff in Hk. rewrite Hk. simpl.
    rewrite String.eqb_sym. now rewrite E.
Qed.

Lemma delete_cloneMembers_set_prop k v ps :
  delete_prop k (cloneMembers (set_prop k v ps)) = delete_prop k (cloneMembers ps).
Proof.
  induction ps as [|[k' x] ps IH]; simpl.
  - destruct (JSON_clone v); simpl; [now rewrite String.eqb_refl|reflexivity].
  - destruct (String.eqb k k') eqn:E; simpl.
    + apply String.eqb_eq in E as <-.
      destruct (JSON_clone v), (JSON_clone x); simpl; rewrite ?String.eqb_refl; reflexivity.
    + destruct (JSON_clone x); simpl; rewrite ?E, IH; reflexivity.
Qed.

Lemma delete_prop_comm k k' ps :
  delete_prop k (delete_prop k' ps) = delete_prop k' (delete_prop k ps).
Proof.
  induction ps as [|[k'' x] ps IH]; simpl; [reflexivity|].
  destruct (String.eqb k' k'') eqn:E, (String.eqb k k'') eqn:E'; simpl;
    rewrite ?E, ?E', IH; reflexivity.
Qed.

(** The cleaned details of an object, when no key occurs twice. *)
Lemma cleanEventDetails_distinct fr ps :
  distinct (map fst ps) = true ->
  cleanEventDetails (VObj fr ps)
  = VObj false
      (delete_prop "customTimestamp"
         (delete_prop "_debug" (delete_prop "__mtm_processed" ps))).
Proof.
  intros Hd. unfold cleanEventDetails. cbn [truthy typeof jstype_eqb negb orb].
  now rewrite (spread_distinct _ _ Hd).
Qed.

Lemma isObjectLike_cases data :
  isObjectLike data
  = match data with VArr _ _ _ | VObj _ _ => true | _ => false end.
Proof.
  unfold isObjectLike. destruct data; cbn [typeof jstype_eqb truthy];
    rewrite ?andb_false_r; reflexivity.
Qed.

Lemma markProcessed_cases data marked :
  markProcessed data = Normal marked ->
  marked = match data with
           | VObj fr ps => VObj fr (set_prop "__mtm_processed" (VBool true) ps)
           | VArr fr es ps => VArr fr es (set_prop "__mtm_processed" (VBool true) ps)
           | _ => data
           end.
Proof.
  unfold markProcessed. rewrite isObjectLike_cases.
  destruct data as [| |b|n|s|fr es ps|fr ps]; try destruct fr; intros H;
    try discriminate; now injection H.
Qed.

Section SignatureFacts.
Context {host : Host}.

(** [MTM_OBJECTS] *)
Definition MTM_OBJECTS : list string := ["_mtm"; "mtm"; "_paq_mtm"].

Lemma clonedDetails_marked ps :
  distinct (map fst ps) = true ->
  cleanEventDetails
    (VObj false (cloneMembers (set_prop "__mtm_processed" (VBool true) ps)))
  = cleanEventDetails (VObj false (cloneMembers ps)).
Proof.
  intros Hd.
  rewrite !cleanEventDetails_distinct
    by auto using distinct_cloneMembers, distinct_set_prop.
  now rewrite delete_cloneMembers_set_prop.
Qed.

Lemma clonedDetails_debug ps debugInfo :
  distinct (map fst ps) = true ->
  cleanEventDetails (VObj false (cloneMembers (set_prop "_debug" debugInfo ps)))
  = cleanEventDetails (VObj false (cloneMembers ps)).
Proof.
  intros Hd.
  rewrite !cleanEventDetails_distinct
    by auto using distinct_cloneMembers, distinct_set_prop.
  rewrite !(delete_prop_comm "_debug" "__mtm_processed").
  now rewrite delete_cloneMembers_set_prop.
Qed.

(** X26. The signature under which the gate records an event does not
    depend on how the entry was found: the event the scan builds for
    an entry (historical or not, with its debug block, with or without
    array index) and the event a wrapper builds for the same entry
    have the same signature, and so has the event built after the
    monitor has set its mark on the entry. *)
Theorem gateSignature_ignores_path_and_mark objName data tags historical index index' :
  In objName MTM_OBJECTS ->
  distinctKeys data = true ->
  gateSignature (timestampedEventData objName data tags historical index)
  = gateSignature (createMTMEventData objName data index') /\
  (forall marked,
     markProcessed data = Normal marked ->
     gateSignature (createMTMEventData objName marked index)
     = gateSignature (createMTMEventData objName data index')).
Proof.
  intros Hname Hd. split.
  - unfold gateSignature. apply eventSignature_components.
    + reflexivity.
    + simpl in Hname.
      destruct Hname as [<-|[<-|[<-|[]]]]; destruct historical; reflexivity.
    + unfold serializeEventData, timestampedEventData, createMTMEventData.
      cbn [details].
      destruct data as [| |b|n|s|fr es ps|fr ps].
      all: rewrite ?isObjectLike_cases; cbn iota.
      all: rewrite ?JSON_clone_VObj; cbn [default cloneMembers].
      all: rewrite ?JSON_clone_VObj; cbn [truthy].
      6: { destruct (JSON_clone (nth 0 es VUndefined)); reflexivity. }
      6: { simpl in Hd. rewrite (spread_distinct _ _ Hd).
           now apply clonedDetails_debug. }
      all: try reflexivity.
      all: destruct (JSON_clone _); reflexivity.
  - intros marked Hm. apply markProcessed_cases in Hm as ->.
    unfold gateSignature. apply eventSignature_components.
    + destruct data as [| |b|n|s|fr es ps|fr ps]; try reflexivity.
      unfold serializeEventData, createMTMEventData, directPushName.
      cbn [eventName get]. rewrite !isObjectLike_cases. cbn iota.
      now rewrite !lookup_set_prop_ne.
    + reflexivity.
    + destruct data as [| |b|n|s|fr es ps|fr ps]; try reflexivity.
      unfold serializeEventData, createMTMEventData.
      cbn [details]. rewrite !isObjectLike_cases. cbn iota.
      rewrite !JSON_clone_VObj. cbn [default truthy].
      simpl in Hd. now apply clonedDetails_marked.
Qed.

End SignatureFacts.

(** ** The further properties on concrete inputs *)

Definition layeredWindow : Window :=
  {| _mtm := None;
     dataLayer := Some [VObj false [("page", VStr "home")];
                        VObj false [("page", VStr "cart")];
                        VObj false [("user", VStr "anna")]];
     location_href := "https://example.org/"; MatomoTagManager := None |}.



Definition pageVariable : VariableRef :=
  {| var_name := VStr "Page"; var_type := "DataLayer";
     parameters := Some {| dataLayerName := Some "page" |};
     defaultValue := VStr "none" |}.

Definition pageIsCart (operator : string) : Condition :=
  {| actual := Some pageVariable; comparison := operator; expected := VStr "cart" |}.

Definition cartTrigger (operator : string) : Trigger :=
  {| trigger_id := VStr "7"; trigger_name := VStr "Cart"; trigger_type := VStr "CustomEvent";
     conditions := Some [pageIsCart operator];
     getReferencedTags := None; referencedTags := None |}.


(** A container in debug mode: two triggers, of which the first matches
    a push of the cart page, and one tag. *)
Definition cartTag : Tag :=
  {| tag_name := VStr "Cart view"; fireTriggerIds := Some [VStr "7"] |}.

Definition debugContainer : Container :=
  {| container_id := VStr "abc123"; versionName := VStr "live"; revision := VStr "4";
     environment := VStr "live";
     triggers := Some [cartTrigger "equals"; cartTrigger "Equals"];
     tags := Some [cartTag];
     variables := Some [pageVariable];
     container_dataLayer := VUndefined |}.

Definition debugState : State :=
  {| ticks := 0;
     win := {| _mtm := Some []; dataLayer := None;
               location_href := "https://example.org/";
               MatomoTagManager := Some [debugContainer] |};
     CONFIG := defaultConfig;
     initialScanCompleted := true;
     globalProcessedEvents := ∅;
     lastKnownLength := 0;
     timers := [];
     dispatched := [] |}.

Definition cartPush : EventData :=
  createMTMEventData "_mtm"
    (VObj false [("event", VStr "view"); ("page", VStr "cart")]) (Some 0%nat).



Lemma global_cache_window_ends_witness :
  let s := startState [clickEntry] in
  let r1 := dispatchMatomoEventWithTimestamp tickClock clickSeenByPush 1700000000000 s in
  let s' := set_ticks 150 r1.2 in
  let r2 := dispatchMatomoEventWithTimestamp tickClock clickSeenByWrapper 1700000001500 s' in
  gateSignature clickSeenByPush = gateSignature clickSeenByWrapper /\
  List.length (dispatched r1.2) = 1%nat /\
  List.length (dispatched r2.2) = 2%nat.
Proof.
  cbv zeta.
  set (s := startState [clickEntry]).
  set (r1 := dispatchMatomoEventWithTimestamp tickClock clickSeenByPush 1700000000000 s).
  assert (Hsig : gateSignature clickSeenByPush = gateSignature clickSeenByWrapper)
    by reflexivity.
  assert (Hwin : (CACHE_TIMEOUTS.GLOBAL_EVENTS
                  <= tickClock (ticks (set_ticks 150 r1.2))
                     - tickClock (checkedAt s clickSeenByPush))%Z)
    by (vm_compute; discriminate).
  pose proof (global_cache_window_ends tickClock clickSeenByPush clickSeenByWrapper
                1700000000000 1700000001500 s (set_ticks 150 r1.2)
                Hsig eq_refl eq_refl Hwin) as [Hd1 Hd2].
  split; [exact Hsig|].
  fold r1 in Hd1. rewrite Hd1, Hd2. cbn [set_ticks dispatched]. rewrite Hd1.
  split; reflexivity.
Defined.

(** Two entries appended behind the wrapper, after one that was
    reported. *)
Definition appendedBehind : State :=
  set_mtm (Some [clickEntry; plainEntry; viewEntry]) (startState [clickEntry]).





(** A clock that advances by a second at every reading. *)
Definition secondClock (n : nat) : Z := 1700000000000 + 1000 * Z.of_nat n.



(** A data layer with an entry whose event name is a number. *)
Definition numberedEvent : State :=
  {| ticks := 0;
     win := {| _mtm := None;
               dataLayer := Some [VObj false [("event", VStr "mtm.PageView")];
                                  VObj false [("event", VNum 5)]];
               location_href := "https://example.org/"; MatomoTagManager := None |};
     CONFIG := {| watchDataLayer := true; watchMTM := false; autoShow := true |};
     initialScanCompleted := false;
     globalProcessedEvents := ∅;
     lastKnownLength := 0;
     timers := [];
     dispatched := [] |}.

Lemma scan_raises_on_event_without_text_witness :
  map eventWithoutText (default [] (dataLayer (win numberedEvent))) = [false; true] /\
  monitorExistingArrays tickClock numberedEvent = (Throw TypeError, numberedEvent).
Proof.
  split; [reflexivity|].
  exact (scan_raises_on_event_without_text tickClock numberedEvent
           [VObj false [("event", VStr "mtm.PageView")]; VObj false [("event", VNum 5)]]
           eq_refl eq_refl eq_refl eq_refl).
Defined.

(** The page of [watchedDataLayer] with the wrapper of the data layer
    installed. *)
Definition watching : Watcher := {| page := watchedDataLayer; dataLayerLength := 4 |}.

Lemma dataLayer_push_without_event_raises_witness :
  interceptedDataLayerPush nativeDataLayerPush [VObj false [("page", VStr "cart")]] watching
  = (Aborted (Raised SyntaxError), watching).
Proof.
  exact (proj2 (dataLayer_push_without_event_raises nativeDataLayerPush
                  (VObj false [("page", VStr "cart")]) [] watching
                  eq_refl eq_refl eq_refl eq_refl)).
Defined.

Lemma dataLayer_push_passes_over_witness :
  let r := interceptedDataLayerPush nativeDataLayerPush
             [VStr "text"; VObj false [("event", VStr "gtm.click")]] watching in
  r.1 = Returned 6%nat /\
  timers (page r.2) = [] /\
  dataLayerLength r.2 = 6%nat.
Proof.
  cbv zeta.
  rewrite (dataLayer_push_passes_over nativeDataLayerPush
             [VStr "text"; VObj false [("event", VStr "gtm.click")]] watching eq_refl).
  repeat split; reflexivity.
Defined.

Lemma dataLayer_event_scheduled_once_witness :
  let marked := VObj false [("event", VStr "mtm.PageView");
                            ("__mtm_processed", VBool true)] in
  exists eventData,
    analyzeMTMDataLayerEvent (VObj false [("event", VStr "mtm.PageView")]) watching
    = (Returned marked,
       {| page := set_timers [(50%Z, eventData)] watchedDataLayer;
          dataLayerLength := 4 |}) /\
    source eventData = Some "dataLayer" /\
    arrayIndex eventData = None /\
    rawData eventData = marked /\
    passedOver marked = true.
Proof.
  exact (dataLayer_event_scheduled_once [("event", VStr "mtm.PageView")] "mtm.PageView"
           watching eq_refl eq_refl eq_refl eq_refl eq_refl).
Defined.

Lemma gateSignature_ignores_path_and_mark_witness :
  markProcessed plainEntry = Normal clickEntry /\
  gateSignature (timestampedEventData "_mtm" plainEntry [] true (Some 0%nat))
  = gateSignature (createMTMEventData "_mtm" plainEntry None) /\
  gateSignature (createMTMEventData "_mtm" clickEntry (Some 0%nat))
  = gateSignature (createMTMEventData "_mtm" plainEntry None).
Proof.
  split; [reflexivity|].
  destruct (gateSignature_ignores_path_and_mark "_mtm" plainEntry [] true (Some 0%nat) None
              (or_introl eq_refl) eq_refl) as [Hpath Hmark].
  split; [exact Hpath|exact (Hmark clickEntry eq_refl)].
Defined.

